(** * Gateway: transaction submission, confirmation and settlement

    A shallow embedding of the fee estimators, the gas-option builder, the
    Solana send-and-confirm engine, the settlement extractor and the balance
    queries of the gateway, with the properties the specification states
    about them.

    Conventions of the embedding.
    - A JavaScript [number] is an IEEE-754 binary64 value: Rocq's primitive
      [float].  Arithmetic and comparisons are the primitive ones, so the
      rounding of the TypeScript code is the rounding of the model.
    - [Date.now()] and block heights are integers ([Z]); an ethers
      [BigNumber] is a [Z].
    - An [async] function that awaits remote services reads their answers
      from a record (a "world") with one field per remote call; a field is a
      [Result], so a rejected promise is [Throw].
    - [static] class fields are explicit state, threaded through the calls.
    - A plain object used as a dictionary is the [gmap] of its own
      properties.  Where request input reaches a property name, writes go
      through [assign] and reads through the prototype chain
      ([Ethereum.member]), so the names every object inherits behave as
      they do in JavaScript. *)

From Stdlib Require Import ZArith Floats Bool Lia Ascii String.
From stdpp Require Import gmap strings list fin_maps.

Local Open Scope Z_scope.

(* ===================================================================== *)
(** ** JavaScript values and control effects                             *)
(* ===================================================================== *)

Module JS.

(** [try]/[catch]: a computation either returns or throws a message. *)
Inductive Result (A : Type) : Type :=
| Ok (a : A)
| Throw (msg : string).
Arguments Ok {A} a.
Arguments Throw {A} msg.

Definition is_ok {A} (r : Result A) : bool :=
  match r with Ok _ => true | Throw _ => false end.

(** State ([S]) and exceptions: what an [async] method that updates
    static fields and may reject does. *)
Definition M (S A : Type) : Type := S -> Result A * S.

Definition ret {S A} (a : A) : M S A := fun s => (Ok a, s).
Definition throw {S A} (msg : string) : M S A := fun s => (Throw msg, s).
Definition bind {S A B} (m : M S A) (k : A -> M S B) : M S B :=
  fun s => match m s with
           | (Ok a, s') => k a s'
           | (Throw e, s') => (Throw e, s')
           end.
Definition get {S} : M S S := fun s => (Ok s, s).
Definition put {S} (s : S) : M S unit := fun _ => (Ok tt, s).
(** [await p] for a remote answer [p] recorded in the world. *)
Definition await {S A} (r : Result A) : M S A := fun s => (r, s).
(** [try { body } catch (e) { handler e }] *)
Definition try_catch {S A} (body : M S A) (handler : string -> M S A) : M S A :=
  fun s => match body s with
           | (Ok a, s') => (Ok a, s')
           | (Throw e, s') => handler e s'
           end.

(** ** Numbers *)

(** A JavaScript [number]. *)
Abbreviation number := float (only parsing).

(** [!x] for a number: [0], [-0] and [NaN] are falsy. *)
Definition falsy (x : number) : bool := is_zero x || is_nan x.
Definition truthy (x : number) : bool := negb (falsy x).

(** [x || d] where [x] may be [undefined]. *)
Definition or_default (x : option number) (d : number) : number :=
  match x with
  | Some v => if truthy v then v else d
  | None => d
  end.

(** [Math.max(a, b)]: [NaN] if either is [NaN], [+0] above [-0]. *)
Definition Math_max (a b : number) : number :=
  if is_nan a || is_nan b then nan
  else if (a <? b)%float then b
  else if (b <? a)%float then a
  else if get_sign a then b else a.

(** [Math.abs] *)
Definition Math_abs (a : number) : number := abs a.

(** [parseFloat(x.toString())] / [Number(x)] for an integer [x]: the
    nearest binary64 value, ties to even. *)
Definition Number_of_Z (z : Z) : number :=
  SF2Prim (binary_normalize prec emax z 0 false).

(** [Math.pow(10, d)] for a non-negative integer [d]: the binary64 value
    nearest to [10^d].  Up to [10^22] that is the power itself; above it
    is a rounded value ([Math.pow(10, 25)] is [1e25], which repeated
    multiplication by 10 misses). *)
Definition pow10 (d : nat) : number := Number_of_Z (10 ^ Z.of_nat d).

(** ** Plain objects *)

(** A plain object ([{}]) that the code uses as a dictionary holds its own
    properties in a [gmap].  [obj[key] = value], for a [value] that is not
    an object, creates or overwrites the own property [key], with one
    exception: [__proto__] is the accessor inherited from
    [Object.prototype], whose setter ignores such a value, so the
    assignment leaves the object as it is. *)
Definition assign {V} (key : string) (value : V) (obj : gmap string V)
  : gmap string V :=
  if String.eqb key "__proto__" then obj else <[key := value]> obj.

(** The names every plain object inherits from [Object.prototype]:
    reading one of them from an object that has no own property of that
    name gives the inherited member (a function, or the prototype itself
    for [__proto__]), not [undefined]. *)
Definition inherited_names : list string :=
  ["constructor"; "__defineGetter__"; "__defineSetter__"; "hasOwnProperty";
   "__lookupGetter__"; "__lookupSetter__"; "isPrototypeOf";
   "propertyIsEnumerable"; "toString"; "valueOf"; "__proto__";
   "toLocaleString"].

Definition inherited (name : string) : bool :=
  existsb (String.eqb name) inherited_names.

End JS.

Export JS.

Declare Scope js_scope.
Delimit Scope js_scope with js.
Notation "'let*' x ':=' m 'in' k" := (bind m (fun x => k))
  (at level 10, x name, m at level 100, k at level 200) : js_scope.
Notation "m ';;' k" := (bind m (fun _ => k))
  (at level 100, k at level 200, right associativity) : js_scope.

(** Decimal literals such as [0.1] denote the nearest binary64 value, as
    they do in JavaScript. *)
Set Warnings "-inexact-float".

(* ===================================================================== *)
(** ** Solana priority-fee estimator (solana-priority-fees.ts)           *)
(* ===================================================================== *)

Module SolanaPriorityFees.
Local Open Scope js_scope.

(** The fields of [SolanaNetworkConfig] the estimator reads. *)
Record SolanaNetworkConfig : Type := {
  useHeliusRestRPC : bool;
  heliusAPIKey : option string;
  minPriorityFeePerCU : option number
}.

(** [lastPriorityFeeEstimate]: one static entry for the whole process. *)
Record PriorityFeeEstimate : Set := {
  timestamp : Z;
  fee : number
}.
Definition Cache : Set := option PriorityFeeEstimate.

Definition PRIORITY_FEE_CACHE_MS : Z := 10000.

(** The JSON body of the Helius answer: [error] is whether [data.error] is
    truthy, [priorityFeeEstimate] is [Some x] exactly when
    [typeof data.result?.priorityFeeEstimate === 'number']. *)
Record HeliusBody : Set := {
  error : bool;
  priorityFeeEstimate : option number
}.
(** [response.json()] may reject; a body that is [null] has no fields. *)
Record HeliusResponse : Set := {
  ok : bool;
  status : Z;
  json : Result (option HeliusBody)
}.
(** What one call observes: the clock at the cache test, the answer of
    [fetch], the clock when the result is stored. *)
Record World : Set := {
  now_check : Z;
  fetch : Result HeliusResponse;
  now_store : Z
}.

Definition is_space (c : ascii) : bool :=
  let n := nat_of_ascii c in
  (Nat.eqb n 32 || (Nat.leb 9 n && Nat.leb n 13))%bool.
Fixpoint trim_start (s : string) : string :=
  match s with
  | String c s' => if is_space c then trim_start s' else s
  | EmptyString => EmptyString
  end.
(** [s.trim()] (ASCII white space). *)
Definition trim (s : string) : string :=
  String.rev (trim_start (String.rev (trim_start s))).

(** [!apiKey || apiKey.trim() === '' || apiKey === 'HELIUS_API_KEY'] *)
Definition no_valid_key (apiKey : option string) : bool :=
  match apiKey with
  | None => true
  | Some k => (String.eqb k "" || String.eqb (trim k) "" || String.eqb k "HELIUS_API_KEY")%bool
  end.

(** [config.minPriorityFeePerCU || 0.1] *)
Definition minimumFee (config : SolanaNetworkConfig) : number :=
  or_default (minPriorityFeePerCU config) 0.1%float.

(** The cache test of the first lines of [estimatePriorityFee]. *)
Definition cache_hit (now : Z) (c : Cache) : option number :=
  match c with
  | Some e => if now - timestamp e <? PRIORITY_FEE_CACHE_MS then Some (fee e) else None
  | None => None
  end.

Definition estimatePriorityFee (config : SolanaNetworkConfig) (w : World)
  : M Cache number :=
  let* cache := get in
  match cache_hit (now_check w) cache with
  | Some cached => ret cached
  | None =>
    try_catch
      (if negb (useHeliusRestRPC config) then ret (minimumFee config)
       else if no_valid_key (heliusAPIKey config) then ret (minimumFee config)
       else
         let* response := await (fetch w) in
         if negb (ok response) then ret (minimumFee config)
         else
           let* data := await (json response) in
           match data with
           | None => throw "TypeError: cannot read properties of null"
           | Some data =>
             if error data then ret (minimumFee config)
             else
               match priorityFeeEstimate data with
               | None => ret (minimumFee config)
               | Some estimate =>
                 let priorityFeeLamports := (estimate / 1000000)%float in
                 let finalFee := Math_max priorityFeeLamports (minimumFee config) in
                 put (Some {| timestamp := now_store w; fee := finalFee |}) ;;
                 ret finalFee
               end
           end)
      (fun _ => ret (minimumFee config))
  end.

End SolanaPriorityFees.

(* ===================================================================== *)
(** ** Shared response types                                             *)
(* ===================================================================== *)

(** The response every swap route sends back ([status]: 1 confirmed,
    0 pending, -1 failed). *)
Module SwapData.
Record t : Set := {
  tokenIn : string;
  tokenOut : string;
  amountIn : number;
  amountOut : number;
  fee : number;
  baseTokenBalanceChange : number;
  quoteTokenBalanceChange : number
}.
End SwapData.
Module Response.
Record t : Set := {
  signature : string;
  status : Z;
  data : option SwapData.t
}.
End Response.

Inductive Side : Set := BUY | SELL.

(** A token-list entry ([TokenInfo]). *)
Module TokenInfo.
Record t : Set := {
  chainId : Z;
  address : string;
  name : string;
  symbol : string;
  decimals : nat
}.
End TokenInfo.

Definition upper_ascii (c : ascii) : ascii :=
  let n := nat_of_ascii c in
  if (Nat.leb 97 n && Nat.leb n 122)%bool then ascii_of_nat (n - 32) else c.
Definition lower_ascii (c : ascii) : ascii :=
  let n := nat_of_ascii c in
  if (Nat.leb 65 n && Nat.leb n 90)%bool then ascii_of_nat (n + 32) else c.
(** [s.toUpperCase()] and [s.toLowerCase()] (ASCII letters). *)
Fixpoint toUpperCase (s : string) : string :=
  match s with
  | String c s' => String (upper_ascii c) (toUpperCase s')
  | EmptyString => EmptyString
  end.
Fixpoint toLowerCase (s : string) : string :=
  match s with
  | String c s' => String (lower_ascii c) (toLowerCase s')
  | EmptyString => EmptyString
  end.

(* ===================================================================== *)
(** ** EVM gas-price estimator and gas options (ethereum.ts)             *)
(* ===================================================================== *)

Module Ethereum.
Local Open Scope js_scope.

(** [Ethereum.lastGasPriceEstimate], a static field shared by the
    instances of every network. *)
Module Estimate.
Record t : Set := {
  timestamp : Z;
  gasPrice : number;
  maxFeePerGas : option number;
  maxPriorityFeePerGas : option number;
  isEIP1559 : option bool
}.
End Estimate.
Definition Cache : Set := option Estimate.t.

Definition GAS_PRICE_CACHE_MS : Z := 10000.

(** The instance fields the fee code reads.  [etherscanService] tells
    whether the optional service was created by the constructor. *)
Record Ethereum : Set := {
  network : string;
  minGasPrice : number;
  maxFeePerGas : option number;
  maxPriorityFeePerGas : option number;
  etherscanService : bool
}.

(** The constructor's [this.minGasPrice = config.minGasPrice || 0.1]. *)
Definition configuredMinGasPrice (configMinGasPrice : option number) : number :=
  or_default configMinGasPrice 0.1%float.

(** [provider.getFeeData()]: each fee is a [BigNumber] or [null]. *)
Module FeeData.
Record t : Set := {
  maxFeePerGas : option Z;
  maxPriorityFeePerGas : option Z
}.
End FeeData.
(** [provider.getBlock('latest')] *)
Record Block : Set := { baseFeePerGas : option Z }.

(** What one call of [estimateGasPrice] observes of the clock, the
    Etherscan service and the RPC provider. *)
Record World : Set := {
  now_check : Z;
  (** [etherscanService.getRecommendedGasPrices('propose')]:
      [maxFeePerGas] and [maxPriorityFeePerGas] in gwei *)
  etherscan : Result (number * number);
  getFeeData : Result FeeData.t;
  getBlock : Result (option Block);
  getGasPrice : Result Z;
  (** [BigNumber.from(await provider.send('eth_maxPriorityFeePerGas', []))] *)
  eth_maxPriorityFeePerGas : Result Z;
  now_store : Z
}.

Definition supportsEIP1559 (this : Ethereum) : bool :=
  (String.eqb (network this) "mainnet"
   || String.eqb (network this) "polygon"
   || String.eqb (network this) "arbitrum"
   || String.eqb (network this) "optimism"
   || String.eqb (network this) "base")%bool.

Definition cache_hit (now : Z) (c : Cache) : option number :=
  match c with
  | Some e =>
      if now - Estimate.timestamp e <? GAS_PRICE_CACHE_MS
      then Some (Estimate.gasPrice e) else None
  | None => None
  end.

(** The [any]-typed object [prepareGasOptions] fills in; an absent
    property is [None]. *)
Module GasOptions.
Record t : Set := {
  gasLimit : number;
  type : option Z;
  maxFeePerGas : option Z;
  maxPriorityFeePerGas : option Z;
  gasPrice : option Z
}.
End GasOptions.

Section WithEthers.
(** The conversions of the ethers library, which is not part of the
    repository: [parseFloat(utils.formatUnits(x, 'gwei'))],
    [x.toNumber()] (throws outside the safe integers) and
    [utils.parseUnits(x.toString(), 'gwei')] (throws on more than nine
    fractional digits). *)
Variable formatGwei : Z -> number.
Variable toNumber : Z -> Result number.
Variable parseUnitsGwei : number -> Result Z.

(** Lines 158-172: the Etherscan attempt, with its own [catch]. *)
Definition fromEtherscan (this : Ethereum) (w : World) : option (number * number) :=
  if etherscanService this then
    match etherscan w with
    | Ok gasPrices => Some gasPrices
    | Throw _ => None
    end
  else None.

(** Lines 176-199: the RPC attempt, with its own [catch].  The result is
    [(networkMaxFeeGwei, networkPriorityFeeGwei)] when both were set. *)
Definition fromRpc (w : World) : option (number * number) :=
  match getFeeData w with
  | Ok feeData =>
      match FeeData.maxFeePerGas feeData, FeeData.maxPriorityFeePerGas feeData with
      | Some fdMaxFee, Some fdPriority =>
          match getBlock w with
          | Ok (Some block) =>
              let baseFee := match baseFeePerGas block with Some b => b | None => 0 end in
              let recommendedMaxFee := baseFee * 2 + fdPriority in
              let maxFeePerGas :=
                if fdMaxFee >? recommendedMaxFee then fdMaxFee else recommendedMaxFee in
              Some (formatGwei maxFeePerGas, formatGwei fdPriority)
          | Ok None => None   (* [block.baseFeePerGas] on [null] throws, caught *)
          | Throw _ => None
          end
      | _, _ => None
      end
  | Throw _ => None
  end.

(** The body of the [try] of lines 151-238; [Ok v] is [return v]. *)
Definition eip1559Estimate (this : Ethereum) (w : World) : M Cache number :=
  let network_fees :=
    match fromEtherscan this w with
    | Some fees => Some fees
    | None => fromRpc w
    end in
  let* fees :=
    match maxFeePerGas this, maxPriorityFeePerGas this with
    | Some configMaxFee, Some configPriority => ret (configMaxFee, configPriority)
    | _, _ =>
        match network_fees with
        | Some fees => ret fees
        | None => throw "EIP-1559 fee data not available from network or config"
        end
    end in
  let '(maxFeePerGasGwei, maxPriorityFeePerGasGwei) := fees in
  let maxFeePerGasGwei :=
    if (maxFeePerGasGwei <? minGasPrice this)%float
    then minGasPrice this else maxFeePerGasGwei in
  put (Some {| Estimate.timestamp := now_store w;
               Estimate.gasPrice := maxFeePerGasGwei;
               Estimate.maxFeePerGas := Some maxFeePerGasGwei;
               Estimate.maxPriorityFeePerGas := Some maxPriorityFeePerGasGwei;
               Estimate.isEIP1559 := Some true |}) ;;
  ret maxFeePerGasGwei.

(** Lines 245-287: legacy estimation inside its [try]/[catch]. *)
Definition legacyEstimate (this : Ethereum) (w : World) : M Cache number :=
  try_catch
    (let* baseFee := await (getGasPrice w) in
     let* priorityFee :=
       if String.eqb (network this) "mainnet"
       then await (eth_maxPriorityFeePerGas w) else ret 0 in
     let baseWithPriority := baseFee + priorityFee in
     let* networkGasPrice := await (toNumber baseWithPriority) in
     let* minGasPriceWei := await (parseUnitsGwei (minGasPrice this)) in
     let adjustedFee :=
       if baseWithPriority <? minGasPriceWei then minGasPriceWei else baseWithPriority in
     let* adjusted := await (toNumber adjustedFee) in
     let totalFeeGwei := (adjusted * 1e-9)%float in
     put (Some {| Estimate.timestamp := now_store w;
                  Estimate.gasPrice := totalFeeGwei;
                  Estimate.maxFeePerGas := None;
                  Estimate.maxPriorityFeePerGas := None;
                  Estimate.isEIP1559 := Some false |}) ;;
     ret totalFeeGwei)
    (fun _ => ret (minGasPrice this)).

Definition estimateGasPrice (this : Ethereum) (w : World) : M Cache number :=
  let* cache := get in
  match cache_hit (now_check w) cache with
  | Some cached => ret cached
  | None =>
      if supportsEIP1559 this then
        try_catch (eip1559Estimate this w) (fun _ => legacyEstimate this w)
      else legacyEstimate this w
  end.

Definition DEFAULT_GAS_LIMIT : number := 300000%float.

(** The cached EIP-1559 pair, when
    [lastGasPriceEstimate?.isEIP1559 && ?.maxFeePerGas !== undefined
     && ?.maxPriorityFeePerGas !== undefined]. *)
Definition cachedEIP1559 (c : Cache) : option (number * number) :=
  match c with
  | Some e =>
      match Estimate.isEIP1559 e, Estimate.maxFeePerGas e, Estimate.maxPriorityFeePerGas e with
      | Some true, Some maxFee, Some priority => Some (maxFee, priority)
      | _, _, _ => None
      end
  | None => None
  end.

(** [gasOptions.type = 2] with the two dynamic-fee fields. *)
Definition dynamicFeeOptions (limit : number) (maxFee priority : number)
  : M Cache GasOptions.t :=
  let* maxFeeWei := await (parseUnitsGwei maxFee) in
  let* priorityWei := await (parseUnitsGwei priority) in
  ret {| GasOptions.gasLimit := limit;
         GasOptions.type := Some 2;
         GasOptions.maxFeePerGas := Some maxFeeWei;
         GasOptions.maxPriorityFeePerGas := Some priorityWei;
         GasOptions.gasPrice := None |}.

(** Lines 369-375: [gasOptions.type = 0] with a single [gasPrice]. *)
Definition legacyOptions (this : Ethereum) (limit : number)
    (gasPrice : option number) (w : World) : M Cache GasOptions.t :=
  let* gasPriceInGwei :=
    match gasPrice with
    | Some g => ret g
    | None => estimateGasPrice this w
    end in
  let* gasPriceWei := await (parseUnitsGwei gasPriceInGwei) in
  ret {| GasOptions.gasLimit := limit;
         GasOptions.type := Some 0;
         GasOptions.maxFeePerGas := None;
         GasOptions.maxPriorityFeePerGas := None;
         GasOptions.gasPrice := Some gasPriceWei |}.

(** [prepareGasOptions(gasPrice?, gasLimit?)].  It may call
    [estimateGasPrice] twice (lines 347 and 370); [w1] and [w2] are what
    the first and the second call observe. *)
Definition prepareGasOptions (this : Ethereum)
    (gasPrice gasLimit : option number) (w1 w2 : World) : M Cache GasOptions.t :=
  let limit := match gasLimit with Some l => l | None => DEFAULT_GAS_LIMIT end in
  (* [Some g] when [gasPrice] is truthy, [None] when [!gasPrice] *)
  let provided :=
    match gasPrice with
    | Some g => if truthy g then Some g else None
    | None => None
    end in
  if supportsEIP1559 this then
    let* cache := get in
    match provided, cachedEIP1559 cache with
    | None, Some (maxFee, priority) => dynamicFeeOptions limit maxFee priority
    | Some g, _ =>
        let priorityFee := or_default (maxPriorityFeePerGas this) 0.01%float in
        dynamicFeeOptions limit g priorityFee
    | None, None =>
        estimateGasPrice this w1 ;;
        let* cache := get in
        match cachedEIP1559 cache with
        | Some (maxFee, priority) => dynamicFeeOptions limit maxFee priority
        | None => legacyOptions this limit gasPrice w2
        end
    end
  else legacyOptions this limit gasPrice w1.

End WithEthers.

(** *** Confirmation of a receipt *)

(** [providers.TransactionReceipt]: [status] may be [undefined]. *)
Module Receipt.
Record t : Set := {
  transactionHash : string;
  status : option Z;
  gasUsed : Z;
  effectiveGasPrice : Z
}.
End Receipt.

(** The fee of a receipt as the confirmed branch computes it:
    [parseFloat(gasUsed.mul(effectiveGasPrice).toString()) / 1e18]. *)
Definition receiptFee (r : Receipt.t) : number :=
  (Number_of_Z (Receipt.gasUsed r * Receipt.effectiveGasPrice r) / 1e18)%float.

Definition zeroData (inputToken outputToken : string) : SwapData.t :=
  {| SwapData.tokenIn := inputToken;
     SwapData.tokenOut := outputToken;
     SwapData.amountIn := 0%float;
     SwapData.amountOut := 0%float;
     SwapData.fee := 0%float;
     SwapData.baseTokenBalanceChange := 0%float;
     SwapData.quoteTokenBalanceChange := 0%float |}.

Definition handleTransactionConfirmation (txReceipt : option Receipt.t)
    (inputToken outputToken : string)
    (expectedAmountIn expectedAmountOut : number) (side : option Side)
  : Response.t :=
  match txReceipt with
  | None =>
      {| Response.signature := ""; Response.status := 0; Response.data := None |}
  | Some txReceipt =>
      let signature := Receipt.transactionHash txReceipt in
      match Receipt.status txReceipt with
      | Some 0 =>
          {| Response.signature := signature;
             Response.status := -1;
             Response.data := Some (zeroData inputToken outputToken) |}
      | Some 1 =>
          let fee := receiptFee txReceipt in
          let '(baseTokenBalanceChange, quoteTokenBalanceChange) :=
            match side with
            | Some SELL => ((- expectedAmountIn)%float, expectedAmountOut)
            | Some BUY => (expectedAmountOut, (- expectedAmountIn)%float)
            | None => ((- expectedAmountIn)%float, expectedAmountOut)
            end in
          {| Response.signature := signature;
             Response.status := 1;
             Response.data := Some
               {| SwapData.tokenIn := inputToken;
                  SwapData.tokenOut := outputToken;
                  SwapData.amountIn := expectedAmountIn;
                  SwapData.amountOut := expectedAmountOut;
                  SwapData.fee := fee;
                  SwapData.baseTokenBalanceChange := baseTokenBalanceChange;
                  SwapData.quoteTokenBalanceChange := quoteTokenBalanceChange |} |}
      | _ =>
          {| Response.signature := signature;
             Response.status := 0;
             Response.data := Some (zeroData inputToken outputToken) |}
      end
  end.

(** *** Balances *)

(** The token fields of an instance.  [tokenMap] is keyed by symbol and
    [storedTokenList] is [Object.values(this.tokenMap)]. *)
Record Tokens : Type := {
  chainId : Z;
  nativeTokenSymbol : string;
  tokenList : list TokenInfo.t;
  tokenMap : gmap string TokenInfo.t
}.

(** What [getBalances] observes.  The result of [getBalances] is a plain
    object filled by assignments ([assign]).  The two balance fields stand
    for the awaited call followed by [parseFloat(tokenValueToString(_))];
    [getERC20Balance addr timeout] covers both the wallet and the
    by-address variant. *)
Record BalanceWorld : Type := {
  isHardwareWallet : Result bool;
  getWallet : Result unit;
  getNativeBalance : Result number;
  getERC20Balance : string -> Z -> Result number
}.

Section WithAddresses.
(** [utils.getAddress]: the checksummed address, or a throw. *)
Variable getAddress : string -> Result string.

(** [getToken(tokenSymbol)] *)
Definition getToken (this : Tokens) (tokenSymbol : string) : option TokenInfo.t :=
  let tokenBySymbol :=
    List.find (fun token =>
                 String.eqb (toUpperCase (TokenInfo.symbol token)) (toUpperCase tokenSymbol)
                 && (TokenInfo.chainId token =? chainId this))
              (tokenList this) in
  match tokenBySymbol with
  | Some token => Some token
  | None =>
      match getAddress tokenSymbol with
      | Ok normalizedAddress =>
          List.find (fun token =>
                       String.eqb (toLowerCase (TokenInfo.address token))
                                  (toLowerCase normalizedAddress)
                       && (TokenInfo.chainId token =? chainId this))
                    (tokenList this)
      | Throw _ => None
      end
  end.

(** [getAllTokenBalances]: one callback per stored token; a callback
    writes its own key only, and only a positive balance. *)
Definition getAllTokenBalances (this : Tokens) (w : BalanceWorld)
    (balances : gmap string number) : gmap string number :=
  map_fold
    (fun _ token balances =>
       match getERC20Balance w (TokenInfo.address token) 2000 with
       | Ok balanceNum =>
           if (0 <? balanceNum)%float
           then assign (TokenInfo.symbol token) balanceNum balances
           else balances
       | Throw _ => balances
       end)
    balances (tokenMap this).

(** [getSpecificTokenBalances] *)
Definition getSpecificTokenBalances (this : Tokens) (w : BalanceWorld)
    (tokens : list string) (balances : gmap string number) : gmap string number :=
  foldl
    (fun balances symbolOrAddress =>
       if String.eqb symbolOrAddress (nativeTokenSymbol this) then balances
       else
         match getToken this symbolOrAddress with
         | Some token =>
             match getERC20Balance w (TokenInfo.address token) 5000 with
             | Ok balanceNum => assign (TokenInfo.symbol token) balanceNum balances
             | Throw _ => assign (TokenInfo.symbol token) 0%float balances
             end
         | None => assign symbolOrAddress 0%float balances
         end)
    balances tokens.

(** [getBalances(address, tokens?)] *)
Definition getBalances {S} (this : Tokens) (w : BalanceWorld)
    (tokens : option (list string)) : M S (gmap string number) :=
  let effectiveTokens :=
    match tokens with
    | Some [] => None
    | _ => tokens
    end in
  let* isHardware := await (isHardwareWallet w) in
  (if negb isHardware then await (getWallet w) else ret tt) ;;
  let* nativeBalance := await (getNativeBalance w) in
  let balances : gmap string number := assign (nativeTokenSymbol this) nativeBalance ∅ in
  match effectiveTokens with
  | None => ret (getAllTokenBalances this w balances)
  | Some effectiveTokens => ret (getSpecificTokenBalances this w effectiveTokens balances)
  end.
End WithAddresses.

(** *** Token list *)

Section WithTokenService.
Variable getAddress : string -> Result string.

(** [getTokensAsMap(tokens)] *)
Definition getTokensAsMap (this : Tokens) (tokens : list string)
  : gmap string TokenInfo.t :=
  foldl
    (fun tokenMap symbolOrAddress =>
       match getToken getAddress this symbolOrAddress with
       | Some tokenInfo => <[TokenInfo.symbol tokenInfo := tokenInfo]> tokenMap
       | None => tokenMap
       end)
    ∅ tokens.

(** [tokens.map((token) => ({ ...token, address: getAddress(token.address),
    chainId: this.chainId }))]: the first address [getAddress] refuses
    ends the [map]. *)
Fixpoint normalizeTokens (chainId : Z) (tokens : list TokenInfo.t)
  : Result (list TokenInfo.t) :=
  match tokens with
  | [] => Ok []
  | token :: rest =>
      match getAddress (TokenInfo.address token) with
      | Throw e => Throw e
      | Ok address =>
          match normalizeTokens chainId rest with
          | Throw e => Throw e
          | Ok rest' =>
              Ok ({| TokenInfo.chainId := chainId;
                     TokenInfo.address := address;
                     TokenInfo.name := TokenInfo.name token;
                     TokenInfo.symbol := TokenInfo.symbol token;
                     TokenInfo.decimals := TokenInfo.decimals token |} :: rest')
          end
      end
  end.

(** [loadTokens()]; [loaded] is the answer of
    [TokenService.getInstance().loadTokenList('ethereum', this.network)].
    The state is the instance. *)
Definition loadTokens (loaded : Result (list TokenInfo.t)) : M Tokens unit :=
  try_catch
    (let* tokens := await loaded in
     let* this := get in
     let* tokenList := await (normalizeTokens (chainId this) tokens) in
     put {| chainId := chainId this;
            nativeTokenSymbol := nativeTokenSymbol this;
            tokenList := tokenList;
            tokenMap :=
              foldl (fun tokenMap token => <[TokenInfo.symbol token := token]> tokenMap)
                    (tokenMap this) tokenList |})
    (fun error => throw error).

(** *** Instances *)

(** An instance: its token fields and [_initialized]. *)
Record Instance : Type := {
  tokens : Tokens;
  _initialized : bool
}.


(** [init()] *)
Definition init (loaded : Result (list TokenInfo.t)) : M Instance unit :=
  try_catch
    (fun this =>
       match loadTokens loaded (tokens this) with
       | (Ok _, tokens') => (Ok tt, {| tokens := tokens'; _initialized := true |})
       | (Throw e, tokens') =>
           (Throw e, {| tokens := tokens'; _initialized := _initialized this |})
       end)
    (fun e => throw e).

(** [Ethereum._instances], [undefined] until the first [getInstance]: a
    plain object keyed by network name. *)
Definition Instances : Type := option (gmap string Instance).

(** What [Ethereum._instances[network]] evaluates to when it is not
    [undefined]: the instance stored under the name or, for a name under
    which nothing is stored, the member of [Object.prototype] of that
    name.  Both are truthy. *)
Inductive Member : Type :=
| Stored (instance : Instance)
| Inherited (name : string).

(** [Ethereum._instances[network]] *)
Definition member (instances : gmap string Instance) (network : string)
  : option Member :=
  match instances !! network with
  | Some instance => Some (Stored instance)
  | None => if inherited network then Some (Inherited network) else None
  end.

(** [Ethereum.getInstance(network)]; [construct] is [new Ethereum(network)],
    which reads the configuration of the network.  The call is suspended
    at [await instance.init()]: [meanwhile] is what the calls that run in
    between do to the registry, so the store that follows acts on the
    registry as they left it.  The store is reached only for a name that
    is not inherited, where it creates an own property. *)
Definition getInstance (construct : string -> Result Instance)
    (loaded : Result (list TokenInfo.t))
    (meanwhile : gmap string Instance -> gmap string Instance)
    (network : string) : M Instances Member :=
  let* registry := get in
  let instances : gmap string Instance := default ∅ registry in
  put (Some instances) ;;
  match member instances network with
  | Some found => ret found
  | None =>
      let* instance := await (construct network) in
      let outcome := init loaded instance in
      put (Some (meanwhile instances)) ;;
      match outcome with
      | (Ok _, instance) =>
          put (Some (<[network := instance]> (meanwhile instances))) ;;
          ret (Stored instance)
      | (Throw e, _) => throw e
      end
  end.

(** [close()] of the instance of [network]. *)
Definition close (network : string) : M Instances unit :=
  let* registry := get in
  match registry with
  | Some instances =>
      match instances !! network with
      | Some _ => put (Some (delete network instances))
      | None => ret tt
      end
  | None => throw ("Cannot use 'in' operator to search for '" ++ network ++ "' in undefined")
  end.
End WithTokenService.

End Ethereum.

(* ===================================================================== *)
(** ** Solana: send, confirm, settle (solana.ts)                         *)
(* ===================================================================== *)

Module Solana.
Local Open Scope js_scope.

Definition BASE_FEE : number := 5000%float.
Definition LAMPORT_TO_SOL : number := (1 / pow10 9)%float.

(** *** Transaction records returned by the RPC node *)

(** [VersionedTransactionResponse]: the part [getFee] and the status
    code read.  [err] is [meta.err], [None] when it is [null]. *)
Module TxMeta.
Record t : Set := {
  fee : option number;
  err : option string
}.
End TxMeta.
Module TxData.
Record t : Set := { meta : option TxMeta.t }.
End TxData.

(** [TokenBalance.uiTokenAmount]: [amount] is the raw integer (a decimal
    string on the wire), [uiAmount] the scaled binary64 value the node
    computed from it, or [null]. *)
Module TokenAmount.
Record t : Set := {
  amount : Z;
  decimals : nat;
  uiAmount : option number
}.
End TokenAmount.
Module TokenBalance.
Record t : Set := {
  mint : string;
  owner : option string;
  uiTokenAmount : TokenAmount.t
}.
End TokenBalance.
(** [ParsedTransactionWithMeta]; [accountKeys] are the base58 public keys
    of [transaction.message.accountKeys]. *)
Module ParsedMeta.
Record t : Set := {
  fee : option number;
  preBalances : option (list number);
  postBalances : option (list number);
  preTokenBalances : option (list TokenBalance.t);
  postTokenBalances : option (list TokenBalance.t)
}.
End ParsedMeta.
Module ParsedTx.
Record t : Set := {
  meta : option ParsedMeta.t;
  accountKeys : list string
}.
End ParsedTx.

(** *** Remote calls, recorded in the order they are made *)

Inductive Event : Set :=
| GetLatestBlockhash
| SendWithSender (payload : list Byte.byte)
| SendRawTransaction (payload : list Byte.byte) (skipPreflight : bool) (maxRetries : Z)
| MonitorTransaction (signature : string) (timeout : Z)
| GetSignatureStatuses (signature : string)
| GetTransaction (signature : string)
| GetBlockHeight
| GetParsedTransaction (signature : string)
| Sleep (ms : number).

Definition Trace : Set := list Event.

(** Make a remote call: record it, then await its answer. *)
Definition call {A} (e : Event) (answer : Result A) : M Trace A :=
  fun tr => (answer, tr ++ [e]).

(** *** Fees *)

(** [getFee(txData)] *)
Definition getFee (txData : option TxData.t) : number :=
  match txData with
  | Some d =>
      match TxData.meta d with
      | Some m => (or_default (TxMeta.fee m) 0 * LAMPORT_TO_SOL)%float
      | None => 0%float
      end
  | None => 0%float
  end.

(** *** Settlement extraction *)

Definition SOL_NATIVE_MINT : string := "So11111111111111111111111111111111111111112".

(** [arr.findIndex(p)]; [None] is [-1]. *)
Fixpoint findIndex {A} (p : A -> bool) (l : list A) : option nat :=
  match l with
  | [] => None
  | x :: l' => if p x then Some O else option_map S (findIndex p l')
  end.

(** [arr[i]] of a number array used in arithmetic: [undefined] becomes
    [NaN]. *)
Definition at_index (l : list number) (i : nat) : number :=
  match l !! i with Some x => x | None => nan end.

(** [balances.find(b => b.mint === token && b.owner === owner)
      ?.uiTokenAmount.uiAmount || 0] *)
Definition uiBalance (balances : list TokenBalance.t) (token owner : string) : number :=
  let found :=
    List.find (fun b => String.eqb (TokenBalance.mint b) token
                        && match TokenBalance.owner b with
                           | Some o => String.eqb o owner
                           | None => false
                           end) balances in
  match found with
  | Some b => or_default (TokenAmount.uiAmount (TokenBalance.uiTokenAmount b)) 0%float
  | None => 0%float
  end.

Definition or_empty {A} (l : option (list A)) : list A :=
  match l with Some l => l | None => [] end.

(** The callback of [tokens.map] in [extractBalanceChangesAndFee]. *)
Definition balanceChange (txDetails : ParsedTx.t) (owner token : string) : number :=
  let meta := ParsedTx.meta txDetails in
  let preBalances := or_empty (meta ≫= ParsedMeta.preBalances) in
  let postBalances := or_empty (meta ≫= ParsedMeta.postBalances) in
  let preTokenBalances := or_empty (meta ≫= ParsedMeta.preTokenBalances) in
  let postTokenBalances := or_empty (meta ≫= ParsedMeta.postTokenBalances) in
  if String.eqb token SOL_NATIVE_MINT then
    match findIndex (String.eqb owner) (ParsedTx.accountKeys txDetails) with
    | None => 0%float
    | Some accountIndex =>
        let lamportChange :=
          (at_index postBalances accountIndex - at_index preBalances accountIndex)%float in
        (lamportChange * LAMPORT_TO_SOL)%float
    end
  else
    let preBalance := uiBalance preTokenBalances token owner in
    let postBalance := uiBalance postTokenBalances token owner in
    (postBalance - preBalance)%float.

Section WithPublicKey.
(** [new PublicKey(s)] throws unless [s] is a base58 key; two keys are
    [equals] when their base58 strings are the same. *)
Variable isPublicKey : string -> bool.

(** [extractBalanceChangesAndFee(signature, owner, tokens)];
    [parsed] is the answer of [connection.getParsedTransaction]. *)
Definition extractBalanceChangesAndFee
    (parsed : Result (option ParsedTx.t))
    (signature owner : string) (tokens : list string)
  : M Trace (list number * number) :=
  let* txDetails := call (GetParsedTransaction signature) parsed in
  match txDetails with
  | None => throw ("Transaction " ++ signature ++ " not found")
  | Some txDetails =>
      let fee :=
        (or_default (ParsedTx.meta txDetails ≫= ParsedMeta.fee) 0 * LAMPORT_TO_SOL)%float in
      if isPublicKey owner then
        ret (List.map (balanceChange txDetails owner) tokens, fee)
      else throw "Invalid public key input"
  end.

(** [handleConfirmation(signature, confirmed, txData, tokenIn, tokenOut,
    walletAddress, side?)] *)
Definition handleConfirmation
    (parsed : Result (option ParsedTx.t))
    (signature : string) (confirmed : bool) (txData : option TxData.t)
    (tokenIn tokenOut walletAddress : string) (side : option Side)
  : M Trace Response.t :=
  match confirmed, txData with
  | true, Some _ =>
      let* r := extractBalanceChangesAndFee parsed signature walletAddress
                  [tokenIn; tokenOut] in
      let '(balanceChanges, fee) := r in
      let inputTokenBalanceChange := at_index balanceChanges 0 in
      let outputTokenBalanceChange := at_index balanceChanges 1 in
      let amountIn := Math_abs inputTokenBalanceChange in
      let amountOut := Math_abs outputTokenBalanceChange in
      let '(baseTokenBalanceChange, quoteTokenBalanceChange) :=
        match side with
        | Some SELL => (inputTokenBalanceChange, outputTokenBalanceChange)
        | Some BUY => (outputTokenBalanceChange, inputTokenBalanceChange)
        | None => (inputTokenBalanceChange, outputTokenBalanceChange)
        end in
      ret {| Response.signature := signature;
             Response.status := 1;
             Response.data := Some
               {| SwapData.tokenIn := tokenIn;
                  SwapData.tokenOut := tokenOut;
                  SwapData.amountIn := amountIn;
                  SwapData.amountOut := amountOut;
                  SwapData.fee := fee;
                  SwapData.baseTokenBalanceChange := baseTokenBalanceChange;
                  SwapData.quoteTokenBalanceChange := quoteTokenBalanceChange |} |}
  | false, Some _ =>
      let fee := getFee txData in
      ret {| Response.signature := signature;
             Response.status := -1;
             Response.data := Some
               {| SwapData.tokenIn := tokenIn;
                  SwapData.tokenOut := tokenOut;
                  SwapData.amountIn := 0%float;
                  SwapData.amountOut := 0%float;
                  SwapData.fee := fee;
                  SwapData.baseTokenBalanceChange := 0%float;
                  SwapData.quoteTokenBalanceChange := 0%float |} |}
  | _, None =>
      ret {| Response.signature := signature;
             Response.status := 0;
             Response.data := None |}
  end.
End WithPublicKey.

(** *** Send and confirm *)

Inductive ConfirmationStatus : Set := processed | confirmed | finalized.

(** One entry of [getSignatureStatuses]: [err] is [None] when [null]. *)
Module SignatureStatus.
Record t : Set := {
  err : option string;
  confirmationStatus : option ConfirmationStatus
}.
End SignatureStatus.

(** [{ confirmed, signature, txData }] *)
Module Confirmation.
Record t : Set := {
  confirmed : bool;
  signature : string;
  txData : option TxData.t
}.
End Confirmation.

(** The answer of [heliusService.monitorTransaction]. *)
Module Monitor.
Record t : Set := {
  confirmed : bool;
  txData : option TxData.t
}.
End Monitor.

(** What one polling attempt observes.  [getSignatureStatuses] is [None]
    when [statuses && statuses.value && statuses.value[0]] is falsy;
    [rebroadcast] answers the [sendRawTransaction] of line 1506. *)
Record Poll : Set := {
  getSignatureStatuses : Result (option SignatureStatus.t);
  getTransaction : Result (option TxData.t);
  getBlockHeight : Result Z;
  rebroadcast : Result string
}.

(** What one call of [_sendAndConfirmRawTransaction] observes; [polls n]
    is what the [n]-th polling attempt observes. *)
Record Network : Set := {
  getLatestBlockhash : Result (string * Z);
  sendWithSender : Result string;
  sendRawTransaction : Result string;
  isWebSocketConnected : bool;
  monitorTransaction : Result Monitor.t;
  polls : nat -> Poll
}.

(** The instance fields the engine reads. *)
Record Solana : Set := {
  heliusService : bool;
  confirmRetryInterval : number;
  confirmRetryCount : number
}.

Definition maxPollingAttempts : nat := 30.

Definition notConfirmed (signature : string) : Confirmation.t :=
  {| Confirmation.confirmed := false;
     Confirmation.signature := signature;
     Confirmation.txData := None |}.

(** The body of the [while] loop, lines 1475-1523: [Some r] is
    [return r], [None] goes on to the next iteration. *)
Definition pollAttempt (this : Solana) (serializedTx : list Byte.byte)
    (lastValidBlockHeight : Z) (signature : string) (p : Poll)
  : M Trace (option Confirmation.t) :=
  let checkExpiryAndWait : M Trace (option Confirmation.t) :=
    let* currentBlockHeight := call GetBlockHeight (getBlockHeight p) in
    (if currentBlockHeight >? lastValidBlockHeight then
       try_catch
         (call (SendRawTransaction serializedTx true 0) (rebroadcast p) ;; ret tt)
         (fun _ => ret tt)
     else ret tt) ;;
    call (Sleep (confirmRetryInterval this * 1000)%float) (Ok tt) ;;
    ret None in
  try_catch
    (let* status := call (GetSignatureStatuses signature) (getSignatureStatuses p) in
     match status with
     | Some st =>
         match SignatureStatus.err st with
         | Some _ => ret (Some (notConfirmed signature))
         | None =>
             match SignatureStatus.confirmationStatus st with
             | Some confirmed | Some finalized =>
                 let* txData := call (GetTransaction signature) (getTransaction p) in
                 ret (Some {| Confirmation.confirmed := true;
                              Confirmation.signature := signature;
                              Confirmation.txData := txData |})
             | _ => checkExpiryAndWait
             end
         end
     | None => checkExpiryAndWait
     end)
    (fun _ => call (Sleep 1000%float) (Ok tt) ;; ret None).

(** [while (!confirmed && attempts < maxPollingAttempts)], where
    [confirmed] is the constant [false]: [budget] is
    [maxPollingAttempts - attempts]. *)
Fixpoint pollLoop (this : Solana) (serializedTx : list Byte.byte)
    (lastValidBlockHeight : Z) (signature : string) (polls : nat -> Poll)
    (budget attempts : nat) : M Trace Confirmation.t :=
  match budget with
  | O => ret (notConfirmed signature)
  | S budget' =>
      let attempts := S attempts in
      let* r := pollAttempt this serializedTx lastValidBlockHeight signature
                  (polls attempts) in
      match r with
      | Some result => ret result
      | None => pollLoop this serializedTx lastValidBlockHeight signature polls
                  budget' attempts
      end
  end.

(** Lines 1432-1449: the first broadcast. *)
Definition broadcast (this : Solana) (net : Network) (serializedTx : list Byte.byte)
  : M Trace string :=
  if heliusService this then
    try_catch
      (call (SendWithSender serializedTx) (sendWithSender net))
      (fun _ => call (SendRawTransaction serializedTx true 0) (sendRawTransaction net))
  else call (SendRawTransaction serializedTx true 0) (sendRawTransaction net).

Definition _sendAndConfirmRawTransaction (this : Solana) (net : Network)
    (serializedTx : list Byte.byte) : M Trace Confirmation.t :=
  let* latest := call GetLatestBlockhash (getLatestBlockhash net) in
  let lastValidBlockHeight := snd latest in
  (* the outer [try]: [signature] is still [null] if the send throws *)
  let* sent := try_catch (let* s := broadcast this net serializedTx in ret (Some s))
                         (fun _ => ret None) in
  match sent with
  | None => ret (notConfirmed "")
  | Some signature =>
      try_catch
        (if heliusService this && isWebSocketConnected net then
           let* confirmationResult :=
             call (MonitorTransaction signature 60000) (monitorTransaction net) in
           ret {| Confirmation.confirmed := Monitor.confirmed confirmationResult;
                  Confirmation.signature := signature;
                  Confirmation.txData := Monitor.txData confirmationResult |}
         else
           pollLoop this serializedTx lastValidBlockHeight signature (polls net)
             maxPollingAttempts 0)
        (fun _ => ret (notConfirmed signature))
  end.

(** The end of [sendAndConfirmTransaction], lines 1113-1122;
    [serializedTx] is [tx.serialize()] of the prepared transaction. *)
Definition sendAndConfirmTransaction (this : Solana) (net : Network)
    (serializedTx : list Byte.byte) : M Trace (string * number) :=
  let* r := _sendAndConfirmRawTransaction this net serializedTx in
  match Confirmation.confirmed r, Confirmation.txData r with
  | true, Some txData => ret (Confirmation.signature r, getFee (Some txData))
  | _, _ => throw "Transaction failed to confirm"
  end.

(** *** Balances *)

(** A parsed token account: the raw [amount] (a [bigint]). *)
Record TokenAccount : Set := { amount : Z }.

(** What [getBalances] observes: [connection.getBalance] in lamports,
    the map built by [fetchTokenAccounts] (empty when the request
    failed), and the decimals [getMint] reports for a mint. *)
Record BalanceWorld : Type := {
  getBalance : Result number;
  fetchTokenAccounts : gmap string TokenAccount;
  getMint : string -> Result nat
}.

(** [getSolBalance] *)
Definition getSolBalance (w : BalanceWorld) : number :=
  match getBalance w with
  | Ok solBalance => (solBalance * LAMPORT_TO_SOL)%float
  | Throw _ => 0%float
  end.

(** [getTokenBalance(tokenAccount, decimals)] *)
Definition getTokenBalance (tokenAccount : option TokenAccount) (decimals : nat) : number :=
  match tokenAccount with
  | None => 0%float
  | Some account => (Number_of_Z (amount account) / pow10 decimals)%float
  end.

(** [getTokenBalanceWithMintInfo(tokenAccount, mintAddress)] *)
Definition getTokenBalanceWithMintInfo (w : BalanceWorld)
    (tokenAccount : TokenAccount) (mintAddress : string) : number :=
  match getMint w mintAddress with
  | Ok decimals => (Number_of_Z (amount tokenAccount) / pow10 decimals)%float
  | Throw _ => (Number_of_Z (amount tokenAccount) / pow10 9)%float
  end.

Definition isSol (s : string) : bool :=
  String.eqb (toUpperCase s) "SOL" || String.eqb s SOL_NATIVE_MINT.

(** [handleEmptyTokenAccounts(balances, effectiveSymbols)] *)
Definition handleEmptyTokenAccounts (balances : gmap string number)
    (effectiveSymbols : option (list string)) : gmap string number :=
  match effectiveSymbols with
  | Some symbols =>
      foldl (fun balances symbol =>
               if negb (isSol symbol) then assign symbol 0%float balances else balances)
            balances symbols
  | None => balances
  end.

(** [filterZeroBalances(balances)] *)
Definition filterZeroBalances (balances : gmap string number) : gmap string number :=
  let filtered : gmap string number :=
    match balances !! "SOL" with
    | Some sol => {[ "SOL" := sol ]}
    | None => ∅
    end in
  map_fold
    (fun key value filtered =>
       if negb (String.eqb key "SOL") && (0 <? value)%float
       then assign key value filtered else filtered)
    filtered balances.

Section WithTokenList.
Variable isPublicKey : string -> bool.
Variable tokenList : list TokenInfo.t.

(** [processSpecificTokens] *)
Definition processSpecificTokens (w : BalanceWorld)
    (tokenAccounts : gmap string TokenAccount) (symbols : list string)
    (balances : gmap string number) : gmap string number :=
  foldl
    (fun balances symbol =>
       if isSol symbol then balances
       else
         match List.find (fun t => String.eqb (toUpperCase (TokenInfo.symbol t))
                                              (toUpperCase symbol)) tokenList with
         | Some tokenInfo =>
             assign (TokenInfo.symbol tokenInfo)
                    (getTokenBalance (tokenAccounts !! TokenInfo.address tokenInfo)
                                     (TokenInfo.decimals tokenInfo))
                    balances
         | None =>
             if isPublicKey symbol then
               match tokenAccounts !! symbol with
               | Some tokenAccount =>
                   assign symbol (getTokenBalanceWithMintInfo w tokenAccount symbol) balances
               | None => assign symbol 0%float balances
               end
             else assign symbol 0%float balances
         end)
    balances symbols.

(** [processAllTokens] ([fetchAll = true]): one step per token account;
    the order of the steps matters only when two mints of the wallet
    carry the same symbol. *)
Definition processAllTokens (w : BalanceWorld)
    (tokenAccounts : gmap string TokenAccount)
    (balances : gmap string number) : gmap string number :=
  map_fold
    (fun mintAddress tokenAccount balances =>
       match List.find (fun t => String.eqb (TokenInfo.address t) mintAddress) tokenList with
       | Some tokenInfo =>
           assign (TokenInfo.symbol tokenInfo)
                  (getTokenBalance (Some tokenAccount) (TokenInfo.decimals tokenInfo))
                  balances
       | None =>
           let balance := getTokenBalanceWithMintInfo w tokenAccount mintAddress in
           if (0 <? balance)%float then assign mintAddress balance balances else balances
       end)
    balances tokenAccounts.

(** [processTokenListOnly] (the default) *)
Definition processTokenListOnly (tokenAccounts : gmap string TokenAccount)
    (balances : gmap string number) : gmap string number :=
  foldl
    (fun balances tokenInfo =>
       if String.eqb (TokenInfo.symbol tokenInfo) "SOL" then balances
       else
         match tokenAccounts !! TokenInfo.address tokenInfo with
         | Some tokenAccount =>
             let balance := getTokenBalance (Some tokenAccount) (TokenInfo.decimals tokenInfo) in
             if (0 <? balance)%float
             then assign (TokenInfo.symbol tokenInfo) balance balances
             else balances
         | None => balances
         end)
    balances tokenList.

(** [getBalances(address, tokens?, fetchAll = false)] *)
Definition getBalances {S} (w : BalanceWorld) (address : string)
    (tokens : option (list string)) (fetchAll : bool)
  : M S (gmap string number) :=
  if negb (isPublicKey address) then throw "Invalid public key input"
  else
    let effectiveSymbols :=
      match tokens with
      | Some [] => None
      | _ => tokens
      end in
    let balances : gmap string number :=
      match effectiveSymbols with
      | None => {[ "SOL" := getSolBalance w ]}
      | Some symbols =>
          if existsb isSol symbols then {[ "SOL" := getSolBalance w ]} else ∅
      end in
    let onlySol :=
      match effectiveSymbols with
      | Some [only] => isSol only
      | _ => false
      end in
    if onlySol then ret balances
    else
      let tokenAccounts := fetchTokenAccounts w in
      if Nat.eqb (size tokenAccounts) 0
      then ret (handleEmptyTokenAccounts balances effectiveSymbols)
      else
        match effectiveSymbols with
        | Some symbols =>
            ret (processSpecificTokens w tokenAccounts symbols balances)
        | None =>
            let balances :=
              if fetchAll then processAllTokens w tokenAccounts balances
              else processTokenListOnly tokenAccounts balances in
            ret (filterZeroBalances balances)
        end.
End WithTokenList.

(** *** Priority fee and compute units *)

(** [this.config]: the fields the estimator reads and
    [defaultComputeUnits]. *)
Module Config.
Record t : Set := {
  network : SolanaPriorityFees.SolanaNetworkConfig;
  defaultComputeUnits : number
}.
End Config.

(** [{ priorityFeePerCU, computeUnits }] *)
Module GasOptions.
Record t : Set := {
  priorityFeePerCU : number;
  computeUnits : number
}.
End GasOptions.

(** [estimateGasPrice()] *)
Definition estimateGasPrice (config : Config.t) (w : SolanaPriorityFees.World)
  : M SolanaPriorityFees.Cache number :=
  SolanaPriorityFees.estimatePriorityFee (Config.network config) w.

(** [estimateGas(computeUnits?)] *)
Definition estimateGas (config : Config.t) (computeUnits : option number)
    (w : SolanaPriorityFees.World) : M SolanaPriorityFees.Cache number :=
  let computeUnitsToUse := or_default computeUnits (Config.defaultComputeUnits config) in
  let* priorityFeePerCU := estimateGasPrice config w in
  let priorityFee := (computeUnitsToUse * priorityFeePerCU)%float in
  let totalLamports := (BASE_FEE + priorityFee)%float in
  let gasCost := (totalLamports * LAMPORT_TO_SOL)%float in
  ret gasCost.

(** [prepareGasOptions(priorityFeePerCU?, computeUnits?)]; [??] keeps
    every number, [0] and [NaN] included. *)
Definition prepareGasOptions (config : Config.t)
    (priorityFeePerCU computeUnits : option number)
    (w : SolanaPriorityFees.World) : M SolanaPriorityFees.Cache GasOptions.t :=
  let* feePerCU :=
    match priorityFeePerCU with
    | Some f => ret f
    | None => estimateGasPrice config w
    end in
  let units := or_default computeUnits (Config.defaultComputeUnits config) in
  ret {| GasOptions.priorityFeePerCU := feePerCU;
         GasOptions.computeUnits := units |}.

(** *** Status code of a fetched transaction *)

(** [enum TransactionResponseStatusCode] *)
Inductive TransactionResponseStatusCode : Set := FAILED | UNCONFIRMED | CONFIRMED.

Definition statusCodeValue (c : TransactionResponseStatusCode) : Z :=
  match c with
  | FAILED => -1
  | UNCONFIRMED => 0
  | CONFIRMED => 1
  end.

(** [getTransactionStatusCode(txData)]; [meta?.err == null] holds for a
    missing [meta] as well. *)
Definition getTransactionStatusCode (txData : option TxData.t)
  : TransactionResponseStatusCode :=
  match txData with
  | None => UNCONFIRMED
  | Some txData =>
      match TxData.meta txData ≫= TxMeta.err with
      | None => CONFIRMED
      | Some _ => FAILED
      end
  end.

(** *** Confirmation of a signature *)

(** The truth value of [txData.meta?.err]: an error object is truthy, the
    empty string is not. *)
Definition hasError (txData : TxData.t) : bool :=
  match TxData.meta txData ≫= TxMeta.err with
  | Some e => negb (String.eqb e "")
  | None => false
  end.

(** How a promise ends: resolved, rejected, or never settled. *)
Inductive Settled (A : Type) : Type :=
| Resolved (a : A)
| Rejected (msg : string)
| Pending.
Arguments Resolved {A} a.
Arguments Rejected {A} msg.
Arguments Pending {A}.

Module Confirm.
(** What one call of [confirmTransaction] observes.  [getSignatureStatus]
    is [status.value]; [timerFirst] tells whether the timer of the timeout
    promise fires before the polling promise settles. *)
Record World : Set := {
  isWebSocketConnected : bool;
  monitorTransaction : Result Monitor.t;
  getTransaction : Result (option TxData.t);
  getSignatureStatus : Result (option SignatureStatus.t);
  timerFirst : bool
}.
End Confirm.

Section WithStringify.
(** [JSON.stringify] of an error value. *)
Variable stringify : string -> string.

(** The polling promise of lines 1013-1038.  Its executor is an [async]
    function: a rejected [await] inside it rejects the executor's own
    promise and settles nothing. *)
Definition confirmationPromise (w : Confirm.World) : Settled Monitor.t :=
  match Confirm.getTransaction w with
  | Throw _ => Pending
  | Ok None => Resolved {| Monitor.confirmed := false; Monitor.txData := None |}
  | Ok (Some txData) =>
      if hasError txData then
        Rejected ("Transaction failed with error: "
                  ++ stringify (default "" (TxData.meta txData ≫= TxMeta.err)))
      else
        match Confirm.getSignatureStatus w with
        | Throw _ => Pending
        | Ok value =>
            let isConfirmed :=
              match value ≫= SignatureStatus.confirmationStatus with
              | Some confirmed | Some finalized => true
              | _ => false
              end in
            Resolved {| Monitor.confirmed := isConfirmed; Monitor.txData := Some txData |}
        end
  end.

(** [confirmTransaction(signature, timeout = 3000)] *)
Definition confirmTransaction {S} (this : Solana) (w : Confirm.World)
    (signature : string) (timeout : number) : M S Monitor.t :=
  try_catch
    (if negb (heliusService this) then
       throw "Cannot read properties of undefined (reading 'isWebSocketConnected')"
     else if Confirm.isWebSocketConnected w then await (Confirm.monitorTransaction w)
     else
       match confirmationPromise w with
       | Resolved r => if Confirm.timerFirst w then throw "Confirmation timed out" else ret r
       | Rejected e => if Confirm.timerFirst w then throw "Confirmation timed out" else throw e
       | Pending => throw "Confirmation timed out"
       end)
    (fun e => throw ("Failed to confirm transaction: " ++ e)).
End WithStringify.

(** *** Sending with a validity window *)

Module Raw.
(** What one call of [sendRawTransaction] observes. *)
Record World : Set := {
  getBlockHeight : Result Z;
  send : Result string
}.

(** [sendRawTransaction(rawTx, lastValidBlockHeight)] *)
Definition sendRawTransaction (w : World) (rawTx : list Byte.byte)
    (lastValidBlockHeight : Z) : M Trace string :=
  let* blockheight := call GetBlockHeight (getBlockHeight w) in
  if blockheight >? lastValidBlockHeight + 50 then throw "Maximum blockheight exceeded"
  else
    try_catch
      (call (SendRawTransaction rawTx true 0) (send w))
      (fun e => throw e).
End Raw.

(** *** Balance changes of a liquidity position *)

(** [{ address, symbol }] *)
Module TokenRef.
Record t : Set := {
  address : string;
  symbol : string
}.
End TokenRef.

(** [{ baseTokenChange, quoteTokenChange, rent }]; an entry read past
    the end of [balanceChanges] is [undefined], here [None]. *)
Module ClmmChanges.
Record t : Set := {
  baseTokenChange : option number;
  quoteTokenChange : option number;
  rent : number
}.
End ClmmChanges.

(** [Math.abs(x)] where [x] may be [undefined]. *)
Definition abs_of (x : option number) : number :=
  match x with
  | Some v => Math_abs v
  | None => nan
  end.

Section WithOwnerKey.
Variable isPublicKey : string -> bool.

(** [extractClmmBalanceChanges(signature, owner, baseTokenInfo,
    quoteTokenInfo, txFee)] *)
Definition extractClmmBalanceChanges
    (parsed : Result (option ParsedTx.t))
    (signature owner : string) (baseTokenInfo quoteTokenInfo : TokenRef.t)
    (txFee : number) : M Trace ClmmChanges.t :=
  let isBaseSol :=
    String.eqb (TokenRef.symbol baseTokenInfo) "SOL"
    || String.eqb (TokenRef.address baseTokenInfo) SOL_NATIVE_MINT in
  let isQuoteSol :=
    String.eqb (TokenRef.symbol quoteTokenInfo) "SOL"
    || String.eqb (TokenRef.address quoteTokenInfo) SOL_NATIVE_MINT in
  let tokensToExtract := [SOL_NATIVE_MINT] in
  let sol := 0%nat in
  let '(tokensToExtract, base) :=
    if negb isBaseSol then
      let pushed := tokensToExtract ++ [TokenRef.address baseTokenInfo] in
      (pushed, (length pushed - 1)%nat)
    else (tokensToExtract, 0%nat) in
  let '(tokensToExtract, quote) :=
    if negb isQuoteSol then
      let pushed := tokensToExtract ++ [TokenRef.address quoteTokenInfo] in
      (pushed, (length pushed - 1)%nat)
    else (tokensToExtract, 0%nat) in
  let* r := extractBalanceChangesAndFee isPublicKey parsed signature owner tokensToExtract in
  let balanceChanges := fst r in
  let solChange := balanceChanges !! sol in
  let baseTokenChange := balanceChanges !! base in
  let quoteTokenChange := balanceChanges !! quote in
  let rent :=
    if negb isBaseSol && negb isQuoteSol
    then (abs_of solChange - txFee / 1e9)%float
    else 0.00204928%float in
  ret {| ClmmChanges.baseTokenChange := baseTokenChange;
         ClmmChanges.quoteTokenChange := quoteTokenChange;
         ClmmChanges.rent := rent |}.
End WithOwnerKey.

(** *** Token lookup *)

Section WithMints.
Variable isPublicKey : string -> bool.
Variable tokenList : list TokenInfo.t.
(** [getMint(connection, mint)]: the decimals of the mint account. *)
Variable mintDecimals : string -> Result nat.

(** [getToken(addressOrSymbol)] *)
Definition getToken (addressOrSymbol : string) : option TokenInfo.t :=
  let normalizedSearch := SolanaPriorityFees.trim (toUpperCase addressOrSymbol) in
  match List.find (fun token =>
                     String.eqb (SolanaPriorityFees.trim (toUpperCase (TokenInfo.symbol token)))
                                normalizedSearch) tokenList with
  | Some token => Some token
  | None =>
      match List.find (fun token =>
                         String.eqb (toLowerCase (TokenInfo.address token))
                                    (toLowerCase addressOrSymbol)) tokenList with
      | Some token => Some token
      | None =>
          if isPublicKey addressOrSymbol then
            match mintDecimals addressOrSymbol with
            | Ok decimals =>
                Some {| TokenInfo.chainId := 101;
                        TokenInfo.address := addressOrSymbol;
                        TokenInfo.name :=
                          "Dummy Token (" ++ substring 0 8 addressOrSymbol ++ "...)";
                        TokenInfo.symbol := "DUMMY_" ++ substring 0 4 addressOrSymbol;
                        TokenInfo.decimals := decimals |}
            | Throw _ => None
            end
          else None
      end
  end.

(** [getTokenBySymbol(tokenSymbol)]: [null] becomes [undefined]. *)
Definition getTokenBySymbol (tokenSymbol : string) : option TokenInfo.t :=
  getToken tokenSymbol.
End WithMints.

End Solana.

(* ===================================================================== *)
(** ** Token amounts (etcSwap.utils.ts)                                  *)
(* ===================================================================== *)

Module EtcSwapUtils.

(** [amount: string | number] *)
Inductive Amount : Set :=
| Str (s : string)
| Num (n : number).

Section WithParseFloat.
(** The global [parseFloat] on the decimal strings a [BigNumber] prints. *)
Variable parseFloat : string -> number.

(** [formatTokenAmount(amount, decimals)]; neither branch can throw. *)
Definition formatTokenAmount (amount : Amount) (decimals : nat) : number :=
  match amount with
  | Str s => (parseFloat s / pow10 decimals)%float
  | Num n => (n / pow10 decimals)%float
  end.
End WithParseFloat.

(** *** Fraction strings *)

(** [s.includes(sub)] *)
Fixpoint includes (sub s : string) : bool :=
  String.prefix sub s
  || match s with
     | String _ s' => includes sub s'
     | EmptyString => false
     end.

(** [s.split(sep)] for a separator of one character. *)
Fixpoint split (sep : ascii) (s : string) : list string :=
  match s with
  | EmptyString => [EmptyString]
  | String c s' =>
      if Ascii.eqb c sep then EmptyString :: split sep s'
      else
        match split sep s' with
        | piece :: pieces => String c piece :: pieces
        | [] => [String c EmptyString]
        end
  end.

(** [isFractionString(value)] *)
Definition isFractionString (value : string) : bool :=
  includes "/" value && Nat.eqb (length (split "/"%char value)) 2.

(** *** Pool information *)

(** [findPoolAddress(_baseToken, _quoteToken, _poolType, _network)] *)
Definition findPoolAddress (_baseToken _quoteToken _poolType _network : string)
  : option string := None.

Inductive PoolType : Set := amm | clmm.

(** [ETCSwapPoolInfo] *)
Record ETCSwapPoolInfo : Set := {
  baseTokenAddress : string;
  quoteTokenAddress : string;
  poolType : PoolType
}.

(** What [getV2PoolInfo] observes: the two instances and the two calls
    on the pair contract. *)
Record PairWorld : Set := {
  ethereumInstance : Result unit;
  etcSwapInstance : Result unit;
  token0 : Result string;
  token1 : Result string
}.

(** [getV2PoolInfo(poolAddress, network)] *)
Definition getV2PoolInfo {S} (w : PairWorld) (poolAddress network : string)
  : M S (option ETCSwapPoolInfo) :=
  try_catch
    (bind (await (ethereumInstance w)) (fun _ =>
     bind (await (etcSwapInstance w)) (fun _ =>
     bind (await (token0 w)) (fun token0Address =>
     bind (await (token1 w)) (fun token1Address =>
     ret (Some {| baseTokenAddress := token0Address;
                  quoteTokenAddress := token1Address;
                  poolType := amm |}))))))
    (fun _ => ret None).

(** [getV3PoolInfo(poolAddress, _network)] *)
Definition getV3PoolInfo {S} (poolAddress _network : string)
  : M S (option ETCSwapPoolInfo) :=
  try_catch (ret None) (fun _ => ret None).

(** [getETCSwapPoolInfo(poolAddress, network, poolType?)] *)
Definition getETCSwapPoolInfo {S} (w : PairWorld) (poolAddress network : string)
    (poolType : option PoolType) : M S (option ETCSwapPoolInfo) :=
  match poolType with
  | Some amm => getV2PoolInfo w poolAddress network
  | Some clmm => getV3PoolInfo poolAddress network
  | None =>
      bind (getV2PoolInfo w poolAddress network) (fun v2Info =>
      match v2Info with
      | Some info => ret (Some info)
      | None => getV3PoolInfo poolAddress network
      end)
  end.

End EtcSwapUtils.

(* ===================================================================== *)
(** ** ETCSwap connector (etcSwap.ts)                                    *)
(* ===================================================================== *)

Module ETCSwap.
Local Open Scope js_scope.

(** An instance: its network and [_ready]. *)
Record Instance : Set := {
  networkName : string;
  _ready : bool
}.

(** [ETCSwap._instances] *)
Definition Instances : Type := option (gmap string Instance).

(** [init()]; [setup] answers lines 79-141: the Ethereum instance, the
    contracts and the router service. *)
Definition init (setup : Result unit) : M Instance unit :=
  try_catch
    (await setup ;;
     let* this := get in
     put {| networkName := networkName this; _ready := true |})
    (fun error => throw error).

(** [ETCSwap.getInstance(network)]: the new instance is stored before
    [init] runs on it. *)
Definition getInstance (setup : Result unit) (network : string)
  : M Instances Instance :=
  let* registry := get in
  let instances : gmap string Instance := default ∅ registry in
  put (Some instances) ;;
  match instances !! network with
  | Some instance => ret instance
  | None =>
      let created := {| networkName := network; _ready := false |} in
      match init setup created with
      | (Ok _, instance) =>
          put (Some (<[network := instance]> instances)) ;;
          ret instance
      | (Throw e, instance) =>
          put (Some (<[network := instance]> instances)) ;;
          throw e
      end
  end.

(** [findDefaultPool(baseToken, quoteToken, poolType)]; a falsy address
    becomes [null]. *)
Definition findDefaultPool {S} (this : Instance)
    (baseToken quoteToken poolType : string) : M S (option string) :=
  try_catch
    (let poolAddr := EtcSwapUtils.findPoolAddress baseToken quoteToken poolType (networkName this) in
     match poolAddr with
     | Some a => if String.eqb a "" then ret None else ret (Some a)
     | None => ret None
     end)
    (fun _ => ret None).

End ETCSwap.

(* ===================================================================== *)
(** ** ETCSwap routes                                                    *)
(* ===================================================================== *)

(** What a route handler ends in.  An error made by [fastify.httpErrors]
    carries its HTTP [statusCode]; any other thrown value has none. *)
Module Http.
Record Error : Set := {
  statusCode : option Z;
  message : string
}.
Definition plain (message : string) : Error :=
  {| statusCode := None; message := message |}.
Definition badRequest (message : string) : Error :=
  {| statusCode := Some 400; message := message |}.
Definition notFound (message : string) : Error :=
  {| statusCode := Some 404; message := message |}.
Definition internalServerError (message : string) : Error :=
  {| statusCode := Some 500; message := message |}.

Inductive Outcome (A : Type) : Type :=
| Sent (a : A)
| Raised (e : Error).
Arguments Sent {A} a.
Arguments Raised {A} e.

Definition bind {A B} (m : Outcome A) (k : A -> Outcome B) : Outcome B :=
  match m with
  | Sent a => k a
  | Raised e => Raised e
  end.

(** [!s] for a string that may be [undefined]. *)
Definition missing (s : option string) : bool :=
  match s with
  | Some s => String.eqb s ""
  | None => true
  end.
End Http.

(** *** GET /pool-info of the CLMM connector (clmm-routes/poolInfo.ts) *)

Module EtcSwapClmmPoolInfo.
Local Open Scope js_scope.

(** A token of the SDK. *)
Record Token : Set := {
  address : string;
  decimals : nat
}.

(** The fields of the V3 pool the handler reads; the two prices are the
    strings [toSignificant(15)] prints. *)
Record V3Pool : Set := {
  token0 : Token;
  token1 : Token;
  token0Price : string;
  token1Price : string;
  liquidity : string;
  fee : number;
  tickSpacing : number;
  tickCurrent : number
}.

(** [PoolInfo] *)
Module PoolInfo.
Record t : Set := {
  address : string;
  baseTokenAddress : string;
  quoteTokenAddress : string;
  binStep : number;
  feePct : number;
  price : number;
  baseTokenAmount : number;
  quoteTokenAmount : number;
  activeBinId : number
}.
End PoolInfo.

(** What one request observes. *)
Record World : Set := {
  (** [ETCSwap.getInstance(network)] *)
  etcSwap : Result unit;
  pair : EtcSwapUtils.PairWorld;
  (** [etcSwap.getTokenByAddress(address)] *)
  getTokenByAddress : string -> Result (option Token);
  (** [etcSwap.getV3Pool(base, quote, undefined, poolAddress)] *)
  getV3Pool : option V3Pool
}.

Section WithServices.
Variable parseFloat : string -> number.
(** [sanitizeErrorMessage(template, value)] of the sanitize service. *)
Variable sanitizeErrorMessage : string -> string -> string.

(** The body of the [try] of the handler, lines 38-111. *)
Definition body {S} (w : World) (network : string) (poolAddress : option string)
  : M S PoolInfo.t :=
  await (etcSwap w) ;;
  if Http.missing poolAddress then throw "Pool address is required"
  else
    let poolAddress := default "" poolAddress in
    let* poolInfo :=
      EtcSwapUtils.getETCSwapPoolInfo (pair w) poolAddress network
        (Some EtcSwapUtils.clmm) in
    match poolInfo with
    | None => throw (sanitizeErrorMessage "Pool not found: {}" poolAddress)
    | Some poolInfo =>
        let* baseTokenObj :=
          await (getTokenByAddress w (EtcSwapUtils.baseTokenAddress poolInfo)) in
        let* quoteTokenObj :=
          await (getTokenByAddress w (EtcSwapUtils.quoteTokenAddress poolInfo)) in
        match baseTokenObj, quoteTokenObj with
        | Some baseTokenObj, Some quoteTokenObj =>
            match getV3Pool w with
            | None => throw "Pool not found"
            | Some pool =>
                let isBaseToken0 :=
                  String.eqb (toLowerCase (address baseTokenObj))
                             (toLowerCase (address (token0 pool))) in
                let price :=
                  if isBaseToken0 then parseFloat (token0Price pool)
                  else parseFloat (token1Price pool) in
                let token0Amount :=
                  EtcSwapUtils.formatTokenAmount parseFloat
                    (EtcSwapUtils.Str (liquidity pool)) (decimals (token0 pool)) in
                let token1Amount :=
                  EtcSwapUtils.formatTokenAmount parseFloat
                    (EtcSwapUtils.Str (liquidity pool)) (decimals (token1 pool)) in
                ret {| PoolInfo.address := poolAddress;
                       PoolInfo.baseTokenAddress := address baseTokenObj;
                       PoolInfo.quoteTokenAddress := address quoteTokenObj;
                       PoolInfo.binStep := tickSpacing pool;
                       PoolInfo.feePct := (fee pool / 10000)%float;
                       PoolInfo.price := price;
                       PoolInfo.baseTokenAmount :=
                         if isBaseToken0 then token0Amount else token1Amount;
                       PoolInfo.quoteTokenAmount :=
                         if isBaseToken0 then token1Amount else token0Amount;
                       PoolInfo.activeBinId := tickCurrent pool |}
            end
        | _, _ => throw "Token information not found for pool"
        end
    end.

(** The handler: every error of the body is replaced. *)
Definition poolInfoRoute (w : World) (network : string) (poolAddress : option string)
  : Http.Outcome PoolInfo.t :=
  match body w network poolAddress tt with
  | (Ok info, _) => Http.Sent info
  | (Throw _, _) => Http.Raised (Http.internalServerError "Failed to fetch pool info")
  end.
End WithServices.

End EtcSwapClmmPoolInfo.

(** *** GET /quote-swap of the AMM connector *)

Module EtcSwapAmmQuoteSwap.

(** [request.query] *)
Record Query : Set := {
  network : string;
  poolAddress : option string;
  baseToken : option string;
  quoteToken : option string;
  amount : option number;
  side : option Side;
  slippagePct : option number
}.

Section WithReply.
(** [QuoteSwapResponseType] *)
Variable Reply : Type.

(** What one request observes; [formatSwapQuote] answers the call of
    line 376 for the arguments it is given. *)
Record World : Type := {
  (** [ETCSwap.getInstance(networkToUse)] *)
  etcSwap : Http.Outcome ETCSwap.Instance;
  pair : EtcSwapUtils.PairWorld;
  (** the address of [etcSwap.getTokenBySymbol(baseToken)] *)
  getTokenBySymbol : string -> Http.Outcome (option string);
  formatSwapQuote :
    string -> option string -> string -> string -> number -> Side -> option number ->
    Http.Outcome Reply
}.

(** [if (!baseToken || !amount || !side)] *)
Definition incomplete (q : Query) : bool :=
  Http.missing (baseToken q)
  || match amount q with Some a => falsy a | None => true end
  || match side q with Some _ => false | None => true end.

(** The body of the [try], lines 311-385. *)
Definition body (w : World) (q : Query) : Http.Outcome Reply :=
  if incomplete q
  then Http.Raised (Http.badRequest "baseToken, amount, and side are required")
  else
    let baseToken := default "" (baseToken q) in
    Http.bind (etcSwap w) (fun etcSwap =>
    Http.bind
      (if negb (Http.missing (poolAddress q)) then
         let poolAddressToUse := default "" (poolAddress q) in
         match fst (EtcSwapUtils.getETCSwapPoolInfo (pair w) poolAddressToUse (network q)
                      (Some EtcSwapUtils.amm) tt) with
         | Throw e => Http.Raised (Http.plain e)
         | Ok None => Http.Raised (Http.notFound ("Pool not found: " ++ poolAddressToUse))
         | Ok (Some poolInfo) =>
             let base := EtcSwapUtils.baseTokenAddress poolInfo in
             let quote := EtcSwapUtils.quoteTokenAddress poolInfo in
             let notInPool :=
               Http.badRequest
                 ("Token " ++ baseToken ++ " not found in pool " ++ poolAddressToUse) in
             if String.eqb baseToken base then Http.Sent (base, quote)
             else if String.eqb baseToken quote then Http.Sent (quote, base)
             else
               Http.bind (getTokenBySymbol w baseToken) (fun resolvedToken =>
               match resolvedToken with
               | Some resolved =>
                   if String.eqb resolved base then Http.Sent (base, quote)
                   else if String.eqb resolved quote then Http.Sent (quote, base)
                   else Http.Raised notInPool
               | None => Http.Raised notInPool
               end)
         end
       else if Http.missing (quoteToken q) then
         Http.Raised
           (Http.badRequest "quoteToken is required when poolAddress is not provided")
       else
         let quoteToken := default "" (quoteToken q) in
         match fst (ETCSwap.findDefaultPool etcSwap baseToken quoteToken "amm" tt) with
         | Throw e => Http.Raised (Http.plain e)
         | Ok poolAddressToUse =>
             if Http.missing poolAddressToUse then
               Http.Raised
                 (Http.notFound
                    ("No AMM pool found for pair " ++ baseToken ++ "-" ++ quoteToken))
             else Http.Sent (baseToken, quoteToken)
         end)
      (fun tokens =>
         let '(baseTokenToUse, quoteTokenToUse) := tokens in
         match amount q, side q with
         | Some amount, Some side =>
             formatSwapQuote w (network q) (poolAddress q) baseTokenToUse quoteTokenToUse
               amount side (slippagePct q)
         | _, _ => Http.Raised (Http.badRequest "baseToken, amount, and side are required")
         end)).

(** [if (e.statusCode)] *)
Definition hasStatusCode (e : Http.Error) : bool :=
  match Http.statusCode e with
  | Some c => negb (c =? 0)
  | None => false
  end.

(** The [catch] of the handler, lines 386-411. *)
Definition rethrow (e : Http.Error) : Http.Error :=
  if hasStatusCode e then e
  else if EtcSwapUtils.includes "Insufficient liquidity" (Http.message e)
  then Http.badRequest "Invalid request"
  else if EtcSwapUtils.includes "Pool not found" (Http.message e)
          || EtcSwapUtils.includes "No AMM pool found" (Http.message e)
  then Http.notFound "Resource not found"
  else if EtcSwapUtils.includes "token not found" (Http.message e)
  then Http.badRequest "Invalid request"
  else Http.internalServerError "Error getting swap quote".

Definition quoteSwapRoute (w : World) (q : Query) : Http.Outcome Reply :=
  match body w q with
  | Http.Sent reply => Http.Sent reply
  | Http.Raised e => Http.Raised (rethrow e)
  end.
End WithReply.

End EtcSwapAmmQuoteSwap.

(** *** Executing a cached quote (router-routes/executeQuote.ts) *)

Module EtcSwapExecuteQuote.
Local Open Scope js_scope.

Record Token : Set := {
  address : string;
  symbol : string;
  decimals : nat
}.

(** What [quoteCache.get(quoteId)] holds: the fields of the quote and of
    its request that [executeQuote] reads.  The two exact amounts are
    [parseFloat(quote.trade.inputAmount.toExact())] and its counterpart
    for the output; [estimatedGasUsed] is
    [parseInt(quote.estimatedGasUsed.toString())]. *)
Record CachedQuote : Set := {
  inputToken : Token;
  outputToken : Token;
  side : Side;
  amount : number;
  to : string;
  calldata : string;
  value : string;
  inputAmountQuotient : Z;
  estimatedGasUsed : number;
  inputAmountExact : number;
  outputAmountExact : number
}.

(** The effects of one call, in the order they are made. *)
Inductive Event : Set :=
| ApproveERC20 (spender : string) (amount : Z)
| SendTransaction (to data value : string) (gasLimit : number) (gasPrice : option Z)
| DeleteQuote (quoteId : string).

(** What one call observes. *)
Record World : Set := {
  cached : option CachedQuote;
  (** [Ethereum.getInstance(network)]: its [nativeTokenSymbol] *)
  getInstance : Result string;
  getWallet : Result unit;
  getERC20Allowance : Result Z;
  approveERC20 : Result unit;
  sendTransaction : Result unit;
  waitForTransactionWithTimeout : Result (option Ethereum.Receipt.t)
}.

Definition call {A} (e : Event) (answer : Result A) : M (list Event) A :=
  fun tr => (answer, tr ++ [e]).

Section WithBigNumber.
(** [BigNumber.from] of a decimal string. *)
Variable BigNumber_from : string -> Result Z.

(** [executeQuote(fastify, walletAddress, network, quoteId, gasPrice?,
    maxGas?)] *)
Definition executeQuote (w : World) (walletAddress network quoteId : string)
    (gasPrice : option string) (maxGas : option number)
  : M (list Event) Response.t :=
  match cached w with
  | None => throw "Quote not found or expired"
  | Some quote =>
      let* nativeTokenSymbol := await (getInstance w) in
      await (getWallet w) ;;
      (if negb (String.eqb (address (inputToken quote)) nativeTokenSymbol) then
         let spender := to quote in
         let* allowance := await (getERC20Allowance w) in
         let requiredAllowance := inputAmountQuotient quote in
         if allowance <? requiredAllowance
         then call (ApproveERC20 spender requiredAllowance) (approveERC20 w)
         else ret tt
       else ret tt) ;;
      let gasLimit := or_default maxGas (estimatedGasUsed quote) in
      let* gasPriceField :=
        if Http.missing gasPrice then ret None
        else let* price := await (BigNumber_from (default "" gasPrice)) in ret (Some price) in
      call (SendTransaction (to quote) (calldata quote) (value quote) gasLimit gasPriceField)
           (sendTransaction w) ;;
      let* txReceipt := await (waitForTransactionWithTimeout w) in
      match txReceipt with
      | None => throw "Transaction failed"
      | Some txReceipt =>
          match Ethereum.Receipt.status txReceipt with
          | Some 1 =>
              let fee :=
                (Number_of_Z (Ethereum.Receipt.gasUsed txReceipt
                              * Ethereum.Receipt.effectiveGasPrice txReceipt) / 1e18)%float in
              let amountIn := inputAmountExact quote in
              let amountOut := outputAmountExact quote in
              let baseTokenBalanceChange :=
                match side quote with SELL => (- amountIn)%float | BUY => amountOut end in
              let quoteTokenBalanceChange :=
                match side quote with SELL => amountOut | BUY => (- amountIn)%float end in
              call (DeleteQuote quoteId) (Ok tt) ;;
              ret {| Response.signature := Ethereum.Receipt.transactionHash txReceipt;
                     Response.status := 1;
                     Response.data := Some
                       {| SwapData.tokenIn := address (inputToken quote);
                          SwapData.tokenOut := address (outputToken quote);
                          SwapData.amountIn := amountIn;
                          SwapData.amountOut := amountOut;
                          SwapData.fee := fee;
                          SwapData.baseTokenBalanceChange := baseTokenBalanceChange;
                          SwapData.quoteTokenBalanceChange := quoteTokenBalanceChange |} |}
          | _ => throw "Transaction failed"
          end
      end
  end.
End WithBigNumber.

End EtcSwapExecuteQuote.

(* ===================================================================== *)
(** ** Predicates used in the statements                                 *)
(* ===================================================================== *)

Module Spec.

(** The Helius request did not produce a usable estimate: the request
    was rejected, the HTTP status was not ok, the body could not be
    read, it carried an error, or the estimate was not a number. *)
Definition helius_failed (w : SolanaPriorityFees.World) : bool :=
  match SolanaPriorityFees.fetch w with
  | Throw _ => true
  | Ok r =>
      negb (SolanaPriorityFees.ok r)
      || match SolanaPriorityFees.json r with
         | Throw _ => true
         | Ok None => true
         | Ok (Some d) =>
             SolanaPriorityFees.error d
             || match SolanaPriorityFees.priorityFeeEstimate d with
                | Some _ => false
                | None => true
                end
         end
  end.


(** The wallet-configured EIP-1559 pair, when both values are set. *)
Definition configured_fees (this : Ethereum.Ethereum) : option (number * number) :=
  match Ethereum.maxFeePerGas this, Ethereum.maxPriorityFeePerGas this with
  | Some maxFee, Some priority => Some (maxFee, priority)
  | _, _ => None
  end.

(** [x] raised to the floor [m] with the comparison of line 221. *)
Definition clamp (m x : number) : number :=
  if (x <? m)%float then m else x.

(** The cache entry written by a successful EIP-1559 estimate. *)
Definition eip1559Entry (this : Ethereum.Ethereum) (w : Ethereum.World)
    (fees : number * number) : Ethereum.Estimate.t :=
  {| Ethereum.Estimate.timestamp := Ethereum.now_store w;
     Ethereum.Estimate.gasPrice := clamp (Ethereum.minGasPrice this) (fst fees);
     Ethereum.Estimate.maxFeePerGas := Some (clamp (Ethereum.minGasPrice this) (fst fees));
     Ethereum.Estimate.maxPriorityFeePerGas := Some (snd fees);
     Ethereum.Estimate.isEIP1559 := Some true |}.

(** The cache entry written by a successful legacy estimate. *)
Definition legacyEntry (w : Ethereum.World) (v : number) : Ethereum.Estimate.t :=
  {| Ethereum.Estimate.timestamp := Ethereum.now_store w;
     Ethereum.Estimate.gasPrice := v;
     Ethereum.Estimate.maxFeePerGas := None;
     Ethereum.Estimate.maxPriorityFeePerGas := None;
     Ethereum.Estimate.isEIP1559 := Some false |}.

(** A dynamic-fee transaction: type 2 with both fee caps and no
    [gasPrice]. *)
Definition dynamic_fee_style (o : Ethereum.GasOptions.t) : Prop :=
  Ethereum.GasOptions.type o = Some 2
  /\ is_Some (Ethereum.GasOptions.maxFeePerGas o)
  /\ is_Some (Ethereum.GasOptions.maxPriorityFeePerGas o)
  /\ Ethereum.GasOptions.gasPrice o = None.

(** A legacy transaction: type 0 with a [gasPrice] and no fee cap. *)
Definition legacy_style (o : Ethereum.GasOptions.t) : Prop :=
  Ethereum.GasOptions.type o = Some 0
  /\ is_Some (Ethereum.GasOptions.gasPrice o)
  /\ Ethereum.GasOptions.maxFeePerGas o = None
  /\ Ethereum.GasOptions.maxPriorityFeePerGas o = None.

(** Exactly one pricing style. *)
Definition one_pricing_style (o : Ethereum.GasOptions.t) : Prop :=
  (dynamic_fee_style o /\ ~ legacy_style o)
  \/ (legacy_style o /\ ~ dynamic_fee_style o).

(** *** The confirmation engine *)

(** The serialized transactions a trace sent to the network. *)
Definition payloads (tr : Solana.Trace) : list (list Byte.byte) :=
  flat_map (fun e => match e with
                     | Solana.SendWithSender p => [p]
                     | Solana.SendRawTransaction p _ _ => [p]
                     | _ => []
                     end) tr.

(** The number of status polls in a trace. *)
Definition polls_made (tr : Solana.Trace) : nat :=
  length (List.filter (fun e => match e with
                                | Solana.GetSignatureStatuses _ => true
                                | _ => false
                                end) tr).

(** The waits ([setTimeout]) of a trace, in milliseconds, and their
    number. *)
Definition wait_times (tr : Solana.Trace) : list number :=
  flat_map (fun e => match e with
                     | Solana.Sleep ms => [ms]
                     | _ => []
                     end) tr.
Definition waits (tr : Solana.Trace) : nat := length (wait_times tr).

(** A wait of the poll loop lasts [confirmRetryInterval] seconds, or one
    second after a failed attempt. *)
Definition poll_interval (this : Solana.Solana) (ms : number) : Prop :=
  ms = (Solana.confirmRetryInterval this * 1000)%float \/ ms = 1000%float.

(** The attempt saw the transaction neither failed nor confirmed: the
    status request answered with no entry, or with an entry that has no
    error and is not yet confirmed. *)
Definition not_yet_seen (p : Solana.Poll) : bool :=
  match Solana.getSignatureStatuses p with
  | Ok None => true
  | Ok (Some st) =>
      match Solana.SignatureStatus.err st, Solana.SignatureStatus.confirmationStatus st with
      | None, None => true
      | None, Some Solana.processed => true
      | _, _ => false
      end
  | Throw _ => false
  end.

(** What an attempt decides: [Some r] ends the loop with [r], [None]
    lets it go on. *)
Definition attempt_outcome (signature : string) (p : Solana.Poll)
  : option Solana.Confirmation.t :=
  match Solana.getSignatureStatuses p with
  | Ok (Some st) =>
      match Solana.SignatureStatus.err st with
      | Some _ => Some (Solana.notConfirmed signature)
      | None =>
          match Solana.SignatureStatus.confirmationStatus st with
          | Some Solana.confirmed | Some Solana.finalized =>
              match Solana.getTransaction p with
              | Ok txData =>
                  Some {| Solana.Confirmation.confirmed := true;
                          Solana.Confirmation.signature := signature;
                          Solana.Confirmation.txData := txData |}
              | Throw _ => None
              end
          | _ => None
          end
      end
  | _ => None
  end.

(** *** Settlement *)




(** What a call of [prepareGasOptions] may end in: options of exactly one
    style, or the throw of the wei conversion [parseUnitsGwei]. *)
Definition styled_or_conversion_error (parseUnitsGwei : number -> Result Z)
    (r : Result Ethereum.GasOptions.t) : Prop :=
  match r with
  | Ok o => one_pricing_style o
  | Throw _ => exists x e, parseUnitsGwei x = Throw e
  end.

(** [!gasPrice]: the caller gave no gas price, or gave [0] or [NaN]. *)
Definition omitted (gasPrice : option number) : bool :=
  match gasPrice with
  | Some g => falsy g
  | None => true
  end.

(** *** Balances *)

(** The key under which the Solana [getBalances] reports a named token:
    the listed symbol when the name matches the token list and the wallet
    holds token accounts, the name as given otherwise. *)
Definition reported_as (tokenList : list TokenInfo.t) (holdsAccounts : bool)
    (symbol : string) : string :=
  if holdsAccounts then
    match List.find (fun t => String.eqb (toUpperCase (TokenInfo.symbol t))
                                         (toUpperCase symbol)) tokenList with
    | Some tokenInfo => TokenInfo.symbol tokenInfo
    | None => symbol
    end
  else symbol.

(** [tokenMap] is keyed by symbol: what [loadTokens] writes, entry by
    entry, into the map the constructor creates empty. *)
Definition keyed_by_symbol (tokenMap : gmap string TokenInfo.t) : Prop :=
  forall key token, tokenMap !! key = Some token -> TokenInfo.symbol token = key.

(** The listed token of a mint, as [processAllTokens] looks it up. *)
Definition listed_mint (tokenList : list TokenInfo.t) (mintAddress : string)
  : option TokenInfo.t :=
  List.find (fun t => String.eqb (TokenInfo.address t) mintAddress) tokenList.

(** The key under which [processAllTokens] reports the token account of
    a mint: the symbol of the listed token, or the mint address. *)
Definition account_key (tokenList : list TokenInfo.t) (mintAddress : string) : string :=
  match listed_mint tokenList mintAddress with
  | Some tokenInfo => TokenInfo.symbol tokenInfo
  | None => mintAddress
  end.

(** The balance [processAllTokens] computes for the token account of a
    mint: with the listed decimals, or with those of the mint account. *)
Definition account_balance (tokenList : list TokenInfo.t) (w : Solana.BalanceWorld)
    (mintAddress : string) (tokenAccount : Solana.TokenAccount) : number :=
  match listed_mint tokenList mintAddress with
  | Some tokenInfo =>
      Solana.getTokenBalance (Some tokenAccount) (TokenInfo.decimals tokenInfo)
  | None => Solana.getTokenBalanceWithMintInfo w tokenAccount mintAddress
  end.

(** The positive balance of the token stored under [key], if the token
    call answers one. *)
Definition stored_balance (this : Ethereum.Tokens) (w : Ethereum.BalanceWorld)
    (key : string) : option number :=
  match Ethereum.tokenMap this !! key with
  | Some token =>
      match Ethereum.getERC20Balance w (TokenInfo.address token) 2000 with
      | Ok balanceNum => if (0 <? balanceNum)%float then Some balanceNum else None
      | Throw _ => None
      end
  | None => None
  end.

(** The listed token holds a positive balance in the wallet. *)
Definition held (tokenAccounts : gmap string Solana.TokenAccount)
    (tokenInfo : TokenInfo.t) : bool :=
  match tokenAccounts !! TokenInfo.address tokenInfo with
  | Some tokenAccount =>
      (0 <? Solana.getTokenBalance (Some tokenAccount) (TokenInfo.decimals tokenInfo))%float
  | None => false
  end.

(** *** Strings *)

(** How many times the character [c] occurs in [s]. *)
Fixpoint occurrences (c : ascii) (s : string) : nat :=
  match s with
  | EmptyString => 0
  | String c' s' => ((if Ascii.eqb c' c then 1 else 0) + occurrences c s')%nat
  end.

(** *** Liquidity positions *)

(** A token that [extractClmmBalanceChanges] takes for native SOL: its
    symbol is SOL or its address is the native mint. *)
Definition is_sol_token (t : Solana.TokenRef.t) : bool :=
  String.eqb (Solana.TokenRef.symbol t) "SOL"
  || String.eqb (Solana.TokenRef.address t) Solana.SOL_NATIVE_MINT.

(** The mint whose balance is tracked for a token. *)
Definition tracked_mint (t : Solana.TokenRef.t) : string :=
  if is_sol_token t then Solana.SOL_NATIVE_MINT else Solana.TokenRef.address t.

End Spec.

(* ===================================================================== *)
(** ** Concrete scenarios                                                *)
(* ===================================================================== *)

Module Scenario.

(** A Helius-enabled Solana network whose configured floor is [m]. *)
Definition solanaConfig (m : number) : SolanaPriorityFees.SolanaNetworkConfig :=
  {| SolanaPriorityFees.useHeliusRestRPC := true;
     SolanaPriorityFees.heliusAPIKey := Some "0a1b2c3d";
     SolanaPriorityFees.minPriorityFeePerCU := Some m |}.

(** At time [t] Helius answers with [estimate] micro-lamports. *)
Definition heliusAnswers (t : Z) (estimate : number) : SolanaPriorityFees.World :=
  {| SolanaPriorityFees.now_check := t;
     SolanaPriorityFees.fetch :=
       Ok {| SolanaPriorityFees.ok := true;
             SolanaPriorityFees.status := 200;
             SolanaPriorityFees.json :=
               Ok (Some {| SolanaPriorityFees.error := false;
                           SolanaPriorityFees.priorityFeeEstimate := Some estimate |}) |};
     SolanaPriorityFees.now_store := t |}.

(** At time [t] the request to Helius is rejected. *)
Definition heliusDown (t : Z) : SolanaPriorityFees.World :=
  {| SolanaPriorityFees.now_check := t;
     SolanaPriorityFees.fetch := Throw "fetch failed";
     SolanaPriorityFees.now_store := t |}.

(** An EVM instance of [network] with floor [m], no wallet-configured
    fees and an Etherscan service. *)
Definition evmInstance (network : string) (m : number) : Ethereum.Ethereum :=
  {| Ethereum.network := network;
     Ethereum.minGasPrice := m;
     Ethereum.maxFeePerGas := None;
     Ethereum.maxPriorityFeePerGas := None;
     Ethereum.etherscanService := true |}.

(** At time [t] Etherscan proposes [maxFee] and [priority] gwei and the
    RPC provider is unreachable. *)
Definition etherscanAnswers (t : Z) (maxFee priority : number) : Ethereum.World :=
  {| Ethereum.now_check := t;
     Ethereum.etherscan := Ok (maxFee, priority);
     Ethereum.getFeeData := Throw "timeout";
     Ethereum.getBlock := Throw "timeout";
     Ethereum.getGasPrice := Throw "timeout";
     Ethereum.eth_maxPriorityFeePerGas := Throw "timeout";
     Ethereum.now_store := t |}.

(** At time [t] neither Etherscan nor the RPC provider answers. *)
Definition evmDown (t : Z) : Ethereum.World :=
  {| Ethereum.now_check := t;
     Ethereum.etherscan := Throw "timeout";
     Ethereum.getFeeData := Throw "timeout";
     Ethereum.getBlock := Throw "timeout";
     Ethereum.getGasPrice := Throw "timeout";
     Ethereum.eth_maxPriorityFeePerGas := Throw "timeout";
     Ethereum.now_store := t |}.

(** An EIP-1559 entry written at time [t]. *)
Definition cachedPair (t : Z) (maxFee priority : number) : Ethereum.Cache :=
  Some {| Ethereum.Estimate.timestamp := t;
          Ethereum.Estimate.gasPrice := maxFee;
          Ethereum.Estimate.maxFeePerGas := Some maxFee;
          Ethereum.Estimate.maxPriorityFeePerGas := Some priority;
          Ethereum.Estimate.isEIP1559 := Some true |}.

(** *** The confirmation engine *)

Definition payload : list Byte.byte := [Byte.x01; Byte.xa7; Byte.x3c; Byte.xff].

Definition engine : Solana.Solana :=
  {| Solana.heliusService := false;
     Solana.confirmRetryInterval := 2%float;
     Solana.confirmRetryCount := 10%float |}.

Definition txData (fee : number) (err : option string) : Solana.TxData.t :=
  {| Solana.TxData.meta :=
       Some {| Solana.TxMeta.fee := Some fee; Solana.TxMeta.err := err |} |}.

(** A poll that does not find the transaction, at block height [h]. *)
Definition notFound (h : Z) : Solana.Poll :=
  {| Solana.getSignatureStatuses := Ok None;
     Solana.getTransaction := Ok None;
     Solana.getBlockHeight := Ok h;
     Solana.rebroadcast := Ok "5ig" |}.

(** A poll that finds the transaction with [status]. *)
Definition found (status : Solana.SignatureStatus.t) (h : Z) : Solana.Poll :=
  {| Solana.getSignatureStatuses := Ok (Some status);
     Solana.getTransaction := Ok (Some (txData 5000%float (Solana.SignatureStatus.err status)));
     Solana.getBlockHeight := Ok h;
     Solana.rebroadcast := Ok "5ig" |}.

Definition confirmedStatus : Solana.SignatureStatus.t :=
  {| Solana.SignatureStatus.err := None;
     Solana.SignatureStatus.confirmationStatus := Some Solana.confirmed |}.

(** The node reports an execution error for a transaction it has
    confirmed. *)
Definition revertedStatus : Solana.SignatureStatus.t :=
  {| Solana.SignatureStatus.err := Some "InstructionError";
     Solana.SignatureStatus.confirmationStatus := Some Solana.confirmed |}.

(** Scenario B of the specification: the broadcast succeeds, the
    validity window ends at height 100, three polls do not find the
    transaction, the fourth does not either and sees height 101, the
    fifth finds it confirmed. *)
Definition scenarioB : Solana.Network :=
  {| Solana.getLatestBlockhash := Ok ("9xQe", 100);
     Solana.sendWithSender := Throw "no sender";
     Solana.sendRawTransaction := Ok "5ig";
     Solana.isWebSocketConnected := false;
     Solana.monitorTransaction := Throw "no socket";
     Solana.polls := fun n =>
       if (n <=? 3)%nat then notFound 98
       else if (n =? 4)%nat then notFound 101
       else found confirmedStatus 102 |}.

(** The broadcast succeeds and the first poll reports an execution
    error for the transaction. *)
Definition revertedOnChain : Solana.Network :=
  {| Solana.getLatestBlockhash := Ok ("9xQe", 100);
     Solana.sendWithSender := Throw "no sender";
     Solana.sendRawTransaction := Ok "5ig";
     Solana.isWebSocketConnected := false;
     Solana.monitorTransaction := Throw "no socket";
     Solana.polls := fun _ => found revertedStatus 99 |}.

(** Every status request is rejected. *)
Definition rpcUnreachable : Solana.Network :=
  {| Solana.getLatestBlockhash := Ok ("9xQe", 100);
     Solana.sendWithSender := Throw "no sender";
     Solana.sendRawTransaction := Ok "5ig";
     Solana.isWebSocketConnected := false;
     Solana.monitorTransaction := Throw "no socket";
     Solana.polls := fun _ =>
       {| Solana.getSignatureStatuses := Throw "ECONNRESET";
          Solana.getTransaction := Throw "ECONNRESET";
          Solana.getBlockHeight := Throw "ECONNRESET";
          Solana.rebroadcast := Throw "ECONNRESET" |} |}.

(** The node refuses the transaction and there is no sender service. *)
Definition sendRefused : Solana.Network :=
  {| Solana.getLatestBlockhash := Ok ("9xQe", 100);
     Solana.sendWithSender := Throw "no sender";
     Solana.sendRawTransaction := Throw "Transaction too large";
     Solana.isWebSocketConnected := false;
     Solana.monitorTransaction := Throw "no socket";
     Solana.polls := fun _ => found confirmedStatus 99 |}.

(** An engine with a Helius service. *)
Definition heliusEngine : Solana.Solana :=
  {| Solana.heliusService := true;
     Solana.confirmRetryInterval := 2%float;
     Solana.confirmRetryCount := 10%float |}.

(** The sender accepts the transaction and the WebSocket monitor reports
    it confirmed. *)
Definition monitored : Solana.Network :=
  {| Solana.getLatestBlockhash := Ok ("9xQe", 100);
     Solana.sendWithSender := Ok "5ig";
     Solana.sendRawTransaction := Throw "not used";
     Solana.isWebSocketConnected := true;
     Solana.monitorTransaction :=
       Ok {| Solana.Monitor.confirmed := true;
             Solana.Monitor.txData := Some (txData 5000%float None) |};
     Solana.polls := fun _ => notFound 98 |}.

(** *** Settlement *)

Definition wallet : string := "9WzDXwBbmkg8ZTbNMqUxvQRAyrZzDsGYdLVL9zYtAWWM".
Definition usdcMint : string := "EPjFWdd5AufqSSqeM2qN1xzybapC8G4wEGGkZwyTDt1v".

(** The [uiTokenAmount] an RPC node reports for a raw [amount]: its
    [uiAmount] is the binary64 quotient of the amount by [10^decimals]. *)
Definition tokenAmount (amount : Z) (decimals : nat) : Solana.TokenAmount.t :=
  {| Solana.TokenAmount.amount := amount;
     Solana.TokenAmount.decimals := decimals;
     Solana.TokenAmount.uiAmount := Some (Number_of_Z amount / pow10 decimals)%float |}.

Definition tokenBalance (mint : string) (amount : Z) (decimals : nat)
  : Solana.TokenBalance.t :=
  {| Solana.TokenBalance.mint := mint;
     Solana.TokenBalance.owner := Some wallet;
     Solana.TokenBalance.uiTokenAmount := tokenAmount amount decimals |}.

(** A confirmed transaction that moves the wallet's holding of [mint]
    (with [decimals] decimals) from [pre] to [post] raw units and pays
    5000 lamports. *)
Definition tokenTransfer (mint : string) (decimals : nat) (pre post : Z)
  : Solana.ParsedTx.t :=
  {| Solana.ParsedTx.meta := Some
       {| Solana.ParsedMeta.fee := Some 5000%float;
          Solana.ParsedMeta.preBalances := Some [1000000000%float];
          Solana.ParsedMeta.postBalances := Some [999995000%float];
          Solana.ParsedMeta.preTokenBalances := Some [tokenBalance mint pre decimals];
          Solana.ParsedMeta.postTokenBalances := Some [tokenBalance mint post decimals] |};
     Solana.ParsedTx.accountKeys := [wallet] |}.

(** A receipt of a reverted EVM transaction that used 21000 gas at 30
    gwei. *)
Definition revertedReceipt : Ethereum.Receipt.t :=
  {| Ethereum.Receipt.transactionHash :=
       "0x5c504ed432cb51138bcf09aa5e8a410dd4a1e204ef84bfed1be16dfba1b22060";
     Ethereum.Receipt.status := Some 0;
     Ethereum.Receipt.gasUsed := 21000;
     Ethereum.Receipt.effectiveGasPrice := 30000000000 |}.

Definition bonkMint : string := "DezXAZ8z7PnrnRJjz3wXBoRgixCa6xjnB7YaB1pPB263".

(** *** Balances *)

Definition usdc : TokenInfo.t :=
  {| TokenInfo.chainId := 101;
     TokenInfo.address := usdcMint;
     TokenInfo.name := "USD Coin";
     TokenInfo.symbol := "USDC";
     TokenInfo.decimals := 6 |}.

Definition bonk : TokenInfo.t :=
  {| TokenInfo.chainId := 101;
     TokenInfo.address := bonkMint;
     TokenInfo.name := "Bonk";
     TokenInfo.symbol := "BONK";
     TokenInfo.decimals := 5 |}.

(** A wallet with 2 SOL, 3 USDC and an empty BONK account. *)
Definition solanaWallet : Solana.BalanceWorld :=
  {| Solana.getBalance := Ok 2000000000%float;
     Solana.fetchTokenAccounts :=
       <[usdcMint := {| Solana.amount := 3000000 |}]>
         (<[bonkMint := {| Solana.amount := 0 |}]> ∅);
     Solana.getMint := fun _ => Throw "timeout" |}.

Definition weth : TokenInfo.t :=
  {| TokenInfo.chainId := 1;
     TokenInfo.address := "0xC02aaA39b223FE8D0A0e5C4F27eAD9083C756Cc2";
     TokenInfo.name := "Wrapped Ether";
     TokenInfo.symbol := "WETH";
     TokenInfo.decimals := 18 |}.

Definition dai : TokenInfo.t :=
  {| TokenInfo.chainId := 1;
     TokenInfo.address := "0x6B175474E89094C44Da98b954EedeAC495271d0F";
     TokenInfo.name := "Dai Stablecoin";
     TokenInfo.symbol := "DAI";
     TokenInfo.decimals := 18 |}.

Definition mainnetTokens : Ethereum.Tokens :=
  {| Ethereum.chainId := 1;
     Ethereum.nativeTokenSymbol := "ETH";
     Ethereum.tokenList := [weth; dai];
     Ethereum.tokenMap := <["WETH" := weth]> (<["DAI" := dai]> ∅) |}.

(** Two entries of a token file that carry the same symbol. *)
Definition usdcFirst : TokenInfo.t :=
  {| TokenInfo.chainId := 1;
     TokenInfo.address := "0xA0b86991c6218b36c1d19D4a2e9Eb0cE3606eB48";
     TokenInfo.name := "USD Coin";
     TokenInfo.symbol := "USDC";
     TokenInfo.decimals := 6 |}.

Definition usdcSecond : TokenInfo.t :=
  {| TokenInfo.chainId := 1;
     TokenInfo.address := "0x2791Bca1f2de4661ED88A30C99A7a9449Aa84174";
     TokenInfo.name := "USD Coin (bridged)";
     TokenInfo.symbol := "USDC";
     TokenInfo.decimals := 6 |}.

(** A mainnet instance before its tokens are loaded. *)
Definition mainnetUnloaded : Ethereum.Tokens :=
  {| Ethereum.chainId := 1;
     Ethereum.nativeTokenSymbol := "ETH";
     Ethereum.tokenList := [];
     Ethereum.tokenMap := ∅ |}.

(** Wrapped SOL as token lists carry it: under the symbol SOL. *)
Definition wsol : TokenInfo.t :=
  {| TokenInfo.chainId := 101;
     TokenInfo.address := Solana.SOL_NATIVE_MINT;
     TokenInfo.name := "Wrapped SOL";
     TokenInfo.symbol := "SOL";
     TokenInfo.decimals := 9 |}.

(** A wallet with 2 SOL, 3 USDC and a wrapped-SOL account that holds
    0.5 wrapped SOL. *)
Definition wrappedSolWallet : Solana.BalanceWorld :=
  {| Solana.getBalance := Ok 2000000000%float;
     Solana.fetchTokenAccounts :=
       <[usdcMint := {| Solana.amount := 3000000 |}]>
         (<[Solana.SOL_NATIVE_MINT := {| Solana.amount := 500000000 |}]> ∅);
     Solana.getMint := fun _ => Throw "timeout" |}.

(** A token of the mainnet list that carries the symbol of the native
    asset. *)
Definition ethNamesake : TokenInfo.t :=
  {| TokenInfo.chainId := 1;
     TokenInfo.address := "0x2170Ed0880ac9A755fd29B2688956BD959F933F8";
     TokenInfo.name := "Ethereum Token";
     TokenInfo.symbol := "ETH";
     TokenInfo.decimals := 18 |}.

Definition mainnetWithNamesake : Ethereum.Tokens :=
  {| Ethereum.chainId := 1;
     Ethereum.nativeTokenSymbol := "ETH";
     Ethereum.tokenList := [weth; ethNamesake];
     Ethereum.tokenMap := <["WETH" := weth]> (<["ETH" := ethNamesake]> ∅) |}.

(** A wallet with 0.25 ETH and 1.5 of the namesake token. *)
Definition namesakeWallet : Ethereum.BalanceWorld :=
  {| Ethereum.isHardwareWallet := Ok false;
     Ethereum.getWallet := Ok tt;
     Ethereum.getNativeBalance := Ok 0.25%float;
     Ethereum.getERC20Balance := fun address _ =>
       if String.eqb address (TokenInfo.address ethNamesake) then Ok 1.5%float
       else Ok 0%float |}.

(** A wallet with no ETH, 1.5 WETH and no DAI. *)
Definition evmWallet : Ethereum.BalanceWorld :=
  {| Ethereum.isHardwareWallet := Ok false;
     Ethereum.getWallet := Ok tt;
     Ethereum.getNativeBalance := Ok 0%float;
     Ethereum.getERC20Balance := fun address _ =>
       if String.eqb address (TokenInfo.address weth) then Ok 1.5%float
       else Ok 0%float |}.

End Scenario.

(* ===================================================================== *)
(** ** Fee estimators: failure, cache and floor                          *)
(* ===================================================================== *)

Ltac unfold_js :=
  unfold bind, ret, throw, get, put, await, try_catch in *.

Section FeeEstimatorFacts.
Import SolanaPriorityFees.

Lemma priority_fee_cache_hit config w c v :
  cache_hit (now_check w) c = Some v ->
  estimatePriorityFee config w c = (Ok v, c).
Proof.
  intros H. unfold estimatePriorityFee. unfold_js. now rewrite H.
Qed.

(** On a cache miss the estimator returns normally; it either stores and
    returns a fresh entry or returns the floor and leaves the cache. *)
Lemma priority_fee_cache_miss config w c :
  cache_hit (now_check w) c = None ->
  (exists estimate,
      Spec.helius_failed w = false
      /\ estimatePriorityFee config w c =
           (Ok (Math_max (estimate / 1000000)%float (minimumFee config)),
            Some {| timestamp := now_store w;
                    fee := Math_max (estimate / 1000000)%float (minimumFee config) |}))
  \/ estimatePriorityFee config w c = (Ok (minimumFee config), c).
Proof.
  intros H. unfold estimatePriorityFee, Spec.helius_failed. unfold_js. rewrite H.
  destruct (useHeliusRestRPC config); simpl; [|now right].
  destruct (no_valid_key (heliusAPIKey config)); simpl; [now right|].
  destruct (fetch w) as [r|e]; simpl; [|now right].
  destruct (ok r); simpl; [|now right].
  destruct (json r) as [[d|]|e]; simpl; try now right.
  destruct (error d); simpl; [now right|].
  destruct (priorityFeeEstimate d) as [estimate|]; simpl; [|now right].
  left. now exists estimate.
Qed.

Lemma priority_fee_failed_floor config w c :
  cache_hit (now_check w) c = None ->
  Spec.helius_failed w = true ->
  estimatePriorityFee config w c = (Ok (minimumFee config), c).
Proof.
  intros H F. destruct (priority_fee_cache_miss config w c H) as [(e & F' & _)|E]; [|exact E].
  congruence.
Qed.

End FeeEstimatorFacts.

Section EvmEstimatorFacts.
Import Ethereum.
Variable formatGwei : Z -> number.
Variable toNumber : Z -> Result number.
Variable parseUnitsGwei : number -> Result Z.

Local Abbreviation estimate := (estimateGasPrice formatGwei toNumber parseUnitsGwei).
Local Abbreviation legacy := (legacyEstimate toNumber parseUnitsGwei).
Local Abbreviation eip1559 := (eip1559Estimate formatGwei).

Lemma gas_price_cache_hit this w c v :
  cache_hit (now_check w) c = Some v ->
  estimate this w c = (Ok v, c).
Proof.
  intros H. unfold estimateGasPrice. unfold_js. now rewrite H.
Qed.

Lemma legacy_outcome this w c :
  legacy this w c = (Ok (minGasPrice this), c)
  \/ exists v, is_ok (getGasPrice w) = true
               /\ legacy this w c = (Ok v, Some (Spec.legacyEntry w v)).
Proof.
  unfold legacyEstimate, Spec.legacyEntry. unfold_js.
  destruct (getGasPrice w) as [baseFee|e]; simpl; [|now left].
  destruct (String.eqb (network this) "mainnet"); simpl.
  - destruct (eth_maxPriorityFeePerGas w) as [priorityFee|e]; simpl; [|now left].
    destruct (toNumber (baseFee + priorityFee)) as [n|e]; simpl; [|now left].
    destruct (parseUnitsGwei (minGasPrice this)) as [minWei|e]; simpl; [|now left].
    destruct (toNumber _) as [a|e]; simpl; [|now left].
    right. eexists. split; reflexivity.
  - destruct (toNumber (baseFee + 0)) as [n|e]; simpl; [|now left].
    destruct (parseUnitsGwei (minGasPrice this)) as [minWei|e]; simpl; [|now left].
    destruct (toNumber _) as [a|e]; simpl; [|now left].
    right. eexists. split; reflexivity.
Qed.

Lemma eip1559_outcome this w c :
  (exists e, eip1559 this w c = (Throw e, c)
             /\ Spec.configured_fees this = None
             /\ fromEtherscan this w = None /\ fromRpc formatGwei w = None)
  \/ exists fees,
       (Spec.configured_fees this = Some fees
        \/ Spec.configured_fees this = None
           /\ (fromEtherscan this w = Some fees
               \/ fromEtherscan this w = None /\ fromRpc formatGwei w = Some fees))
       /\ eip1559 this w c =
            (Ok (Spec.clamp (minGasPrice this) (fst fees)), Some (Spec.eip1559Entry this w fees)).
Proof.
  unfold eip1559Estimate, Spec.eip1559Entry, Spec.configured_fees, Spec.clamp. unfold_js.
  destruct (maxFeePerGas this) as [cm|], (maxPriorityFeePerGas this) as [cp|]; simpl.
  1: right; exists (cm, cp); split; [now left | reflexivity].
  all: destruct (fromEtherscan this w) as [[m p]|]; simpl;
    [ right; exists (m, p); split; [right; split; [reflexivity | now left] | reflexivity] | ].
  all: destruct (fromRpc formatGwei w) as [[m p]|]; simpl;
    [ right; exists (m, p); split; [right; split; [reflexivity | now right] | reflexivity]
    | left; eexists; repeat split; reflexivity ].
Qed.

Lemma gas_price_cache_miss this w c :
  cache_hit (now_check w) c = None ->
  estimate this w c =
    (if supportsEIP1559 this
     then try_catch (eip1559 this w) (fun _ => legacy this w)
     else legacy this w) c.
Proof.
  intros H. unfold estimateGasPrice. unfold bind, get. now rewrite H.
Qed.

(** [estimateGasPrice] returns normally in every state and world. *)
Lemma gas_price_total this w c :
  exists v c', estimate this w c = (Ok v, c').
Proof.
  destruct (cache_hit (now_check w) c) as [v|] eqn:H.
  { exists v, c. now apply gas_price_cache_hit. }
  rewrite (gas_price_cache_miss _ _ _ H).
  assert (L : exists v c', legacy this w c = (Ok v, c')).
  { destruct (legacy_outcome this w c) as [E|[v [_ E]]]; rewrite E; eauto. }
  destruct (supportsEIP1559 this); [|exact L].
  unfold try_catch.
  destruct (eip1559_outcome this w c) as [(e & E & _)|(fees & _ & E)]; rewrite E; eauto.
Qed.


(** On a cache miss the estimator leaves the cache as it was (returning
    the floor) or replaces it by an entry that holds the value it
    returns, stamped with the current time. *)
Lemma gas_price_miss_outcome this w c :
  cache_hit (now_check w) c = None ->
  estimate this w c = (Ok (minGasPrice this), c)
  \/ exists v e, estimate this w c = (Ok v, Some e)
                 /\ Estimate.timestamp e = now_store w
                 /\ Estimate.gasPrice e = v.
Proof.
  intros H. rewrite (gas_price_cache_miss _ _ _ H).
  assert (L : legacy this w c = (Ok (minGasPrice this), c)
              \/ exists v e, legacy this w c = (Ok v, Some e)
                             /\ Estimate.timestamp e = now_store w
                             /\ Estimate.gasPrice e = v).
  { destruct (legacy_outcome this w c) as [E|[v [_ E]]]; [now left|].
    right. exists v, (Spec.legacyEntry w v). now rewrite E. }
  destruct (supportsEIP1559 this); [|exact L].
  unfold try_catch.
  destruct (eip1559_outcome this w c) as [(e & E & _)|(fees & _ & E)]; rewrite E; [exact L|].
  right. do 2 eexists. repeat split.
Qed.

End EvmEstimatorFacts.


Section FeeEstimatorClaims.
Import SolanaPriorityFees.



(** C8 as stated fails: a floor returned after an upstream failure is
    not cached, so a second call one second later recomputes and returns
    another quote. *)
Lemma fallback_quote_not_cached :
  let config := Scenario.solanaConfig 0.1%float in
  let first := estimatePriorityFee config (Scenario.heliusDown 0) None in
  let second :=
    estimatePriorityFee config (Scenario.heliusAnswers 1000 50000000%float) (snd first) in
  1000 - 0 < PRIORITY_FEE_CACHE_MS
  /\ fst first = Ok 0.1%float
  /\ snd first = None
  /\ fst second = Ok 50%float
  /\ fst second <> fst first.
Proof.
  cbv zeta. repeat split.
  intro E.
  apply (f_equal (fun r => match r with Ok v => Prim2SF v | Throw _ => S754_nan end)) in E.
  vm_compute in E. discriminate E.
Qed.

(** C8, amended.  While a cache entry is younger than the TTL
    ([now - timestamp < 10000]) a call returns the entry's value without
    any upstream request and leaves the cache unchanged, so all such
    calls return identical quotes.  A call changes the cache only on a
    miss (no entry, or an expired one), and then only by storing the
    value it returns under the current time: the entry is never cleared. *)
Theorem cached_quote_served_until_expiry :
  (forall config w e,
      now_check w - timestamp e < PRIORITY_FEE_CACHE_MS ->
      estimatePriorityFee config w (Some e) = (Ok (fee e), Some e))
  /\
  (forall config w c,
      snd (estimatePriorityFee config w c) = c
      \/ cache_hit (now_check w) c = None
         /\ exists v, estimatePriorityFee config w c =
                        (Ok v, Some {| timestamp := now_store w; fee := v |}))
  /\
  (forall formatGwei toNumber parseUnitsGwei this w e,
      Ethereum.now_check w - Ethereum.Estimate.timestamp e < Ethereum.GAS_PRICE_CACHE_MS ->
      Ethereum.estimateGasPrice formatGwei toNumber parseUnitsGwei this w (Some e)
      = (Ok (Ethereum.Estimate.gasPrice e), Some e))
  /\
  (forall formatGwei toNumber parseUnitsGwei this w c,
      snd (Ethereum.estimateGasPrice formatGwei toNumber parseUnitsGwei this w c) = c
      \/ Ethereum.cache_hit (Ethereum.now_check w) c = None
         /\ exists v e,
             Ethereum.estimateGasPrice formatGwei toNumber parseUnitsGwei this w c
             = (Ok v, Some e)
             /\ Ethereum.Estimate.timestamp e = Ethereum.now_store w
             /\ Ethereum.Estimate.gasPrice e = v).
Proof.
  repeat split.
  - intros config w e H. apply priority_fee_cache_hit. simpl.
    apply Z.ltb_lt in H. now rewrite H.
  - intros config w c.
    destruct (cache_hit (now_check w) c) as [v|] eqn:H.
    + left. now rewrite (priority_fee_cache_hit config w c v H).
    + destruct (priority_fee_cache_miss config w c H) as [(e & _ & E)|E].
      * right. split; [reflexivity|]. eexists. exact E.
      * left. now rewrite E.
  - intros formatGwei toNumber parseUnitsGwei this w e H.
    apply gas_price_cache_hit. simpl. apply Z.ltb_lt in H. now rewrite H.
  - intros formatGwei toNumber parseUnitsGwei this w c.
    destruct (Ethereum.cache_hit (Ethereum.now_check w) c) as [v|] eqn:H.
    + left. now rewrite (gas_price_cache_hit _ _ _ this w c v H).
    + destruct (gas_price_miss_outcome formatGwei toNumber parseUnitsGwei this w c H)
        as [E|(v & e & E & T & G)].
      * left. now rewrite E.
      * right. split; [reflexivity|]. now exists v, e.
Qed.

Lemma cached_quote_served_until_expiry_witness :
  let entry := {| timestamp := 1000; fee := 50%float |} in
  estimatePriorityFee (Scenario.solanaConfig 0.1%float) (Scenario.heliusDown 10999) (Some entry)
  = (Ok 50%float, Some entry)
  /\ estimatePriorityFee (Scenario.solanaConfig 0.1%float)
       (Scenario.heliusAnswers 9000 7000000%float) (Some entry)
     = (Ok 50%float, Some entry).
Proof.
  cbv zeta. split.
  - apply (proj1 cached_quote_served_until_expiry (Scenario.solanaConfig 0.1%float)
             (Scenario.heliusDown 10999) {| timestamp := 1000; fee := 50%float |}).
    reflexivity.
  - apply (proj1 cached_quote_served_until_expiry (Scenario.solanaConfig 0.1%float)
             (Scenario.heliusAnswers 9000 7000000%float)
             {| timestamp := 1000; fee := 50%float |}).
    reflexivity.
Defined.

(** [x < x] is false for every binary64 value. *)
Lemma ltb_irrefl (x : number) : (x <? x)%float = false.
Proof.
  rewrite ltb_spec. unfold SFltb, SFcompare.
  destruct (Prim2SF x) as [s|s| |s m e]; try destruct s; try reflexivity.
  all: rewrite Z.compare_refl, Pos.compare_cont_refl; reflexivity.
Qed.

(** [NaN < m] is false. *)
Lemma nan_ltb (m : number) : (nan <? m)%float = false.
Proof. rewrite ltb_spec. reflexivity. Qed.

Lemma Math_max_not_below a m : (Math_max a m <? m)%float = false.
Proof.
  unfold Math_max.
  destruct (is_nan a || is_nan m); [apply nan_ltb|].
  destruct (a <? m)%float eqn:L; [apply ltb_irrefl|].
  destruct (m <? a)%float; [exact L|].
  destruct (get_sign a); [apply ltb_irrefl | exact L].
Qed.

(** X1.  On a cache miss the floor of the calling network is applied:
    the priority-fee estimate and the EIP-1559 estimate are never below
    it. *)
Theorem floor_applied_on_cache_miss :
  (forall config w c v c',
      cache_hit (now_check w) c = None ->
      estimatePriorityFee config w c = (Ok v, c') ->
      (v <? minimumFee config)%float = false)
  /\
  (forall formatGwei this w c v c',
      Ethereum.eip1559Estimate formatGwei this w c = (Ok v, c') ->
      (v <? Ethereum.minGasPrice this)%float = false).
Proof.
  split.
  - intros config w c v c' H E.
    destruct (priority_fee_cache_miss config w c H) as [(e & _ & E')|E'];
      rewrite E' in E; inversion E; subst; [apply Math_max_not_below | apply ltb_irrefl].
  - intros formatGwei this w c v c' E.
    destruct (eip1559_outcome formatGwei this w c) as [(e & E' & _)|(fees & _ & E')];
      rewrite E' in E; inversion E; subst. unfold Spec.clamp.
    destruct (fst fees <? Ethereum.minGasPrice this)%float eqn:L;
      [apply ltb_irrefl | exact L].
Qed.

Lemma floor_applied_on_cache_miss_witness :
  (5 <? SolanaPriorityFees.minimumFee (Scenario.solanaConfig 0.1%float))%float = false
  /\ (0.1 <? SolanaPriorityFees.minimumFee (Scenario.solanaConfig 0.1%float))%float = false.
Proof.
  split.
  - apply (proj1 floor_applied_on_cache_miss (Scenario.solanaConfig 0.1%float)
             (Scenario.heliusAnswers 0 5000000%float) None 5%float
             (Some {| timestamp := 0; fee := 5%float |})); reflexivity.
  - apply (proj1 floor_applied_on_cache_miss (Scenario.solanaConfig 0.1%float)
             (Scenario.heliusAnswers 0 (-3)%float) None 0.1%float
             (Some {| timestamp := 0; fee := 0.1%float |})); reflexivity.
Defined.

(** C3 on the failing input.  The cache is one static entry for the
    whole process while the floor belongs to the configuration of the
    calling network: a quote cached by a network with a low floor is
    returned, within the TTL, to a network whose floor is higher. *)
Theorem floor_lost_on_shared_cache :
  (let first :=
     estimatePriorityFee (Scenario.solanaConfig 0.1%float)
       (Scenario.heliusAnswers 0 5000000%float) None in
   let second :=
     estimatePriorityFee (Scenario.solanaConfig 10%float)
       (Scenario.heliusAnswers 1000 50000000%float) (snd first) in
   fst first = Ok 5%float
   /\ minimumFee (Scenario.solanaConfig 10%float) = 10%float
   /\ fst second = Ok 5%float
   /\ (5 <? 10)%float = true)
  /\
  (forall formatGwei toNumber parseUnitsGwei,
      let estimate := Ethereum.estimateGasPrice formatGwei toNumber parseUnitsGwei in
      let first :=
        estimate (Scenario.evmInstance "mainnet" 0.1%float)
          (Scenario.etherscanAnswers 0 2%float 1%float) None in
      let second :=
        estimate (Scenario.evmInstance "polygon" 30%float)
          (Scenario.etherscanAnswers 1000 45%float 30%float) (snd first) in
      fst first = Ok 2%float
      /\ Ethereum.minGasPrice (Scenario.evmInstance "polygon" 30%float) = 30%float
      /\ fst second = Ok 2%float
      /\ (2 <? 30)%float = true).
Proof.
  split; [|intros formatGwei toNumber parseUnitsGwei]; cbv zeta; repeat split.
Qed.

End FeeEstimatorClaims.

(* ===================================================================== *)
(** ** Gas options: one pricing style                                    *)
(* ===================================================================== *)

Section GasOptionsClaims.
Import Ethereum.
Variable formatGwei : Z -> number.
Variable toNumber : Z -> Result number.
Variable parseUnitsGwei : number -> Result Z.

Local Abbreviation estimate := (estimateGasPrice formatGwei toNumber parseUnitsGwei).
Local Abbreviation prepare := (prepareGasOptions formatGwei toNumber parseUnitsGwei).

Local Abbreviation styled_or_conversion_error := (Spec.styled_or_conversion_error parseUnitsGwei).

Lemma dynamicFeeOptions_styled limit maxFee priority (c : Cache) :
  styled_or_conversion_error
    (fst (dynamicFeeOptions parseUnitsGwei limit maxFee priority c)).
Proof.
  unfold dynamicFeeOptions, Spec.styled_or_conversion_error. unfold_js.
  destruct (parseUnitsGwei maxFee) as [m|e] eqn:Em; simpl; [|now exists maxFee, e].
  destruct (parseUnitsGwei priority) as [q|e] eqn:Ep; simpl; [|now exists priority, e].
  left. unfold Spec.dynamic_fee_style, Spec.legacy_style; simpl.
  split; [repeat split; eauto | intros [H _]; discriminate H].
Qed.

Lemma legacyOptions_styled this limit gasPrice w (c : Cache) :
  styled_or_conversion_error
    (fst (legacyOptions formatGwei toNumber parseUnitsGwei this limit gasPrice w c)).
Proof.
  unfold legacyOptions. unfold bind at 1.
  assert (G : exists g c', match gasPrice with
                           | Some g => ret g
                           | None => estimate this w
                           end c = (Ok g, c')).
  { destruct gasPrice as [g|]; [now exists g, c | apply gas_price_total]. }
  destruct G as (g & c' & ->). unfold Spec.styled_or_conversion_error. unfold_js.
  destruct (parseUnitsGwei g) as [p|e] eqn:Ep; simpl; [|now exists g, e].
  right. unfold Spec.dynamic_fee_style, Spec.legacy_style; simpl.
  split; [repeat split; eauto | intros [H _]; discriminate H].
Qed.

(** C9.  For every optional [gasPrice] and [gasLimit], every network,
    cache state and upstream answer, the gas options [prepareGasOptions]
    returns have exactly one pricing style: type 2 with [maxFeePerGas]
    and [maxPriorityFeePerGas] and no [gasPrice], or type 0 with a
    [gasPrice] and neither fee cap.  The call returns such options
    unless the conversion of a price to wei throws. *)
Theorem gas_options_one_pricing_style :
  forall this gasPrice gasLimit w1 w2 (c : Cache),
    styled_or_conversion_error (fst (prepare this gasPrice gasLimit w1 w2 c)).
Proof.
  intros this gasPrice gasLimit w1 w2 c. unfold prepareGasOptions.
  destruct (supportsEIP1559 this); [|apply legacyOptions_styled].
  unfold bind at 1. unfold get.
  set (provided := match gasPrice with
                   | Some g => if truthy g then Some g else None
                   | None => None
                   end).
  destruct provided as [g|];
    [destruct (cachedEIP1559 c) as [[? ?]|]; apply dynamicFeeOptions_styled|].
  destruct (cachedEIP1559 c) as [[maxFee priority]|]; [apply dynamicFeeOptions_styled|].
  unfold bind at 1.
  destruct (gas_price_total formatGwei toNumber parseUnitsGwei this w1 c) as (v & c' & ->).
  unfold bind at 1. unfold get.
  destruct (cachedEIP1559 c') as [[maxFee priority]|];
    [apply dynamicFeeOptions_styled | apply legacyOptions_styled].
Qed.

End GasOptionsClaims.

(* ===================================================================== *)
(** ** Send and confirm: payload, ordering, budget                       *)
(* ===================================================================== *)

Section EngineFacts.
Import Solana.

Lemma payloads_app tr1 tr2 :
  Spec.payloads (tr1 ++ tr2) = Spec.payloads tr1 ++ Spec.payloads tr2.
Proof. unfold Spec.payloads. apply flat_map_app. Qed.

Lemma polls_made_app tr1 tr2 :
  Spec.polls_made (tr1 ++ tr2) = (Spec.polls_made tr1 + Spec.polls_made tr2)%nat.
Proof. unfold Spec.polls_made. now rewrite List.filter_app, length_app. Qed.

Lemma wait_times_app tr1 tr2 :
  Spec.wait_times (tr1 ++ tr2) = Spec.wait_times tr1 ++ Spec.wait_times tr2.
Proof. unfold Spec.wait_times. apply flat_map_app. Qed.

Lemma waits_app tr1 tr2 :
  Spec.waits (tr1 ++ tr2) = (Spec.waits tr1 + Spec.waits tr2)%nat.
Proof. unfold Spec.waits. now rewrite wait_times_app, length_app. Qed.

(** One attempt: it never throws, it decides what [attempt_outcome]
    says, it polls the status once and waits at most once, for one of the
    two intervals, and whatever it sends is [serializedTx]. *)
Lemma pollAttempt_spec this serializedTx lastValid signature p tr :
  exists evs,
    pollAttempt this serializedTx lastValid signature p tr
    = (Ok (Spec.attempt_outcome signature p), tr ++ evs)
    /\ Spec.polls_made evs = 1%nat
    /\ (Spec.waits evs <= 1)%nat
    /\ Forall (Spec.poll_interval this) (Spec.wait_times evs)
    /\ Forall (eq serializedTx) (Spec.payloads evs).
Proof.
  unfold pollAttempt, Spec.attempt_outcome, call. unfold_js.
  assert (I1 : Spec.poll_interval this (confirmRetryInterval this * 1000)%float)
    by now left.
  assert (I2 : Spec.poll_interval this 1000%float) by now right.
  destruct (getSignatureStatuses p) as [[st|]|e]; simpl.
  1: destruct (SignatureStatus.err st) as [e|]; simpl.
  1: { eexists. split; [reflexivity|]. split; [reflexivity|].
       split; [unfold Spec.waits; simpl; lia|]. split; constructor. }
  1: destruct (SignatureStatus.confirmationStatus st) as [[| |]|]; simpl.
  2,3: destruct (getTransaction p) as [d|e]; simpl; rewrite <- ?app_assoc;
       eexists; (split; [reflexivity|]); (split; [reflexivity|]);
       (split; [unfold Spec.waits; simpl; lia|]); split; repeat constructor;
       assumption.
  4: { rewrite <- ?app_assoc. eexists. split; [reflexivity|]. split; [reflexivity|].
       split; [unfold Spec.waits; simpl; lia|]. split; repeat constructor; assumption. }
  all: destruct (getBlockHeight p) as [h|e]; simpl;
    [ destruct (h >? lastValid); simpl;
      [ destruct (rebroadcast p); simpl | ]
    | ];
    rewrite <- ?app_assoc; simpl;
    eexists; (split; [reflexivity|]); (split; [reflexivity|]);
    (split; [unfold Spec.waits; simpl; lia|]); split; repeat constructor;
    assumption.
Qed.

(** An attempt that finds the transaction unseen after the validity
    window sends [serializedTx] again, once, with the options of the
    first broadcast, and goes on polling. *)
Lemma pollAttempt_rebroadcast this serializedTx lastValid signature p tr h :
  Spec.not_yet_seen p = true ->
  getBlockHeight p = Ok h ->
  lastValid < h ->
  pollAttempt this serializedTx lastValid signature p tr
  = (Ok None,
     tr ++ [GetSignatureStatuses signature; GetBlockHeight;
            SendRawTransaction serializedTx true 0;
            Sleep (confirmRetryInterval this * 1000)%float]).
Proof.
  intros N H L. apply Z.gtb_lt in L.
  unfold Spec.not_yet_seen in N. unfold pollAttempt, call. unfold_js.
  destruct (getSignatureStatuses p) as [[st|]|e]; simpl; try discriminate.
  1: destruct (SignatureStatus.err st) as [e|]; simpl; try discriminate.
  1: destruct (SignatureStatus.confirmationStatus st) as [[| |]|]; simpl; try discriminate.
  all: rewrite H; simpl; rewrite L; simpl;
    destruct (rebroadcast p); simpl; rewrite <- ?app_assoc; reflexivity.
Qed.

(** A rejected status request is swallowed: the attempt waits and the
    loop goes on. *)
Lemma pollAttempt_network_error this serializedTx lastValid signature p tr e :
  getSignatureStatuses p = Throw e ->
  pollAttempt this serializedTx lastValid signature p tr
  = (Ok None, tr ++ [GetSignatureStatuses signature; Sleep 1000%float]).
Proof.
  intros H. unfold pollAttempt, call. unfold_js. rewrite H. simpl.
  now rewrite <- app_assoc.
Qed.

(** The loop with [budget] attempts left. *)
Lemma pollLoop_spec this serializedTx lastValid signature polls budget :
  forall attempts tr,
  exists r evs,
    pollLoop this serializedTx lastValid signature polls budget attempts tr
    = (Ok r, tr ++ evs)
    /\ (Spec.polls_made evs <= budget)%nat
    /\ (Spec.waits evs <= budget)%nat
    /\ Forall (Spec.poll_interval this) (Spec.wait_times evs)
    /\ Forall (eq serializedTx) (Spec.payloads evs)
    /\ ((forall n, (attempts < n <= attempts + budget)%nat ->
         Spec.attempt_outcome signature (polls n) = None) ->
        r = notConfirmed signature /\ Spec.polls_made evs = budget).
Proof.
  induction budget as [|budget IH]; intros attempts tr; simpl.
  - exists (notConfirmed signature), []. rewrite app_nil_r.
    repeat split; [reflexivity | reflexivity | constructor | constructor].
  - unfold bind at 1.
    destruct (pollAttempt_spec this serializedTx lastValid signature
                (polls (S attempts)) tr) as (evs & -> & P & W & I & F).
    destruct (Spec.attempt_outcome signature (polls (S attempts))) as [r|] eqn:O.
    + exists r, evs. split; [reflexivity|]. split; [lia|]. split; [lia|].
      split; [exact I|]. split; [exact F|].
      intros A. rewrite A in O by lia. discriminate.
    + destruct (IH (S attempts) (tr ++ evs))
        as (r & evs' & -> & P' & W' & I' & F' & A').
      exists r, (evs ++ evs'). rewrite app_assoc.
      rewrite polls_made_app, waits_app, wait_times_app, payloads_app.
      split; [reflexivity|]. split; [lia|]. split; [lia|].
      split; [now apply Forall_app|]. split; [now apply Forall_app|].
      intros A. destruct A' as [-> Q]; [intros n Hn; apply A; lia|].
      split; [reflexivity | lia].
Qed.

(** The first broadcast sends [serializedTx] and nothing else. *)
Lemma broadcast_spec this net serializedTx tr :
  exists r evs,
    broadcast this net serializedTx tr = (r, tr ++ evs)
    /\ Spec.polls_made evs = 0%nat
    /\ Spec.waits evs = 0%nat
    /\ Forall (eq serializedTx) (Spec.payloads evs).
Proof.
  unfold broadcast, call. unfold_js.
  destruct (heliusService this); [destruct (sendWithSender net)|]; simpl;
    rewrite <- ?app_assoc; simpl;
    do 2 eexists; (split; [reflexivity|]); repeat split; repeat constructor.
Qed.

(** The whole call: it throws only when the blockhash request of its
    first line is rejected; otherwise it returns after at most
    [maxPollingAttempts] polls and waits, having sent only
    [serializedTx]. *)
Lemma sendAndConfirmRaw_spec this net serializedTx tr :
  exists r evs,
    _sendAndConfirmRawTransaction this net serializedTx tr = (r, tr ++ evs)
    /\ (is_ok (getLatestBlockhash net) = true -> is_ok r = true)
    /\ (Spec.polls_made evs <= maxPollingAttempts)%nat
    /\ (Spec.waits evs <= maxPollingAttempts)%nat
    /\ Forall (eq serializedTx) (Spec.payloads evs).
Proof.
  unfold _sendAndConfirmRawTransaction. unfold bind at 1. unfold call at 1.
  destruct (getLatestBlockhash net) as [[blockhash lastValid]|e]; cbn [is_ok snd].
  2: { do 2 eexists. split; [reflexivity|]. split; [discriminate|].
       unfold Spec.polls_made, Spec.waits, maxPollingAttempts. simpl.
       repeat split; [lia | lia | constructor]. }
  unfold bind at 1. unfold try_catch at 1. unfold bind at 1.
  destruct (broadcast_spec this net serializedTx (tr ++ [GetLatestBlockhash]))
    as (rb & evb & -> & Pb & Wb & Fb).
  destruct rb as [signature|e]; unfold ret at 1; cbv beta iota.
  2: { unfold ret. exists (Ok (notConfirmed "")), ([GetLatestBlockhash] ++ evb).
       rewrite app_assoc. split; [reflexivity|]. split; [reflexivity|].
       rewrite polls_made_app, waits_app, payloads_app. simpl.
       repeat split; [lia | lia | exact Fb]. }
  unfold try_catch.
  destruct (heliusService this && isWebSocketConnected net).
  - unfold bind, call, ret.
    destruct (monitorTransaction net) as [m|e]; simpl;
      rewrite <- !app_assoc; do 2 eexists; (split; [reflexivity|]);
      (split; [reflexivity|]);
      rewrite !polls_made_app, !waits_app, !payloads_app; simpl;
      rewrite app_nil_r; unfold Spec.polls_made, Spec.waits in *; simpl;
      (repeat split; [lia | lia | exact Fb]).
  - destruct (pollLoop_spec this serializedTx lastValid signature (polls net)
                maxPollingAttempts 0 ((tr ++ [GetLatestBlockhash]) ++ evb))
      as (r & evs & -> & P & W & _ & F & _).
    exists (Ok r), ([GetLatestBlockhash] ++ evb ++ evs).
    rewrite !app_assoc. split; [reflexivity|]. split; [reflexivity|].
    rewrite <- !app_assoc. rewrite !polls_made_app, !waits_app, !payloads_app. simpl.
    rewrite Pb, Wb. repeat split; [exact P | exact W | now apply Forall_app].
Qed.

End EngineFacts.

Section EngineClaims.
Import Solana.

(** Scenario B: one re-broadcast, at the fourth poll, of the bytes of
    the first broadcast. *)
Example scenarioB_trace :
  _sendAndConfirmRawTransaction Scenario.engine Scenario.scenarioB Scenario.payload []
  = (Ok {| Confirmation.confirmed := true;
           Confirmation.signature := "5ig";
           Confirmation.txData := Some (Scenario.txData 5000%float None) |},
     [GetLatestBlockhash;
      SendRawTransaction Scenario.payload true 0;
      GetSignatureStatuses "5ig"; GetBlockHeight; Sleep 2000%float;
      GetSignatureStatuses "5ig"; GetBlockHeight; Sleep 2000%float;
      GetSignatureStatuses "5ig"; GetBlockHeight; Sleep 2000%float;
      GetSignatureStatuses "5ig"; GetBlockHeight;
      SendRawTransaction Scenario.payload true 0; Sleep 2000%float;
      GetSignatureStatuses "5ig"; GetTransaction "5ig"]).
Proof. vm_compute. reflexivity. Qed.

(** C1.  Every payload [_sendAndConfirmRawTransaction] hands to the
    network, by the Helius sender, by the first [sendRawTransaction] or
    by a re-broadcast during polling, is the [serializedTx] it was called
    with; and a poll that finds the transaction unseen after
    [lastValidBlockHeight] re-sends exactly those bytes, once, with the
    same send options, and keeps polling the original signature. *)
Theorem rebroadcast_is_first_payload :
  (forall this net serializedTx tr,
      exists evs,
        snd (_sendAndConfirmRawTransaction this net serializedTx tr) = tr ++ evs
        /\ Forall (eq serializedTx) (Spec.payloads evs))
  /\
  (forall this serializedTx lastValidBlockHeight signature p tr h,
      Spec.not_yet_seen p = true ->
      getBlockHeight p = Ok h ->
      lastValidBlockHeight < h ->
      pollAttempt this serializedTx lastValidBlockHeight signature p tr
      = (Ok None,
         tr ++ [GetSignatureStatuses signature; GetBlockHeight;
                SendRawTransaction serializedTx true 0;
                Sleep (confirmRetryInterval this * 1000)%float])).
Proof.
  split.
  - intros this net serializedTx tr.
    destruct (sendAndConfirmRaw_spec this net serializedTx tr)
      as (r & evs & E & _ & _ & _ & F).
    exists evs. now rewrite E.
  - intros. now apply pollAttempt_rebroadcast with (h := h).
Qed.

Lemma rebroadcast_is_first_payload_witness :
  (exists evs,
      snd (_sendAndConfirmRawTransaction Scenario.engine Scenario.scenarioB
             Scenario.payload []) = [] ++ evs
      /\ Forall (eq Scenario.payload) (Spec.payloads evs))
  /\ pollAttempt Scenario.engine Scenario.payload 100 "5ig" (Scenario.notFound 101) []
     = (Ok None,
        [] ++ [GetSignatureStatuses "5ig"; GetBlockHeight;
               SendRawTransaction Scenario.payload true 0;
               Sleep (2 * 1000)%float]).
Proof.
  split.
  - exact (proj1 rebroadcast_is_first_payload Scenario.engine Scenario.scenarioB
             Scenario.payload []).
  - apply (proj2 rebroadcast_is_first_payload Scenario.engine Scenario.payload 100 "5ig"
             (Scenario.notFound 101) [] 101); [reflexivity | reflexivity | lia].
Defined.

(** C6.  The poll loop returns after at most 30 status polls and 30
    waits, each of [confirmRetryInterval] seconds or of one second,
    whatever the network answers, and it returns a result, never an
    exception: a rejected request inside an attempt is caught, the
    attempt waits one second and the loop goes on; when none of the 30
    attempts is conclusive the result is the non-confirmed record with
    no transaction data.  The whole call throws only if the blockhash
    request that precedes the broadcast is rejected. *)
Theorem poll_loop_bounded :
  (forall this serializedTx lastValidBlockHeight signature polls tr,
      exists r evs,
        pollLoop this serializedTx lastValidBlockHeight signature polls
          maxPollingAttempts 0 tr = (Ok r, tr ++ evs)
        /\ (Spec.polls_made evs <= 30)%nat
        /\ (Spec.waits evs <= 30)%nat
        /\ Forall (Spec.poll_interval this) (Spec.wait_times evs)
        /\ ((forall n, (1 <= n <= 30)%nat ->
             Spec.attempt_outcome signature (polls n) = None) ->
            r = notConfirmed signature /\ Spec.polls_made evs = 30%nat))
  /\
  (forall this serializedTx lastValidBlockHeight signature p tr e,
      getSignatureStatuses p = Throw e ->
      pollAttempt this serializedTx lastValidBlockHeight signature p tr
      = (Ok None, tr ++ [GetSignatureStatuses signature; Sleep 1000%float]))
  /\
  (forall this net serializedTx tr,
      is_ok (getLatestBlockhash net) = true ->
      exists r evs,
        _sendAndConfirmRawTransaction this net serializedTx tr = (Ok r, tr ++ evs)
        /\ (Spec.polls_made evs <= 30)%nat
        /\ (Spec.waits evs <= 30)%nat).
Proof.
  repeat split.
  - intros this serializedTx lastValid signature polls tr.
    destruct (pollLoop_spec this serializedTx lastValid signature polls
                maxPollingAttempts 0 tr) as (r & evs & E & P & W & I & _ & A).
    exists r, evs. repeat split; try assumption.
    all: apply A; intros n Hn; apply H; unfold maxPollingAttempts in Hn; lia.
  - intros. now apply pollAttempt_network_error with (e := e).
  - intros this net serializedTx tr H.
    destruct (sendAndConfirmRaw_spec this net serializedTx tr)
      as (r & evs & E & K & P & W & _).
    specialize (K H). destruct r as [r|e]; [|discriminate].
    exists r, evs. repeat split; assumption.
Qed.

Lemma poll_loop_bounded_witness :
  (exists r evs,
      pollLoop Scenario.engine Scenario.payload 100 "5ig"
        (polls Scenario.rpcUnreachable) maxPollingAttempts 0 [] = (Ok r, [] ++ evs)
      /\ r = notConfirmed "5ig"
      /\ Spec.polls_made evs = 30%nat)
  /\ (exists r evs,
        _sendAndConfirmRawTransaction Scenario.engine Scenario.rpcUnreachable
          Scenario.payload [] = (Ok r, [] ++ evs)
        /\ (Spec.polls_made evs <= 30)%nat
        /\ (Spec.waits evs <= 30)%nat).
Proof.
  split.
  - destruct (proj1 poll_loop_bounded Scenario.engine Scenario.payload 100 "5ig"
                (polls Scenario.rpcUnreachable) []) as (r & evs & E & _ & _ & _ & A).
    exists r, evs. split; [exact E|]. apply A. intros n _. reflexivity.
  - apply (proj2 (proj2 poll_loop_bounded) Scenario.engine Scenario.rpcUnreachable
             Scenario.payload []). reflexivity.
Defined.

End EngineClaims.

(* ===================================================================== *)
(** ** Status determination                                              *)
(* ===================================================================== *)

Section ConfirmationFacts.
Import Solana.
Variable isPublicKey : string -> bool.

(** An attempt that sees an execution error ends the loop at once, before
    looking at the confirmation status and without any further request. *)
Lemma pollAttempt_error_first this serializedTx lastValid signature p tr st e :
  getSignatureStatuses p = Ok (Some st) ->
  SignatureStatus.err st = Some e ->
  pollAttempt this serializedTx lastValid signature p tr
  = (Ok (Some (notConfirmed signature)), tr ++ [GetSignatureStatuses signature]).
Proof.
  intros H E. unfold pollAttempt, call. unfold_js. rewrite H. simpl. now rewrite E.
Qed.

Lemma extract_ok parsed signature owner tokens tr r tr' :
  extractBalanceChangesAndFee isPublicKey parsed signature owner tokens tr = (Ok r, tr') ->
  exists txDetails, parsed = Ok (Some txDetails).
Proof.
  unfold extractBalanceChangesAndFee, call. unfold_js.
  destruct parsed as [[tx|]|e]; simpl; try discriminate. eauto.
Qed.

(** [handleConfirmation] answers 1 only for a confirmed transaction whose
    data it was given and whose parsed record it fetched. *)
Lemma handleConfirmation_status_1
    parsed signature isConfirmed txData tokenIn tokenOut walletAddress side tr r tr' :
  handleConfirmation isPublicKey parsed signature isConfirmed txData
    tokenIn tokenOut walletAddress side tr = (Ok r, tr') ->
  Response.status r = 1 ->
  isConfirmed = true /\ is_Some txData /\ is_Some (Response.data r)
  /\ exists txDetails, parsed = Ok (Some txDetails).
Proof.
  unfold handleConfirmation.
  destruct isConfirmed, txData as [d|]; unfold ret; intros H S;
    try (inversion H; subst r; simpl in S; discriminate S).
  unfold bind in H.
  destruct (extractBalanceChangesAndFee _ _ _ _ _ _) as [[[changes fee]|e] tr1] eqn:X;
    [|discriminate H].
  apply extract_ok in X. destruct side as [[|]|]; inversion H; subst; simpl; eauto.
Qed.

(** Without transaction data the answer is 0 (pending), whatever the
    confirmation flag. *)
Lemma handleConfirmation_no_data
    parsed signature isConfirmed tokenIn tokenOut walletAddress side tr :
  handleConfirmation isPublicKey parsed signature isConfirmed None
    tokenIn tokenOut walletAddress side tr
  = (Ok {| Response.signature := signature;
           Response.status := 0;
           Response.data := None |}, tr).
Proof. unfold handleConfirmation. now destruct isConfirmed. Qed.

(** With data but no confirmation the answer is -1, with the fee of the
    data and zero amounts. *)
Lemma handleConfirmation_not_confirmed
    parsed signature d tokenIn tokenOut walletAddress side tr :
  handleConfirmation isPublicKey parsed signature false (Some d)
    tokenIn tokenOut walletAddress side tr
  = (Ok {| Response.signature := signature;
           Response.status := -1;
           Response.data := Some
             {| SwapData.tokenIn := tokenIn;
                SwapData.tokenOut := tokenOut;
                SwapData.amountIn := 0%float;
                SwapData.amountOut := 0%float;
                SwapData.fee := getFee (Some d);
                SwapData.baseTokenBalanceChange := 0%float;
                SwapData.quoteTokenBalanceChange := 0%float |} |}, tr).
Proof. reflexivity. Qed.

Lemma sendAndConfirmTransaction_ok this net serializedTx tr result tr' :
  sendAndConfirmTransaction this net serializedTx tr = (Ok result, tr') ->
  exists r d,
    _sendAndConfirmRawTransaction this net serializedTx tr = (Ok r, tr')
    /\ Confirmation.confirmed r = true
    /\ Confirmation.txData r = Some d
    /\ result = (Confirmation.signature r, getFee (Some d)).
Proof.
  unfold sendAndConfirmTransaction. unfold bind.
  destruct (_sendAndConfirmRawTransaction this net serializedTx tr) as [[r|e] tr1];
    [|discriminate].
  destruct (Confirmation.confirmed r) eqn:C, (Confirmation.txData r) as [d|] eqn:D;
    unfold ret, throw; intros H; inversion H; subst.
  exists r, d. repeat split; assumption.
Qed.

End ConfirmationFacts.

Lemma handleTransactionConfirmation_status_1
    txReceipt inputToken outputToken expectedAmountIn expectedAmountOut side :
  Response.status
    (Ethereum.handleTransactionConfirmation txReceipt inputToken outputToken
       expectedAmountIn expectedAmountOut side) = 1 ->
  exists r, txReceipt = Some r /\ Ethereum.Receipt.status r = Some 1.
Proof.
  unfold Ethereum.handleTransactionConfirmation.
  destruct txReceipt as [r|]; [|discriminate].
  destruct (Ethereum.Receipt.status r) as [[|[| |]|]|] eqn:S; simpl; try discriminate.
  intros _. now exists r.
Qed.

Section ConfirmationClaims.
Import Solana.

(** C5.  In a poll iteration the error of the signature status is tested
    first: a status that carries an execution error ends the loop with the
    non-confirmed record, whatever its confirmation status says and
    without any further request.  Status 1 (confirmed) reaches the caller
    only with the transaction in hand: [handleConfirmation] answers 1 only
    when it was given the transaction data and fetched the parsed record,
    [sendAndConfirmTransaction] returns only for a confirmed result that
    carries data, and the EVM [handleTransactionConfirmation] answers 1
    only for a receipt whose status is 1. *)
Theorem error_first_confirmed_with_data :
  (forall this serializedTx lastValidBlockHeight signature p tr st e,
      getSignatureStatuses p = Ok (Some st) ->
      SignatureStatus.err st = Some e ->
      pollAttempt this serializedTx lastValidBlockHeight signature p tr
      = (Ok (Some (notConfirmed signature)), tr ++ [GetSignatureStatuses signature]))
  /\
  (forall isPublicKey parsed signature isConfirmed txData tokenIn tokenOut
          walletAddress side tr r tr',
      handleConfirmation isPublicKey parsed signature isConfirmed txData
        tokenIn tokenOut walletAddress side tr = (Ok r, tr') ->
      Response.status r = 1 ->
      isConfirmed = true /\ is_Some txData /\ is_Some (Response.data r)
      /\ exists txDetails, parsed = Ok (Some txDetails))
  /\
  (forall this net serializedTx tr result tr',
      sendAndConfirmTransaction this net serializedTx tr = (Ok result, tr') ->
      exists r d,
        _sendAndConfirmRawTransaction this net serializedTx tr = (Ok r, tr')
        /\ Confirmation.confirmed r = true
        /\ Confirmation.txData r = Some d
        /\ result = (Confirmation.signature r, getFee (Some d)))
  /\
  (forall txReceipt inputToken outputToken expectedAmountIn expectedAmountOut side,
      Response.status
        (Ethereum.handleTransactionConfirmation txReceipt inputToken outputToken
           expectedAmountIn expectedAmountOut side) = 1 ->
      exists r, txReceipt = Some r /\ Ethereum.Receipt.status r = Some 1).
Proof.
  repeat split.
  - intros. now apply pollAttempt_error_first with (st := st) (e := e).
  - eapply handleConfirmation_status_1; eassumption.
  - eapply handleConfirmation_status_1; eassumption.
  - eapply handleConfirmation_status_1; eassumption.
  - eapply handleConfirmation_status_1; eassumption.
  - intros. now apply sendAndConfirmTransaction_ok.
  - intros. now apply handleTransactionConfirmation_status_1 in H.
Qed.

Lemma error_first_confirmed_with_data_witness :
  pollAttempt Scenario.engine Scenario.payload 100 "5ig"
    (Scenario.found Scenario.revertedStatus 99) []
  = (Ok (Some (notConfirmed "5ig")), [] ++ [GetSignatureStatuses "5ig"])
  /\
  (exists r tr',
      handleConfirmation (fun _ => true)
        (Ok (Some (Scenario.tokenTransfer Scenario.usdcMint 6 1000000 3000000)))
        "5ig" true (Some (Scenario.txData 5000%float None))
        SOL_NATIVE_MINT Scenario.usdcMint Scenario.wallet (Some BUY) [] = (Ok r, tr')
      /\ Response.status r = 1
      /\ is_Some (Response.data r)).
Proof.
  split.
  - apply (proj1 error_first_confirmed_with_data Scenario.engine Scenario.payload 100 "5ig"
             (Scenario.found Scenario.revertedStatus 99) [] Scenario.revertedStatus
             "InstructionError"); reflexivity.
  - do 2 eexists. split; [vm_compute; reflexivity|]. split; [reflexivity|].
    refine (proj1 (proj2 (proj2
              (proj1 (proj2 error_first_confirmed_with_data) (fun _ => true)
                 (Ok (Some (Scenario.tokenTransfer Scenario.usdcMint 6 1000000 3000000)))
                 "5ig" true (Some (Scenario.txData 5000%float None))
                 SOL_NATIVE_MINT Scenario.usdcMint Scenario.wallet (Some BUY) [] _ _ _ _))));
      [vm_compute; reflexivity | reflexivity].
Defined.

(** C4 on the failing inputs.  For a receipt whose status is 0 the EVM
    handler answers -1 with every amount zero, but its [fee] is the
    literal 0: it is not computed from the receipt, although the receipt
    carries the gas used and the effective gas price, the confirmed branch
    of the same function computes the fee from them, and the Solana
    handler computes the fee of its -1 branch from the transaction data.
    On Solana the -1 branch is taken for data without confirmation, not
    for an execution error: a transaction the poll loop saw fail comes
    back without data and is answered 0 (pending). *)
Theorem reverted_receipt_fee_dropped :
  (forall hash gasUsed effectiveGasPrice inputToken outputToken
          expectedAmountIn expectedAmountOut side,
      Ethereum.handleTransactionConfirmation
        (Some {| Ethereum.Receipt.transactionHash := hash;
                 Ethereum.Receipt.status := Some 0;
                 Ethereum.Receipt.gasUsed := gasUsed;
                 Ethereum.Receipt.effectiveGasPrice := effectiveGasPrice |})
        inputToken outputToken expectedAmountIn expectedAmountOut side
      = {| Response.signature := hash;
           Response.status := -1;
           Response.data := Some
             {| SwapData.tokenIn := inputToken;
                SwapData.tokenOut := outputToken;
                SwapData.amountIn := 0%float;
                SwapData.amountOut := 0%float;
                SwapData.fee := 0%float;
                SwapData.baseTokenBalanceChange := 0%float;
                SwapData.quoteTokenBalanceChange := 0%float |} |})
  /\ Ethereum.receiptFee Scenario.revertedReceipt = 0.00063%float
  /\ (forall isPublicKey parsed signature d tokenIn tokenOut walletAddress side tr,
         exists r,
           handleConfirmation isPublicKey parsed signature false (Some d)
             tokenIn tokenOut walletAddress side tr = (Ok r, tr)
           /\ Response.status r = -1
           /\ (SwapData.fee <$> Response.data r) = Some (getFee (Some d)))
  /\ (forall isPublicKey parsed tokenIn tokenOut walletAddress side,
         exists tr,
           _sendAndConfirmRawTransaction Scenario.engine Scenario.revertedOnChain
             Scenario.payload [] = (Ok (notConfirmed "5ig"), tr)
           /\ handleConfirmation isPublicKey parsed "5ig"
                (Confirmation.confirmed (notConfirmed "5ig"))
                (Confirmation.txData (notConfirmed "5ig"))
                tokenIn tokenOut walletAddress side tr
              = (Ok {| Response.signature := "5ig";
                       Response.status := 0;
                       Response.data := None |}, tr)).
Proof.
  split; [reflexivity|]. split; [vm_compute; reflexivity|]. split.
  - intros. eexists. split; [apply handleConfirmation_not_confirmed|]. split; reflexivity.
  - intros. eexists. split; [vm_compute; reflexivity|]. reflexivity.
Qed.

(** When the engine comes back without a confirmation,
    [sendAndConfirmTransaction] turns the record into an [Error]. *)
Lemma sendAndConfirmTransaction_throws this net serializedTx tr r tr' :
  _sendAndConfirmRawTransaction this net serializedTx tr = (Ok r, tr') ->
  Confirmation.confirmed r = false \/ Confirmation.txData r = None ->
  sendAndConfirmTransaction this net serializedTx tr
  = (Throw "Transaction failed to confirm", tr').
Proof.
  intros E H. unfold sendAndConfirmTransaction, bind. rewrite E.
  destruct H as [-> | ->]; [reflexivity|]. now destruct (Confirmation.confirmed r).
Qed.

End ConfirmationClaims.

(* ===================================================================== *)
(** ** Settlement: how the deltas are computed                           *)
(* ===================================================================== *)

Section SettlementClaims.
Import Solana.







End SettlementClaims.

(* ===================================================================== *)
(** ** Plain objects: what an assignment changes                         *)
(* ===================================================================== *)

Section PlainObjectFacts.
Context {V : Type}.
Implicit Types (obj : gmap string V) (key : string) (value : V).

Lemma lookup_assign_eq key value obj :
  key <> "__proto__" -> assign key value obj !! key = Some value.
Proof.
  intros N. unfold assign. destruct (String.eqb_spec key "__proto__"); [contradiction|].
  apply lookup_insert_eq.
Qed.

Lemma lookup_assign_ne key key' value obj :
  key <> key' -> assign key value obj !! key' = obj !! key'.
Proof.
  intros N. unfold assign. destruct (String.eqb key "__proto__"); [reflexivity|].
  now apply lookup_insert_ne.
Qed.

(** No assignment creates the property [__proto__]. *)
Lemma lookup_assign_proto key value obj :
  assign key value obj !! "__proto__" = obj !! "__proto__".
Proof.
  unfold assign. destruct (String.eqb_spec key "__proto__"); [reflexivity|].
  now apply lookup_insert_ne.
Qed.

Lemma lookup_assign_ignored key value obj :
  key = "__proto__" -> assign key value obj !! key = obj !! key.
Proof. intros ->. apply lookup_assign_proto. Qed.

Lemma lookup_assign_Some key value obj k v :
  assign key value obj !! k = Some v ->
  (k = key /\ key <> "__proto__" /\ v = value) \/ obj !! k = Some v.
Proof.
  unfold assign. destruct (String.eqb_spec key "__proto__") as [E|N]; [now right|].
  rewrite lookup_insert_Some. intros [[<- <-]|[_ H]]; auto.
Qed.

Lemma lookup_assign_is_Some key value obj k :
  is_Some (obj !! k) -> is_Some (assign key value obj !! k).
Proof.
  intros H. unfold assign. destruct (String.eqb key "__proto__"); [exact H|].
  rewrite lookup_insert_is_Some. destruct (decide (key = k)); auto.
Qed.

End PlainObjectFacts.

(* ===================================================================== *)
(** ** Balances: an empty token list is no token list                    *)
(* ===================================================================== *)

Section EthereumBalanceFacts.
Import Ethereum.
Variable getAddress : string -> Result string.

(** [getAllTokenBalances] on a token map keyed by symbol, key by key: a
    stored token with a positive balance overwrites what the key held,
    every other key is left as it was. *)
Lemma getAllTokenBalances_lookup (this : Tokens) (w : BalanceWorld)
    (init : gmap string number) :
  Spec.keyed_by_symbol (tokenMap this) ->
  forall k,
    getAllTokenBalances this w init !! k
    = match tokenMap this !! k with
      | Some token =>
          match getERC20Balance w (TokenInfo.address token) 2000 with
          | Ok balanceNum =>
              if (0 <? balanceNum)%float && negb (String.eqb k "__proto__")
              then Some balanceNum else init !! k
          | Throw _ => init !! k
          end
      | None => init !! k
      end.
Proof.
  unfold getAllTokenBalances, Spec.keyed_by_symbol.
  apply (map_fold_weak_ind
           (fun (b : gmap string number) (m : gmap string TokenInfo.t) =>
              (forall key token, m !! key = Some token -> TokenInfo.symbol token = key) ->
              forall k,
                b !! k
                = match m !! k with
                  | Some token =>
                      match getERC20Balance w (TokenInfo.address token) 2000 with
                      | Ok balanceNum =>
                          if (0 <? balanceNum)%float && negb (String.eqb k "__proto__")
                          then Some balanceNum else init !! k
                      | Throw _ => init !! k
                      end
                  | None => init !! k
                  end)).
  - intros _ k. now rewrite lookup_empty.
  - intros key token m b Hfresh IH Hkeyed k.
    assert (Hsym : TokenInfo.symbol token = key)
      by (apply Hkeyed; apply lookup_insert_eq).
    assert (Hm : forall key' token', m !! key' = Some token' -> TokenInfo.symbol token' = key').
    { intros key' token' H'. apply Hkeyed. rewrite lookup_insert_ne; [exact H'|].
      intros ->. congruence. }
    specialize (IH Hm). rewrite Hsym.
    destruct (decide (key = k)) as [->|D].
    + rewrite lookup_insert_eq. specialize (IH k). rewrite Hfresh in IH.
      destruct (getERC20Balance w (TokenInfo.address token) 2000) as [balanceNum|e];
        [|exact IH].
      destruct (0 <? balanceNum)%float; [|exact IH]. simpl.
      destruct (String.eqb_spec k "__proto__") as [->|N]; simpl.
      * now rewrite lookup_assign_proto.
      * now apply lookup_assign_eq.
    + rewrite (lookup_insert_ne m) by assumption. rewrite <- IH.
      destruct (getERC20Balance w (TokenInfo.address token) 2000) as [balanceNum|e];
        [|reflexivity].
      destruct (0 <? balanceNum)%float; [|reflexivity].
      now apply lookup_assign_ne.
Qed.

(** The run of [getBalances] when no token is named: it returns when the
    wallet can be opened and the native balance read, and then whatever
    the token calls answer. *)
Lemma evm_getBalances_default {S} (this : Tokens) (w : BalanceWorld) (s : S) :
  getBalances getAddress this w None s
  = match isHardwareWallet w with
    | Ok isHardware =>
        match (if isHardware then Ok tt else getWallet w) with
        | Ok _ =>
            match getNativeBalance w with
            | Ok nativeBalance =>
                (Ok (getAllTokenBalances this w
                       (assign (nativeTokenSymbol this) nativeBalance ∅)), s)
            | Throw e => (Throw e, s)
            end
        | Throw e => (Throw e, s)
        end
    | Throw e => (Throw e, s)
    end.
Proof.
  unfold getBalances. unfold_js.
  destruct (isHardwareWallet w) as [[|]|e]; reflexivity.
Qed.

End EthereumBalanceFacts.

Section SolanaBalanceFacts.
Import Solana.
Variable isPublicKey : string -> bool.
Variable tokenList : list TokenInfo.t.

(** [filterZeroBalances] keeps ["SOL"] as it is and, of the other keys,
    those with a positive balance. *)
Lemma filterZeroBalances_lookup (balances : gmap string number) k :
  filterZeroBalances balances !! k
  = if String.eqb k "SOL" then balances !! "SOL"
    else if String.eqb k "__proto__" then None
    else match balances !! k with
         | Some v => if (0 <? v)%float then Some v else None
         | None => None
         end.
Proof.
  unfold filterZeroBalances.
  set (filtered := match balances !! "SOL" with
                   | Some sol => {[ "SOL" := sol ]}
                   | None => ∅
                   end : gmap string number).
  revert k.
  apply (map_fold_weak_ind
           (fun (r : gmap string number) (m : gmap string number) =>
              forall k, r !! k
                        = if String.eqb k "SOL" then balances !! "SOL"
                          else if String.eqb k "__proto__" then None
                          else match m !! k with
                               | Some v => if (0 <? v)%float then Some v else None
                               | None => None
                               end)).
  - intros k. rewrite lookup_empty. subst filtered.
    destruct (String.eqb_spec k "SOL") as [->|N].
    + destruct (balances !! "SOL"); [apply lookup_singleton_eq | apply lookup_empty].
    + destruct (balances !! "SOL");
        [rewrite lookup_singleton_ne by congruence | rewrite lookup_empty];
        now destruct (String.eqb k "__proto__").
  - intros key value m r Hfresh IH k. specialize (IH k).
    destruct (String.eqb_spec k "SOL") as [E|N].
    + subst k. destruct (String.eqb_spec key "SOL") as [E'|N']; simpl; [exact IH|].
      destruct (0 <? value)%float; [|exact IH].
      now rewrite lookup_assign_ne.
    + destruct (String.eqb_spec k "__proto__") as [E|P].
      * subst k. destruct (negb (String.eqb key "SOL") && (0 <? value)%float); [|exact IH].
        now rewrite lookup_assign_proto.
      * destruct (decide (key = k)) as [->|D].
        -- rewrite lookup_insert_eq.
           destruct (String.eqb_spec k "SOL"); [contradiction|]. simpl.
           destruct (0 <? value)%float; [now apply lookup_assign_eq|].
           now rewrite IH, Hfresh.
        -- rewrite (lookup_insert_ne m) by assumption.
           destruct (negb (String.eqb key "SOL") && (0 <? value)%float); [|exact IH].
           now rewrite lookup_assign_ne.
Qed.

(** [processTokenListOnly], key by key: the key of a symbol other than
    SOL holds the balance of the last listed token of that symbol the
    wallet holds a positive balance of; every other key is left as it
    was. *)
Lemma processTokenListOnly_lookup (tokenAccounts : gmap string TokenAccount)
    (balances : gmap string number) k :
  processTokenListOnly tokenList tokenAccounts balances !! k
  = if String.eqb k "SOL" || String.eqb k "__proto__" then balances !! k
    else match List.find (fun t => String.eqb (TokenInfo.symbol t) k
                                   && Spec.held tokenAccounts t) (rev tokenList) with
         | Some t => Some (getTokenBalance (tokenAccounts !! TokenInfo.address t)
                                           (TokenInfo.decimals t))
         | None => balances !! k
         end.
Proof.
  unfold processTokenListOnly.
  induction tokenList as [|t l IH] using rev_ind.
  { simpl. now destruct (_ || _). }
  rewrite foldl_app, rev_app_distr. cbn [foldl rev app List.find].
  set (b := foldl _ balances l) in *.
  assert (Hstep : forall (written : gmap string number),
             TokenInfo.symbol t <> "SOL" ->
             written = assign (TokenInfo.symbol t)
                         (getTokenBalance (tokenAccounts !! TokenInfo.address t)
                                          (TokenInfo.decimals t)) b ->
             written !! k
             = if String.eqb k "SOL" || String.eqb k "__proto__" then balances !! k
               else if String.eqb (TokenInfo.symbol t) k
                    then Some (getTokenBalance (tokenAccounts !! TokenInfo.address t)
                                               (TokenInfo.decimals t))
                    else match List.find (fun t => String.eqb (TokenInfo.symbol t) k
                                                   && Spec.held tokenAccounts t) (rev l) with
                         | Some t => Some (getTokenBalance (tokenAccounts !! TokenInfo.address t)
                                                           (TokenInfo.decimals t))
                         | None => balances !! k
                         end).
  { intros written S ->.
    destruct (String.eqb_spec (TokenInfo.symbol t) k) as [E|D].
    - subst k. destruct (String.eqb_spec (TokenInfo.symbol t) "SOL"); [contradiction|].
      simpl. destruct (String.eqb_spec (TokenInfo.symbol t) "__proto__") as [E|N].
      + rewrite lookup_assign_ignored by assumption. rewrite IH.
        destruct (String.eqb_spec (TokenInfo.symbol t) "SOL"); [contradiction|].
        simpl. now rewrite E.
      + now apply lookup_assign_eq.
    - rewrite lookup_assign_ne by assumption. exact IH. }
  unfold Spec.held at 1.
  destruct (String.eqb_spec (TokenInfo.symbol t) "SOL") as [S|S].
  - rewrite IH. destruct (String.eqb_spec k "SOL") as [->|N]; [reflexivity|].
    destruct (String.eqb_spec (TokenInfo.symbol t) k); [congruence|reflexivity].
  - destruct (tokenAccounts !! TokenInfo.address t) as [tokenAccount|] eqn:A.
    + destruct (0 <? getTokenBalance (Some tokenAccount) (TokenInfo.decimals t))%float eqn:P.
      * rewrite andb_true_r, (Hstep _ S eq_refl).
        destruct (_ || _); [reflexivity|].
        destruct (String.eqb (TokenInfo.symbol t) k); [now rewrite A | reflexivity].
      * rewrite andb_false_r. exact IH.
    + rewrite andb_false_r. exact IH.
Qed.

(** [processAllTokens], for a key that at most one mint of the wallet is
    reported under: the key holds what that account wrote (a listed token
    writes whatever its balance, an unlisted mint a positive balance
    only), and is left as it was otherwise.  [mint0] is that mint, or any
    mint the wallet does not hold when there is none. *)
Lemma processAllTokens_lookup (w : BalanceWorld) (tokenAccounts : gmap string TokenAccount)
    (balances : gmap string number) k mint0 :
  (forall mint account,
      tokenAccounts !! mint = Some account ->
      Spec.account_key tokenList mint = k -> mint = mint0) ->
  processAllTokens tokenList w tokenAccounts balances !! k
  = match tokenAccounts !! mint0 with
    | Some account =>
        if String.eqb (Spec.account_key tokenList mint0) k
           && negb (String.eqb k "__proto__")
        then match Spec.listed_mint tokenList mint0 with
             | Some tokenInfo =>
                 Some (getTokenBalance (Some account) (TokenInfo.decimals tokenInfo))
             | None =>
                 let balance := getTokenBalanceWithMintInfo w account mint0 in
                 if (0 <? balance)%float then Some balance else balances !! k
             end
        else balances !! k
    | None => balances !! k
    end.
Proof.
  unfold processAllTokens.
  apply (map_fold_weak_ind
           (fun (b : gmap string number) (m : gmap string TokenAccount) =>
              (forall mint account,
                  m !! mint = Some account ->
                  Spec.account_key tokenList mint = k -> mint = mint0) ->
              b !! k
              = match m !! mint0 with
                | Some account =>
                    if String.eqb (Spec.account_key tokenList mint0) k
                       && negb (String.eqb k "__proto__")
                    then match Spec.listed_mint tokenList mint0 with
                         | Some tokenInfo =>
                             Some (getTokenBalance (Some account)
                                                   (TokenInfo.decimals tokenInfo))
                         | None =>
                             let balance := getTokenBalanceWithMintInfo w account mint0 in
                             if (0 <? balance)%float then Some balance else balances !! k
                         end
                    else balances !! k
                | None => balances !! k
                end)).
  - intros _. now rewrite lookup_empty.
  - intros mint account m b Hfresh IH Honly.
    assert (Hm : forall mint' account',
               m !! mint' = Some account' ->
               Spec.account_key tokenList mint' = k -> mint' = mint0).
    { intros mint' account' H'. apply (Honly mint' account').
      rewrite lookup_insert_ne; [exact H'|]. intros ->. congruence. }
    specialize (IH Hm).
    fold (Spec.listed_mint tokenList mint).
    destruct (decide (mint = mint0)) as [->|D].
    + rewrite lookup_insert_eq. rewrite Hfresh in IH.
      unfold Spec.account_key.
      destruct (Spec.listed_mint tokenList mint0) as [tokenInfo|].
      * destruct (String.eqb_spec (TokenInfo.symbol tokenInfo) k) as [<-|N]; simpl.
        -- destruct (String.eqb_spec (TokenInfo.symbol tokenInfo) "__proto__") as [E|N];
             simpl.
           ++ rewrite lookup_assign_ignored by assumption. exact IH.
           ++ now apply lookup_assign_eq.
        -- now rewrite lookup_assign_ne.
      * cbv zeta.
        destruct (0 <? getTokenBalanceWithMintInfo w account mint0)%float.
        -- destruct (String.eqb_spec mint0 k) as [<-|N]; simpl.
           ++ destruct (String.eqb_spec mint0 "__proto__") as [E|N]; simpl.
              ** rewrite lookup_assign_ignored by assumption. exact IH.
              ** now apply lookup_assign_eq.
           ++ now rewrite lookup_assign_ne.
        -- now destruct (_ && _).
    + rewrite (lookup_insert_ne m) by assumption. rewrite <- IH.
      assert (N : Spec.account_key tokenList mint <> k).
      { intros E. apply D. apply (Honly mint account); [apply lookup_insert_eq|exact E]. }
      unfold Spec.account_key in N.
      destruct (Spec.listed_mint tokenList mint) as [tokenInfo|].
      * now apply lookup_assign_ne.
      * destruct (0 <? _)%float; [|reflexivity]. now apply lookup_assign_ne.
Qed.

(** The run of [getBalances] when no token is named. *)
Lemma solana_getBalances_default {S} (w : BalanceWorld) address fetchAll (s : S) :
  getBalances isPublicKey tokenList w address None fetchAll s
  = if isPublicKey address
    then (Ok (if Nat.eqb (size (fetchTokenAccounts w)) 0
              then {[ "SOL" := getSolBalance w ]}
              else filterZeroBalances
                     (if fetchAll
                      then processAllTokens tokenList w (fetchTokenAccounts w)
                             {[ "SOL" := getSolBalance w ]}
                      else processTokenListOnly tokenList (fetchTokenAccounts w)
                             {[ "SOL" := getSolBalance w ]})), s)
    else (Throw "Invalid public key input", s).
Proof.
  unfold getBalances. unfold_js.
  destruct (isPublicKey address); simpl; [|reflexivity].
  now destruct (size (fetchTokenAccounts w) =? 0)%nat.
Qed.

End SolanaBalanceFacts.

Section BalanceClaims.

(** An account that is in the wallet makes the wallet non-empty. *)
Lemma held_account_nonempty (tokenAccounts : gmap string Solana.TokenAccount) mint account :
  tokenAccounts !! mint = Some account -> Nat.eqb (size tokenAccounts) 0 = false.
Proof.
  intros H. apply Nat.eqb_neq. intros Z. apply map_size_empty_iff in Z.
  rewrite Z, lookup_empty in H. discriminate.
Qed.

(** C10.  The claim fails on the code: with no token list (or an empty
    array) the native entry of the result is not always the native
    balance.  On an EVM chain [getAllTokenBalances] writes every stored
    token with a positive balance under its symbol and has no test for the
    native symbol, so a stored token that carries the native symbol
    replaces the native balance by its own.  On Solana, with
    [fetchAll = true], [processAllTokens] writes the balance of every
    listed mint of the wallet under the listed symbol, whatever the
    balance, so the wrapped-SOL account of a list that names wrapped SOL
    [SOL] replaces the SOL balance; the default mode, which skips listed
    tokens named [SOL], reports the SOL balance for the same wallet. *)
Theorem native_entry_overwritten_by_listed_token :
  (forall getAddress (S : Type) this w (s : S) namesake isHardware nativeBalance balance,
      Spec.keyed_by_symbol (Ethereum.tokenMap this) ->
      Ethereum.nativeTokenSymbol this <> "__proto__" ->
      Ethereum.tokenMap this !! Ethereum.nativeTokenSymbol this = Some namesake ->
      Ethereum.isHardwareWallet w = Ok isHardware ->
      (isHardware = false -> is_ok (Ethereum.getWallet w) = true) ->
      Ethereum.getNativeBalance w = Ok nativeBalance ->
      Ethereum.getERC20Balance w (TokenInfo.address namesake) 2000 = Ok balance ->
      (0 <? balance)%float = true ->
      exists b,
        Ethereum.getBalances getAddress this w (Some []) s = (Ok b, s)
        /\ b !! Ethereum.nativeTokenSymbol this = Some balance)
  /\
  (forall isPublicKey tokenList (S : Type) w address (s : S) mint account wrapped,
      isPublicKey address = true ->
      Solana.fetchTokenAccounts w !! mint = Some account ->
      Spec.listed_mint tokenList mint = Some wrapped ->
      TokenInfo.symbol wrapped = "SOL" ->
      (forall mint' account',
          Solana.fetchTokenAccounts w !! mint' = Some account' ->
          Spec.account_key tokenList mint' = "SOL" -> mint' = mint) ->
      exists b b',
        Solana.getBalances isPublicKey tokenList w address (Some []) true s = (Ok b, s)
        /\ b !! "SOL"
           = Some (Solana.getTokenBalance (Some account) (TokenInfo.decimals wrapped))
        /\ Solana.getBalances isPublicKey tokenList w address (Some []) false s = (Ok b', s)
        /\ b' !! "SOL" = Some (Solana.getSolBalance w)).
Proof.
  split.
  - intros getAddress S this w s namesake isHardware nativeBalance balance
           Hkeyed Hproto Hstored Hhw Hwallet Hnative Hbalance Hpos.
    change (Ethereum.getBalances getAddress this w (Some []) s)
      with (Ethereum.getBalances getAddress this w None s).
    rewrite evm_getBalances_default, Hhw, Hnative.
    assert (W : (if isHardware then Ok tt else Ethereum.getWallet w) = Ok tt).
    { destruct isHardware; [reflexivity|].
      specialize (Hwallet eq_refl). now destruct (Ethereum.getWallet w) as [[]|]. }
    rewrite W. eexists. split; [reflexivity|].
    rewrite getAllTokenBalances_lookup by assumption.
    rewrite Hstored, Hbalance, Hpos.
    destruct (String.eqb_spec (Ethereum.nativeTokenSymbol this) "__proto__");
      [contradiction|reflexivity].
  - intros isPublicKey tokenList S w address s mint account wrapped
           Hkey Haccount Hlisted Hsymbol Honly.
    change (Solana.getBalances isPublicKey tokenList w address (Some []) true s)
      with (Solana.getBalances isPublicKey tokenList w address None true s).
    change (Solana.getBalances isPublicKey tokenList w address (Some []) false s)
      with (Solana.getBalances isPublicKey tokenList w address None false s).
    rewrite !solana_getBalances_default, Hkey, (held_account_nonempty _ _ _ Haccount).
    do 2 eexists. split; [reflexivity|]. split; [|split; [reflexivity|]].
    + rewrite filterZeroBalances_lookup. cbn [String.eqb Ascii.eqb Bool.eqb].
      rewrite (processAllTokens_lookup tokenList w _ _ "SOL" mint Honly).
      rewrite Haccount. unfold Spec.account_key. rewrite Hlisted, Hsymbol. reflexivity.
    + rewrite filterZeroBalances_lookup. cbn [String.eqb Ascii.eqb Bool.eqb].
      rewrite processTokenListOnly_lookup. cbn [String.eqb Ascii.eqb Bool.eqb orb].
      apply lookup_singleton_eq.
Qed.

Lemma native_entry_overwritten_by_listed_token_witness :
  (exists b,
      Ethereum.getBalances (fun a => Ok a) Scenario.mainnetWithNamesake
        Scenario.namesakeWallet (Some []) tt = (Ok b, tt)
      /\ b !! "ETH" = Some 1.5%float)
  /\ Ethereum.getNativeBalance Scenario.namesakeWallet = Ok 0.25%float
  /\ (exists b b',
         Solana.getBalances (fun _ => true) [Scenario.wsol; Scenario.usdc]
           Scenario.wrappedSolWallet Scenario.wallet (Some []) true tt = (Ok b, tt)
         /\ b !! "SOL" = Some (Solana.getTokenBalance (Some {| Solana.amount := 500000000 |}) 9)
         /\ Solana.getBalances (fun _ => true) [Scenario.wsol; Scenario.usdc]
              Scenario.wrappedSolWallet Scenario.wallet (Some []) false tt = (Ok b', tt)
         /\ b' !! "SOL" = Some (Solana.getSolBalance Scenario.wrappedSolWallet))
  /\ Solana.getTokenBalance (Some {| Solana.amount := 500000000 |}) 9 = 0.5%float
  /\ Solana.getSolBalance Scenario.wrappedSolWallet = 2%float.
Proof.
  split; [|split; [reflexivity|split; [|split; vm_compute; reflexivity]]].
  - apply (proj1 native_entry_overwritten_by_listed_token (fun a => Ok a) unit
             Scenario.mainnetWithNamesake Scenario.namesakeWallet tt
             Scenario.ethNamesake false 0.25%float 1.5%float);
      try reflexivity; try discriminate.
    intros key token. unfold Scenario.mainnetWithNamesake. cbn [Ethereum.tokenMap].
    rewrite !lookup_insert_Some, lookup_empty.
    intros [[<- <-]|[_ [[<- <-]|[_ H]]]]; [reflexivity|reflexivity|discriminate H].
  - apply (proj2 native_entry_overwritten_by_listed_token (fun _ => true)
             [Scenario.wsol; Scenario.usdc] unit Scenario.wrappedSolWallet Scenario.wallet tt
             Solana.SOL_NATIVE_MINT {| Solana.amount := 500000000 |} Scenario.wsol);
      try reflexivity.
    intros mint' account'. unfold Scenario.wrappedSolWallet. cbn [Solana.fetchTokenAccounts].
    rewrite !lookup_insert_Some, lookup_empty.
    intros [[<- _]|[_ [[<- _]|[_ H]]]] K;
      [vm_compute in K; discriminate K | reflexivity | discriminate H].
Defined.

End BalanceClaims.

(* ===================================================================== *)
(** ** Balances when no token is named                                   *)
(* ===================================================================== *)

Section DefaultBalances.

(** Writing every token under its own symbol keeps a map keyed by
    symbol. *)
Lemma keyed_by_symbol_fold (l : list TokenInfo.t) :
  forall m : gmap string TokenInfo.t,
    Spec.keyed_by_symbol m ->
    Spec.keyed_by_symbol
      (foldl (fun tokenMap token => <[TokenInfo.symbol token := token]> tokenMap) m l).
Proof.
  induction l as [|t l IH]; intros m H; cbn [foldl]; [exact H|].
  apply IH. intros key token. rewrite lookup_insert_Some.
  intros [[<- <-]|[_ E]]; [reflexivity | now apply H].
Qed.

(** X23.  An EVM [getBalances] request without token names: an empty
    array is no array.  A token map keyed by symbol stays keyed by symbol
    through [loadTokens], and on such a map the request throws only when
    the wallet cannot be opened or the native balance cannot be read
    (with that error); otherwise the result is known key by key: a
    stored token whose balance call answers a positive number is
    reported under its symbol with that number, the native symbol holds
    the native balance (whatever it is) unless such a token carries the
    same symbol, and there is no other key; in particular no zero
    balance of a token and no key [__proto__]. *)
Theorem evm_default_balances getAddress (S : Type) this w (s : S) :
  Ethereum.getBalances getAddress this w (Some []) s
  = Ethereum.getBalances getAddress this w None s
  /\ (forall loaded r this',
         Spec.keyed_by_symbol (Ethereum.tokenMap this) ->
         Ethereum.loadTokens getAddress loaded this = (r, this') ->
         Spec.keyed_by_symbol (Ethereum.tokenMap this'))
  /\ (Spec.keyed_by_symbol (Ethereum.tokenMap this) ->
      match Ethereum.getBalances getAddress this w None s with
      | (Ok b, s') =>
          s' = s
          /\ exists nativeBalance,
               Ethereum.getNativeBalance w = Ok nativeBalance
               /\ forall k,
                    b !! k
                    = if String.eqb k "__proto__" then None
                      else match Spec.stored_balance this w k with
                           | Some balanceNum => Some balanceNum
                           | None =>
                               if String.eqb k (Ethereum.nativeTokenSymbol this)
                               then Some nativeBalance else None
                           end
      | (Throw e, s') =>
          s' = s
          /\ (Ethereum.isHardwareWallet w = Throw e
              \/ (Ethereum.isHardwareWallet w = Ok false /\ Ethereum.getWallet w = Throw e)
              \/ Ethereum.getNativeBalance w = Throw e)
      end).
Proof.
  split; [reflexivity|]. split.
  - intros loaded r this' H. unfold Ethereum.loadTokens. unfold_js.
    destruct loaded as [raw|e]; [|intros E; inversion E; now subst].
    destruct (Ethereum.normalizeTokens getAddress (Ethereum.chainId this) raw)
      as [normalized|e]; intros E; inversion E; subst; [|exact H].
    cbn [Ethereum.tokenMap]. now apply keyed_by_symbol_fold.
  - intros H. rewrite evm_getBalances_default.
    destruct (Ethereum.isHardwareWallet w) as [isHardware|e]; [|split; auto].
    destruct (if isHardware then Ok tt else Ethereum.getWallet w) as [[]|e] eqn:W.
    2: { destruct isHardware; [discriminate W|]. split; auto. }
    destruct (Ethereum.getNativeBalance w) as [nativeBalance|e]; [|split; auto].
    split; [reflexivity|]. exists nativeBalance. split; [reflexivity|].
    intros k. rewrite getAllTokenBalances_lookup by assumption.
    unfold Spec.stored_balance.
    assert (I : assign (Ethereum.nativeTokenSymbol this) nativeBalance
                  (∅ : gmap string number) !! k
                = if String.eqb k "__proto__" then None
                  else if String.eqb k (Ethereum.nativeTokenSymbol this)
                       then Some nativeBalance else None).
    { destruct (String.eqb_spec k "__proto__") as [->|P].
      - now rewrite lookup_assign_proto, lookup_empty.
      - destruct (String.eqb_spec k (Ethereum.nativeTokenSymbol this)) as [->|D].
        + now apply lookup_assign_eq.
        + rewrite lookup_assign_ne by congruence. apply lookup_empty. }
    rewrite I.
    destruct (Ethereum.tokenMap this !! k) as [token|]; [|now destruct (String.eqb k "__proto__")].
    destruct (Ethereum.getERC20Balance w (TokenInfo.address token) 2000) as [v|e];
      [|now destruct (String.eqb k "__proto__")].
    destruct (0 <? v)%float; now destruct (String.eqb k "__proto__").
Qed.

Lemma evm_default_balances_witness :
  exists b,
    Ethereum.getBalances (fun a => Ok a) Scenario.mainnetTokens Scenario.evmWallet None tt
    = (Ok b, tt)
    /\ b !! "ETH" = Some 0%float
    /\ b !! "WETH" = Some 1.5%float
    /\ b !! "DAI" = None.
Proof.
  assert (K : Spec.keyed_by_symbol (Ethereum.tokenMap Scenario.mainnetTokens)).
  { intros key token. unfold Scenario.mainnetTokens. cbn [Ethereum.tokenMap].
    rewrite !lookup_insert_Some, lookup_empty.
    intros [[<- <-]|[_ [[<- <-]|[_ H]]]]; [reflexivity|reflexivity|discriminate H]. }
  pose proof (proj2 (proj2 (evm_default_balances (fun a => Ok a) unit
                              Scenario.mainnetTokens Scenario.evmWallet tt)) K) as H.
  destruct (Ethereum.getBalances (fun a => Ok a) Scenario.mainnetTokens
              Scenario.evmWallet None tt) as [[b|e] s'] eqn:E.
  - destruct H as (-> & nativeBalance & N & L). exists b. split; [reflexivity|].
    injection N as <-. rewrite !L. repeat split.
  - exfalso. destruct H as (_ & [H|[[_ H]|H]]); discriminate H.
Defined.

(** Nothing is found where the test fails everywhere. *)
Lemma find_all_false {A} (p : A -> bool) (l : list A) :
  (forall x, p x = false) -> List.find p l = None.
Proof.
  intros H. induction l as [|x l IH]; [reflexivity|]. cbn [List.find]. now rewrite H.
Qed.

(** A token found by [Spec.held] has the positive balance of its
    account. *)
Lemma held_positive (tokenAccounts : gmap string Solana.TokenAccount) (t : TokenInfo.t) :
  Spec.held tokenAccounts t = true ->
  (0 <? Solana.getTokenBalance (tokenAccounts !! TokenInfo.address t)
          (TokenInfo.decimals t))%float = true.
Proof.
  unfold Spec.held. now destruct (tokenAccounts !! TokenInfo.address t).
Qed.

(** X24.  A Solana [getBalances] request without token names, for an
    address that is a public key: an empty array is no array, the request
    always returns, and the result never has the key [__proto__].  In the
    default mode the key SOL holds the SOL balance, and any other key
    holds the balance of the last listed token of that symbol of which
    the wallet holds a positive balance, or nothing when there is none:
    listed tokens are reported by symbol, zero balances are left out.
    With [fetchAll] the wallet's token accounts are reported instead,
    each under the symbol of the listed token of its mint or, for an
    unlisted mint, under the mint address: when no account is reported
    under SOL that key holds the SOL balance; a key other than SOL under
    which exactly one account is reported holds that account's balance
    when it is positive and is absent otherwise; a key under which no
    account is reported is absent. *)
Theorem solana_default_balances isPublicKey tokenList (S : Type) w address fetchAll
    (s : S) :
  isPublicKey address = true ->
  exists b,
    Solana.getBalances isPublicKey tokenList w address (Some []) fetchAll s = (Ok b, s)
    /\ Solana.getBalances isPublicKey tokenList w address None fetchAll s = (Ok b, s)
    /\ b !! "__proto__" = None
    /\ (fetchAll = false ->
        b !! "SOL" = Some (Solana.getSolBalance w)
        /\ forall k,
             k <> "SOL" -> k <> "__proto__" ->
             b !! k
             = match List.find (fun t => String.eqb (TokenInfo.symbol t) k
                                         && Spec.held (Solana.fetchTokenAccounts w) t)
                               (rev tokenList) with
               | Some t =>
                   Some (Solana.getTokenBalance
                           (Solana.fetchTokenAccounts w !! TokenInfo.address t)
                           (TokenInfo.decimals t))
               | None => None
               end)
    /\ (fetchAll = true ->
        ((forall mint account,
             Solana.fetchTokenAccounts w !! mint = Some account ->
             Spec.account_key tokenList mint <> "SOL") ->
         b !! "SOL" = Some (Solana.getSolBalance w))
        /\ (forall mint account,
               Solana.fetchTokenAccounts w !! mint = Some account ->
               Spec.account_key tokenList mint <> "SOL" ->
               Spec.account_key tokenList mint <> "__proto__" ->
               (forall mint' account',
                   Solana.fetchTokenAccounts w !! mint' = Some account' ->
                   Spec.account_key tokenList mint' = Spec.account_key tokenList mint ->
                   mint' = mint) ->
               b !! Spec.account_key tokenList mint
               = if (0 <? Spec.account_balance tokenList w mint account)%float
                 then Some (Spec.account_balance tokenList w mint account) else None)
        /\ (forall k,
               k <> "SOL" ->
               (forall mint account,
                   Solana.fetchTokenAccounts w !! mint = Some account ->
                   Spec.account_key tokenList mint <> k) ->
               b !! k = None)).
Proof.
  intros K.
  change (Solana.getBalances isPublicKey tokenList w address (Some []) fetchAll s)
    with (Solana.getBalances isPublicKey tokenList w address None fetchAll s).
  rewrite solana_getBalances_default, K.
  eexists. split; [reflexivity|]. split; [reflexivity|].
  set (sol := {[ "SOL" := Solana.getSolBalance w ]} : gmap string number).
  assert (Hsol : sol !! "SOL" = Some (Solana.getSolBalance w))
    by apply lookup_singleton_eq.
  assert (Hother : forall k, k <> "SOL" -> sol !! k = None)
    by (intros k N; apply lookup_singleton_ne; congruence).
  destruct (Nat.eqb (size (Solana.fetchTokenAccounts w)) 0) eqn:Z.
  - apply Nat.eqb_eq, map_size_empty_iff in Z.
    assert (E : forall mint, Solana.fetchTokenAccounts w !! mint = None)
      by (intros mint; rewrite Z; apply lookup_empty).
    split; [now apply Hother|]. split; [|intros _; split; [|split]].
    + intros _. split; [exact Hsol|]. intros k N _. rewrite Hother by assumption.
      rewrite find_all_false; [reflexivity|].
      intros t. unfold Spec.held. rewrite E. apply andb_false_r.
    + intros _. exact Hsol.
    + intros mint account A. rewrite E in A. discriminate A.
    + intros k N _. now apply Hother.
  - split; [|split].
    + rewrite filterZeroBalances_lookup. reflexivity.
    + intros ->. split.
      * rewrite filterZeroBalances_lookup. cbn [String.eqb Ascii.eqb Bool.eqb].
        rewrite processTokenListOnly_lookup. cbn [String.eqb Ascii.eqb Bool.eqb orb].
        exact Hsol.
      * intros k N P. rewrite filterZeroBalances_lookup.
        destruct (String.eqb_spec k "SOL"); [contradiction|].
        destruct (String.eqb_spec k "__proto__"); [contradiction|].
        rewrite processTokenListOnly_lookup.
        destruct (String.eqb_spec k "SOL"); [contradiction|].
        destruct (String.eqb_spec k "__proto__"); [contradiction|]. cbn [orb].
        destruct (List.find _ (rev tokenList)) as [t|] eqn:F.
        -- apply find_some in F as [_ F]. apply andb_prop in F as [_ F].
           cbv beta iota. now rewrite (held_positive _ _ F).
        -- now rewrite Hother.
    + intros ->. split; [|split].
      * intros Hnone. rewrite filterZeroBalances_lookup. cbn [String.eqb Ascii.eqb Bool.eqb].
        rewrite (processAllTokens_lookup tokenList w _ _ "SOL" "").
        2: { intros mint account A E. now destruct (Hnone mint account A). }
        destruct (Solana.fetchTokenAccounts w !! "") as [account|] eqn:A; [|exact Hsol].
        destruct (String.eqb_spec (Spec.account_key tokenList "") "SOL") as [E|_];
          [now destruct (Hnone "" account A)|exact Hsol].
      * intros mint account A N P Honly.
        rewrite filterZeroBalances_lookup.
        destruct (String.eqb_spec (Spec.account_key tokenList mint) "SOL"); [contradiction|].
        destruct (String.eqb_spec (Spec.account_key tokenList mint) "__proto__");
          [contradiction|].
        rewrite (processAllTokens_lookup tokenList w _ _ _ mint Honly), A.
        rewrite String.eqb_refl.
        destruct (String.eqb_spec (Spec.account_key tokenList mint) "__proto__");
          [contradiction|]. cbn [andb negb].
        unfold Spec.account_balance.
        destruct (Spec.listed_mint tokenList mint) as [tokenInfo|]; [reflexivity|].
        cbv zeta. destruct (0 <? _)%float eqn:B; [now rewrite B|].
        now rewrite Hother.
      * intros k N Hnone. rewrite filterZeroBalances_lookup.
        destruct (String.eqb_spec k "SOL"); [contradiction|].
        destruct (String.eqb k "__proto__"); [reflexivity|].
        rewrite (processAllTokens_lookup tokenList w _ _ k "").
        2: { intros mint account A E. now destruct (Hnone mint account A). }
        destruct (Solana.fetchTokenAccounts w !! "") as [account|] eqn:A;
          [|now rewrite Hother].
        destruct (String.eqb_spec (Spec.account_key tokenList "") k) as [E|_];
          [now destruct (Hnone "" account A)|now rewrite Hother].
Qed.

End DefaultBalances.

Lemma solana_default_balances_witness :
  exists b,
    Solana.getBalances (fun _ => true) [Scenario.usdc; Scenario.bonk] Scenario.solanaWallet
      Scenario.wallet (Some []) false tt = (Ok b, tt)
    /\ b !! "SOL" = Some (Solana.getSolBalance Scenario.solanaWallet)
    /\ b !! "USDC" = Some (Solana.getTokenBalance (Some {| Solana.amount := 3000000 |}) 6)
    /\ b !! "BONK" = None.
Proof.
  destruct (solana_default_balances (fun _ => true) [Scenario.usdc; Scenario.bonk] unit
              Scenario.solanaWallet Scenario.wallet false tt eq_refl)
    as (b & E & _ & _ & D & _).
  destruct (D eq_refl) as (Hsol & Hk).
  exists b. split; [exact E|]. split; [exact Hsol|]. split.
  - rewrite (Hk "USDC") by discriminate. vm_compute. reflexivity.
  - rewrite (Hk "BONK") by discriminate. vm_compute. reflexivity.
Defined.

(* ===================================================================== *)
(** ** Solana: fee quotes                                                *)
(* ===================================================================== *)

Section SolanaGasOptions.
Import Solana SolanaPriorityFees.

(** The estimator always returns. *)
Lemma estimatePriorityFee_returns config w c :
  exists v c', estimatePriorityFee config w c = (Ok v, c').
Proof.
  destruct (cache_hit (now_check w) c) as [v|] eqn:H.
  - exists v, c. now apply priority_fee_cache_hit.
  - destruct (priority_fee_cache_miss config w c H) as [(e & _ & E)|E];
      rewrite E; eauto.
Qed.

(** X2.  [prepareGasOptions] of the Solana chain never rejects, whatever
    Helius answers.  Its compute units are the caller's, or
    [defaultComputeUnits] when the caller gave none, [0] or [NaN].  A
    priority fee the caller gives is passed on as it is (also [0], [NaN]
    or a value below the configured floor) and leaves the estimate cache
    untouched.  Without one, the fee is what the estimator returns, and
    [estimateGas] at the same moment quotes exactly the cost of these
    options: (BASE_FEE + units * fee) * LAMPORT_TO_SOL. *)
Theorem solana_gas_options_never_reject config fee units w c :
  exists o c',
    prepareGasOptions config fee units w c = (Ok o, c')
    /\ GasOptions.computeUnits o = or_default units (Config.defaultComputeUnits config)
    /\ (forall f, fee = Some f -> GasOptions.priorityFeePerCU o = f /\ c' = c)
    /\ (fee = None ->
        estimatePriorityFee (Config.network config) w c
        = (Ok (GasOptions.priorityFeePerCU o), c')
        /\ estimateGas config units w c
           = (Ok ((BASE_FEE + GasOptions.computeUnits o * GasOptions.priorityFeePerCU o)
                  * LAMPORT_TO_SOL)%float, c')).
Proof.
  unfold prepareGasOptions, estimateGas, estimateGasPrice.
  destruct fee as [f|].
  - do 2 eexists. split; [reflexivity|]. split; [reflexivity|].
    split; [intros f' E; inversion E; subst; now split | discriminate].
  - destruct (estimatePriorityFee_returns (Config.network config) w c) as (v & c' & E).
    exists {| GasOptions.priorityFeePerCU := v;
              GasOptions.computeUnits := or_default units (Config.defaultComputeUnits config) |}, c'.
    unfold bind, ret. rewrite E. cbn.
    split; [reflexivity|]. split; [reflexivity|]. split; [discriminate|].
    intros _. split; reflexivity.
Qed.

End SolanaGasOptions.

(* ===================================================================== *)
(** ** Solana: sending and confirming                                    *)
(* ===================================================================== *)

Section SolanaSending.
Import Solana.

(** X3.  [sendRawTransaction] asks for the block height first.  When the
    height is more than 50 blocks past [lastValidBlockHeight] it sends
    nothing and throws 'Maximum blockheight exceeded'; when the height
    request is rejected it sends nothing and passes the rejection on;
    otherwise it sends the given bytes once, with [skipPreflight] and no
    retries, and its outcome is the node's: the signature, or the node's
    error unchanged. *)
Theorem raw_send_respects_validity_window w rawTx lastValid tr :
  exists r evs,
    Raw.sendRawTransaction w rawTx lastValid tr = (r, tr ++ evs)
    /\ match Raw.getBlockHeight w with
       | Ok h =>
           if h >? lastValid + 50
           then r = Throw "Maximum blockheight exceeded" /\ Spec.payloads evs = []
           else r = Raw.send w /\ Spec.payloads evs = [rawTx]
                /\ In (SendRawTransaction rawTx true 0) evs
       | Throw e => r = Throw e /\ Spec.payloads evs = []
       end.
Proof.
  unfold Raw.sendRawTransaction, call. unfold_js.
  destruct (Raw.getBlockHeight w) as [h|e]; simpl.
  - destruct (h >? lastValid + 50); simpl.
    + do 2 eexists. split; [reflexivity|]. now split.
    + destruct (Raw.send w) as [sig|e]; simpl; rewrite <- app_assoc;
        do 2 eexists; (split; [reflexivity|]); simpl; repeat split; auto.
  - do 2 eexists. split; [reflexivity|]. now split.
Qed.

(** X4.  When the node refuses the transaction (and the sender service,
    if there is one, refuses it too), [_sendAndConfirmRawTransaction]
    returns [{ confirmed: false, signature: '', txData: null }] without
    throwing, and after the blockhash request it makes no remote call but
    the sends: no status poll, no wait, no monitoring. *)
Theorem failed_send_is_not_polled this net serializedTx tr :
  is_ok (getLatestBlockhash net) = true ->
  is_ok (sendRawTransaction net) = false ->
  (heliusService this = true -> is_ok (sendWithSender net) = false) ->
  exists evs,
    _sendAndConfirmRawTransaction this net serializedTx tr
    = (Ok (notConfirmed ""), tr ++ GetLatestBlockhash :: evs)
    /\ Forall (fun e => e = SendWithSender serializedTx
                        \/ e = SendRawTransaction serializedTx true 0) evs
    /\ In (SendRawTransaction serializedTx true 0) evs.
Proof.
  intros L R S.
  unfold _sendAndConfirmRawTransaction, broadcast, call. unfold_js.
  destruct (getLatestBlockhash net) as [latest|e]; [|discriminate]. simpl.
  destruct (sendRawTransaction net) as [sig|e]; [discriminate|].
  destruct (heliusService this).
  - destruct (sendWithSender net) as [sig|e']; [now specialize (S eq_refl)|]. simpl.
    exists [SendWithSender serializedTx; SendRawTransaction serializedTx true 0].
    rewrite <- !app_assoc. split; [reflexivity|].
    split; [repeat (econstructor; [solve [auto]|]); constructor | right; left; reflexivity].
  - simpl. exists [SendRawTransaction serializedTx true 0].
    rewrite <- !app_assoc. split; [reflexivity|].
    split; [repeat (econstructor; [solve [auto]|]); constructor | left; reflexivity].
Qed.

Lemma failed_send_is_not_polled_witness :
  exists evs,
    _sendAndConfirmRawTransaction Scenario.engine Scenario.sendRefused Scenario.payload []
    = (Ok (notConfirmed ""), [] ++ GetLatestBlockhash :: evs)
    /\ Forall (fun e => e = SendWithSender Scenario.payload
                        \/ e = SendRawTransaction Scenario.payload true 0) evs
    /\ In (SendRawTransaction Scenario.payload true 0) evs.
Proof.
  apply (failed_send_is_not_polled Scenario.engine Scenario.sendRefused Scenario.payload []);
    [reflexivity | reflexivity | discriminate].
Defined.

(** X5.  With a Helius service whose WebSocket is connected, a transaction
    the sender accepted is confirmed by one [monitorTransaction] call with
    a timeout of 60000 ms and by nothing else: no status poll, no wait, no
    re-broadcast.  The result carries the sender's signature with the
    monitor's [confirmed] and [txData]; a rejected monitor call gives
    [{ confirmed: false, signature, txData: null }]. *)
Theorem monitored_send_is_not_polled this net serializedTx tr signature :
  heliusService this = true ->
  isWebSocketConnected net = true ->
  is_ok (getLatestBlockhash net) = true ->
  sendWithSender net = Ok signature ->
  _sendAndConfirmRawTransaction this net serializedTx tr
  = (Ok match monitorTransaction net with
        | Ok m => {| Confirmation.confirmed := Monitor.confirmed m;
                     Confirmation.signature := signature;
                     Confirmation.txData := Monitor.txData m |}
        | Throw _ => notConfirmed signature
        end,
     tr ++ [GetLatestBlockhash; SendWithSender serializedTx;
            MonitorTransaction signature 60000]).
Proof.
  intros H W L S.
  unfold _sendAndConfirmRawTransaction, broadcast, call. unfold_js.
  destruct (getLatestBlockhash net) as [latest|e]; [|discriminate].
  rewrite H, S, W. simpl.
  destruct (monitorTransaction net) as [m|e]; simpl; rewrite <- !app_assoc; reflexivity.
Qed.

Lemma monitored_send_is_not_polled_witness :
  _sendAndConfirmRawTransaction Scenario.heliusEngine Scenario.monitored Scenario.payload []
  = (Ok {| Confirmation.confirmed := true;
           Confirmation.signature := "5ig";
           Confirmation.txData := Some (Scenario.txData 5000%float None) |},
     [GetLatestBlockhash; SendWithSender Scenario.payload; MonitorTransaction "5ig" 60000]).
Proof.
  apply (monitored_send_is_not_polled Scenario.heliusEngine Scenario.monitored
           Scenario.payload [] "5ig"); reflexivity.
Defined.

End SolanaSending.

Section ConfirmSignature.
Import Solana.
Variable stringify : string -> string.

(** X6.  [confirmTransaction]: (1) on an instance without a Helius service
    it always rejects, because [this.heliusService.isWebSocketConnected()]
    is called on [undefined]; (2) the message of every rejection starts
    with 'Failed to confirm transaction: '; (3) when the WebSocket is not
    connected, an answer with [confirmed: true] carries the transaction
    that [getTransaction] returned, that transaction has no (truthy)
    [meta.err], and the signature status is 'confirmed' or 'finalized';
    (4) a transaction whose status code is CONFIRMED is never rejected as
    failed: if the timer does not fire first and the status request
    answers, it is returned. *)
Theorem confirmTransaction_outcomes (S : Type) this w signature timeout (s : S) :
  (heliusService this = false ->
   exists e, confirmTransaction stringify this w signature timeout s
             = (Throw ("Failed to confirm transaction: " ++ e)%string, s))
  /\ (forall e s',
         confirmTransaction stringify this w signature timeout s = (Throw e, s') ->
         exists m, e = ("Failed to confirm transaction: " ++ m)%string)
  /\ (forall r s',
         confirmTransaction stringify this w signature timeout s = (Ok r, s') ->
         Confirm.isWebSocketConnected w = false ->
         Monitor.confirmed r = true ->
         exists txData st,
           Monitor.txData r = Some txData
           /\ Confirm.getTransaction w = Ok (Some txData)
           /\ hasError txData = false
           /\ Confirm.getSignatureStatus w = Ok (Some st)
           /\ (SignatureStatus.confirmationStatus st = Some confirmed
               \/ SignatureStatus.confirmationStatus st = Some finalized))
  /\ (forall txData,
         heliusService this = true ->
         Confirm.isWebSocketConnected w = false ->
         Confirm.timerFirst w = false ->
         Confirm.getTransaction w = Ok (Some txData) ->
         is_ok (Confirm.getSignatureStatus w) = true ->
         getTransactionStatusCode (Some txData) = CONFIRMED ->
         exists r, confirmTransaction stringify this w signature timeout s = (Ok r, s)
                   /\ Monitor.txData r = Some txData).
Proof.
  unfold confirmTransaction, confirmationPromise. unfold_js.
  split; [|split; [|split]].
  - intros ->. simpl. eauto.
  - intros e s'.
    destruct (heliusService this); simpl; [|intros E; inversion E; eauto].
    destruct (Confirm.isWebSocketConnected w).
    { destruct (Confirm.monitorTransaction w); intros E; inversion E; eauto. }
    destruct (Confirm.getTransaction w) as [[d|]|?]; [destruct (hasError d)| |];
      [| destruct (Confirm.getSignatureStatus w) | |];
      destruct (Confirm.timerFirst w); intros E; inversion E; eauto.
  - intros r s' E W C. rewrite W in E.
    destruct (heliusService this); simpl in E; [|discriminate].
    destruct (Confirm.getTransaction w) as [[d|]|?];
      [|destruct (Confirm.timerFirst w); inversion E; subst; discriminate|discriminate].
    destruct (hasError d) eqn:HE; [destruct (Confirm.timerFirst w); discriminate|].
    destruct (Confirm.getSignatureStatus w) as [[st|]|?];
      [| destruct (Confirm.timerFirst w); inversion E; subst; discriminate | discriminate].
    destruct (Confirm.timerFirst w); inversion E; subst; simpl in C.
    exists d, st. split; [reflexivity|]. split; [reflexivity|].
    split; [exact HE|]. split; [reflexivity|].
    destruct (SignatureStatus.confirmationStatus st) as [[| |]|]; try discriminate; auto.
  - intros d -> -> T -> G C. simpl. rewrite T.
    assert (HE : hasError d = false).
    { unfold hasError. unfold getTransactionStatusCode in C.
      destruct (TxData.meta d ≫= TxMeta.err); [discriminate|reflexivity]. }
    rewrite HE. destruct (Confirm.getSignatureStatus w); [|discriminate]. eauto.
Qed.

End ConfirmSignature.

(* ===================================================================== *)
(** ** Solana: balance changes of a liquidity position                   *)
(* ===================================================================== *)

Section ClmmSettlement.
Import Solana.

(** X7.  For a transaction the node returns and an owner that is a public
    key, [extractClmmBalanceChanges] fetches the parsed transaction once
    and reports, for the base and for the quote token, the balance change
    of the mint it tracks for that token: the native mint (the owner's
    lamport change) when the token's symbol is SOL or its address is the
    native mint, the token's own address otherwise; neither is ever
    [undefined].  The rent is the constant 0.00204928 when either token
    is SOL, and |SOL change| - txFee / 1e9 when neither is. *)
Theorem clmm_changes_follow_tokens isPublicKey tx signature owner base quote txFee tr :
  isPublicKey owner = true ->
  extractClmmBalanceChanges isPublicKey (Ok (Some tx)) signature owner base quote txFee tr
  = (Ok {| ClmmChanges.baseTokenChange :=
             Some (balanceChange tx owner (Spec.tracked_mint base));
           ClmmChanges.quoteTokenChange :=
             Some (balanceChange tx owner (Spec.tracked_mint quote));
           ClmmChanges.rent :=
             if Spec.is_sol_token base || Spec.is_sol_token quote
             then 0.00204928%float
             else (Math_abs (balanceChange tx owner SOL_NATIVE_MINT) - txFee / 1e9)%float |},
     tr ++ [GetParsedTransaction signature]).
Proof.
  intros K.
  unfold extractClmmBalanceChanges, Spec.tracked_mint, Spec.is_sol_token.
  destruct (String.eqb (TokenRef.symbol base) "SOL"
            || String.eqb (TokenRef.address base) SOL_NATIVE_MINT) eqn:B;
  destruct (String.eqb (TokenRef.symbol quote) "SOL"
            || String.eqb (TokenRef.address quote) SOL_NATIVE_MINT) eqn:Q;
  cbn [negb andb orb];
  unfold extractBalanceChangesAndFee, call; unfold_js; rewrite K; reflexivity.
Qed.

Lemma clmm_changes_follow_tokens_witness :
  let usdc := {| TokenRef.address := Scenario.usdcMint; TokenRef.symbol := "USDC" |} in
  let sol := {| TokenRef.address := SOL_NATIVE_MINT; TokenRef.symbol := "SOL" |} in
  let tx := Scenario.tokenTransfer Scenario.usdcMint 6 1000000 3500000 in
  extractClmmBalanceChanges (fun _ => true) (Ok (Some tx)) "5ig" Scenario.wallet usdc sol
    5000%float []
  = (Ok {| ClmmChanges.baseTokenChange := Some 2.5%float;
           ClmmChanges.quoteTokenChange :=
             Some ((999995000 - 1000000000) * LAMPORT_TO_SOL)%float;
           ClmmChanges.rent := 0.00204928%float |},
     [GetParsedTransaction "5ig"]).
Proof.
  cbv zeta.
  rewrite (clmm_changes_follow_tokens (fun _ => true)
             (Scenario.tokenTransfer Scenario.usdcMint 6 1000000 3500000)
             "5ig" Scenario.wallet
             {| TokenRef.address := Scenario.usdcMint; TokenRef.symbol := "USDC" |}
             {| TokenRef.address := SOL_NATIVE_MINT; TokenRef.symbol := "SOL" |}
             5000%float [] eq_refl).
  vm_compute. reflexivity.
Defined.

End ClmmSettlement.

(* ===================================================================== *)
(** ** Solana: tokens and named balances                                 *)
(* ===================================================================== *)

Section SolanaTokenLookup.
Import Solana.
Variable isPublicKey : string -> bool.
Variable tokenList : list TokenInfo.t.
Variable mintDecimals : string -> Result nat.

Local Abbreviation lookup := (getToken isPublicKey tokenList mintDecimals).
Local Abbreviation bySymbol s :=
  (fun token : TokenInfo.t =>
     String.eqb (SolanaPriorityFees.trim (toUpperCase (TokenInfo.symbol token)))
                (SolanaPriorityFees.trim (toUpperCase s))).
Local Abbreviation byAddress s :=
  (fun token : TokenInfo.t =>
     String.eqb (toLowerCase (TokenInfo.address token)) (toLowerCase s)).

(** X8.  [getToken] of the Solana chain: (1) a token it returns is a
    token of the list, or a dummy made for a valid public key whose mint
    account could be read: its address is the input, its decimals are the
    mint's, its symbol is 'DUMMY_' and the first four characters, its
    chain id is 101; (2) the symbol of a listed token always finds a
    listed token with the same symbol up to case and surrounding blanks;
    (3) the address of a listed token always finds a listed token;
    (4) when it returns [null], the input is the symbol of no listed
    token and the address of none. *)
Theorem solana_getToken_listed_or_dummy :
  (forall s t,
      lookup s = Some t ->
      In t tokenList
      \/ (isPublicKey s = true
          /\ mintDecimals s = Ok (TokenInfo.decimals t)
          /\ TokenInfo.address t = s
          /\ TokenInfo.symbol t = ("DUMMY_" ++ substring 0 4 s)%string
          /\ TokenInfo.chainId t = 101))
  /\ (forall t,
         In t tokenList ->
         exists t',
           lookup (TokenInfo.symbol t) = Some t'
           /\ In t' tokenList
           /\ SolanaPriorityFees.trim (toUpperCase (TokenInfo.symbol t'))
              = SolanaPriorityFees.trim (toUpperCase (TokenInfo.symbol t)))
  /\ (forall t,
         In t tokenList ->
         exists t', lookup (TokenInfo.address t) = Some t' /\ In t' tokenList)
  /\ (forall s,
         lookup s = None ->
         forall t, In t tokenList ->
                   TokenInfo.symbol t <> s /\ TokenInfo.address t <> s).
Proof.
  unfold getToken. cbv zeta. split; [|split; [|split]].
  - intros s t.
    destruct (List.find (bySymbol s) tokenList) as [t1|] eqn:F1.
    { intros E. inversion E. subst. left. now apply find_some in F1. }
    destruct (List.find (byAddress s) tokenList) as [t2|] eqn:F2.
    { intros E. inversion E. subst. left. now apply find_some in F2. }
    intros E. destruct (isPublicKey s); [|discriminate E].
    destruct (mintDecimals s) as [d|e]; [|discriminate E].
    inversion E. subst. simpl. right. repeat split; reflexivity.
  - intros t Hin.
    destruct (List.find (bySymbol (TokenInfo.symbol t)) tokenList) as [t1|] eqn:F1.
    + exists t1. apply find_some in F1 as [I1 P1]. apply String.eqb_eq in P1. auto.
    + exfalso. apply (find_none _ _ F1) in Hin. simpl in Hin.
      now rewrite String.eqb_refl in Hin.
  - intros t Hin.
    destruct (List.find (bySymbol (TokenInfo.address t)) tokenList) as [t1|] eqn:F1.
    + exists t1. now apply find_some in F1.
    + destruct (List.find (byAddress (TokenInfo.address t)) tokenList) as [t2|] eqn:F2.
      * exists t2. now apply find_some in F2.
      * exfalso. apply (find_none _ _ F2) in Hin. simpl in Hin.
        now rewrite String.eqb_refl in Hin.
  - intros s.
    destruct (List.find (bySymbol s) tokenList) as [t1|] eqn:F1; [discriminate|].
    destruct (List.find (byAddress s) tokenList) as [t2|] eqn:F2; [discriminate|].
    intros _ t Hin. split; intros <-.
    + apply (find_none _ _ F1) in Hin. simpl in Hin. now rewrite String.eqb_refl in Hin.
    + apply (find_none _ _ F2) in Hin. simpl in Hin. now rewrite String.eqb_refl in Hin.
Qed.

End SolanaTokenLookup.

Section SolanaNamedBalances.
Import Solana.
Variable isPublicKey : string -> bool.
Variable tokenList : list TokenInfo.t.

Lemma isSol_key_not_SOL symbol : isSol symbol = false -> symbol <> "SOL".
Proof. intros H ->. discriminate H. Qed.

Lemma isSol_listed_not_SOL symbol (t : TokenInfo.t) :
  isSol symbol = false ->
  String.eqb (toUpperCase (TokenInfo.symbol t)) (toUpperCase symbol) = true ->
  TokenInfo.symbol t <> "SOL".
Proof.
  intros H E X. apply String.eqb_eq in E. rewrite X in E.
  unfold isSol in H. rewrite <- E in H. discriminate H.
Qed.

Lemma handleEmptyTokenAccounts_named symbols :
  forall balances : gmap string number,
    let b := handleEmptyTokenAccounts balances (Some symbols) in
    b !! "SOL" = balances !! "SOL"
    /\ b !! "__proto__" = balances !! "__proto__"
    /\ (forall k, balances !! k = Some 0%float -> b !! k = Some 0%float)
    /\ (forall symbol, In symbol symbols -> isSol symbol = false ->
                       symbol <> "__proto__" -> b !! symbol = Some 0%float)
    /\ (forall k, is_Some (b !! k) ->
                  is_Some (balances !! k)
                  \/ exists symbol, In symbol symbols /\ isSol symbol = false /\ k = symbol).
Proof.
  unfold handleEmptyTokenAccounts.
  induction symbols as [|x l IH]; intros balances; cbn [foldl].
  { repeat split; auto. intros ? []. }
  set (step := if negb (isSol x) then _ else balances).
  destruct (IH step) as (Hsol & Hproto & Hzero & Hall & Hkeys). clear IH.
  assert (S1 : step !! "SOL" = balances !! "SOL").
  { subst step. destruct (isSol x) eqn:X; [reflexivity|]. simpl.
    rewrite lookup_assign_ne; [reflexivity|]. now apply isSol_key_not_SOL. }
  assert (S0 : step !! "__proto__" = balances !! "__proto__").
  { subst step. destruct (isSol x); [reflexivity|]. apply lookup_assign_proto. }
  assert (S2 : forall k, balances !! k = Some 0%float -> step !! k = Some 0%float).
  { intros k Hk. subst step. destruct (isSol x); [exact Hk|]. simpl.
    destruct (lookup_assign_is_Some x 0%float balances k (ex_intro _ _ Hk)) as [v Hv].
    rewrite Hv. apply lookup_assign_Some in Hv as [(_ & _ & ->)|Hv]; congruence. }
  split; [congruence|]. split; [congruence|]. split; [auto|]. split.
  - intros symbol Hin Hs Hp. apply in_inv in Hin.
    destruct Hin as [<-|Hin]; [|now apply Hall].
    apply Hzero. subst step. rewrite Hs. simpl. now apply lookup_assign_eq.
  - intros k Hk. apply Hkeys in Hk as [Hk|(symbol & I & N & E)].
    + subst step. destruct (isSol x) eqn:X; [now left|]. simpl in Hk.
      destruct Hk as [v Hk].
      apply lookup_assign_Some in Hk as [(-> & _ & _)|Hk]; [|left; eauto].
      right. exists x. split; [now left|]. now split.
    + right. exists symbol. split; [now right|]. now split.
Qed.

Lemma processSpecificTokens_named (w : BalanceWorld) tokenAccounts symbols :
  forall balances : gmap string number,
    let b := processSpecificTokens isPublicKey tokenList w tokenAccounts symbols balances in
    b !! "SOL" = balances !! "SOL"
    /\ b !! "__proto__" = balances !! "__proto__"
    /\ (forall k, is_Some (balances !! k) -> is_Some (b !! k))
    /\ (forall symbol, In symbol symbols -> isSol symbol = false ->
                       Spec.reported_as tokenList true symbol <> "__proto__" ->
                       is_Some (b !! Spec.reported_as tokenList true symbol))
    /\ (forall k, is_Some (b !! k) ->
                  is_Some (balances !! k)
                  \/ exists symbol, In symbol symbols /\ isSol symbol = false
                                    /\ k = Spec.reported_as tokenList true symbol).
Proof.
  unfold processSpecificTokens, Spec.reported_as.
  induction symbols as [|x l IH]; intros balances; cbn [foldl].
  { repeat split; auto. intros ? []. }
  set (step := if isSol x then balances else _).
  destruct (IH step) as (Hsol & Hproto & Hmono & Hall & Hkeys). clear IH.
  assert (S1 : step !! "SOL" = balances !! "SOL").
  { subst step. destruct (isSol x) eqn:X; [reflexivity|].
    destruct (List.find _ tokenList) as [t|] eqn:F.
    - apply find_some in F as [_ F].
      rewrite lookup_assign_ne; [reflexivity|]. now apply (isSol_listed_not_SOL x).
    - pose proof (isSol_key_not_SOL x X).
      destruct (isPublicKey x); [destruct (tokenAccounts !! x)|];
        now rewrite lookup_assign_ne. }
  assert (S0 : step !! "__proto__" = balances !! "__proto__").
  { subst step. destruct (isSol x); [reflexivity|].
    destruct (List.find _ tokenList) as [t|]; [apply lookup_assign_proto|].
    destruct (isPublicKey x); [destruct (tokenAccounts !! x)|];
      apply lookup_assign_proto. }
  assert (S2 : forall k, is_Some (balances !! k) -> is_Some (step !! k)).
  { intros k Hk. subst step. destruct (isSol x); [exact Hk|].
    destruct (List.find _ tokenList) as [t|]; [now apply lookup_assign_is_Some|].
    destruct (isPublicKey x); [destruct (tokenAccounts !! x)|];
      now apply lookup_assign_is_Some. }
  split; [congruence|]. split; [congruence|]. split; [auto|]. split.
  - intros symbol Hin Hs Hp. apply in_inv in Hin.
    destruct Hin as [<-|Hin]; [|now apply Hall].
    apply Hmono. subst step. rewrite Hs.
    destruct (List.find _ tokenList) as [t|].
    + rewrite lookup_assign_eq by assumption. eauto.
    + destruct (isPublicKey x); [destruct (tokenAccounts !! x)|];
        rewrite lookup_assign_eq by assumption; eauto.
  - intros k Hk. apply Hkeys in Hk as [Hk|(symbol & I & N & E)].
    2: { right. exists symbol. split; [now right|]. now split. }
    subst step. destruct (isSol x) eqn:X; [now left|].
    assert (R : forall key, (match List.find
                                     (fun t => String.eqb (toUpperCase (TokenInfo.symbol t))
                                                          (toUpperCase x)) tokenList with
                             | Some tokenInfo => TokenInfo.symbol tokenInfo
                             | None => x
                             end) = key ->
                            exists symbol, In symbol (x :: l) /\ isSol symbol = false
                                           /\ key = match List.find
                                                     (fun t => String.eqb (toUpperCase (TokenInfo.symbol t))
                                                                          (toUpperCase symbol)) tokenList with
                                                    | Some tokenInfo => TokenInfo.symbol tokenInfo
                                                    | None => symbol
                                                    end).
    { intros key <-. exists x. split; [now left|]. now split. }
    destruct Hk as [v Hk].
    destruct (List.find _ tokenList) as [t|].
    + apply lookup_assign_Some in Hk as [(E & _ & _)|Hk];
        [right; now apply R | left; eauto].
    + destruct (isPublicKey x); [destruct (tokenAccounts !! x)|];
        (apply lookup_assign_Some in Hk as [(E & _ & _)|Hk];
         [right; now apply R | left; eauto]).
Qed.

(** X9.  A Solana [getBalances] request that names tokens, for an address
    that is a public key, always returns, and it answers the names and
    nothing else.  The result has the key SOL, with the SOL balance,
    exactly when SOL (in any case) or the native mint was named.  Every
    other name is reported under a key: the name as given, with balance
    0, when the wallet has no token account at all; otherwise the listed
    symbol when the name matches a symbol of the token list up to case,
    and the name as given when it matches none.  That key has an entry
    unless it is [__proto__]: the result is a plain object, an assignment
    to [__proto__] creates no property, and the result never has that
    key.  Every key of the result is SOL or the key of a name. *)
Theorem solana_named_tokens_all_answered (S : Type) w address symbols fetchAll (s : S) :
  isPublicKey address = true ->
  symbols <> [] ->
  exists b,
    getBalances isPublicKey tokenList w address (Some symbols) fetchAll s = (Ok b, s)
    /\ b !! "SOL" = (if existsb isSol symbols then Some (getSolBalance w) else None)
    /\ b !! "__proto__" = None
    /\ (forall symbol,
           In symbol symbols -> isSol symbol = false ->
           Spec.reported_as tokenList
             (negb (Nat.eqb (size (fetchTokenAccounts w)) 0)) symbol <> "__proto__" ->
           is_Some (b !! Spec.reported_as tokenList
                           (negb (Nat.eqb (size (fetchTokenAccounts w)) 0)) symbol)
           /\ (size (fetchTokenAccounts w) = 0%nat -> b !! symbol = Some 0%float))
    /\ (forall k,
           is_Some (b !! k) ->
           k = "SOL"
           \/ exists symbol,
               In symbol symbols /\ isSol symbol = false
               /\ k = Spec.reported_as tokenList
                        (negb (Nat.eqb (size (fetchTokenAccounts w)) 0)) symbol).
Proof.
  intros K N.
  set (balances := (if existsb isSol symbols then {[ "SOL" := getSolBalance w ]} else ∅)
                   : gmap string number).
  assert (B : balances !! "SOL"
              = if existsb isSol symbols then Some (getSolBalance w) else None).
  { subst balances. destruct (existsb isSol symbols);
      [apply lookup_singleton_eq | apply lookup_empty]. }
  assert (B' : forall k, is_Some (balances !! k) -> k = "SOL").
  { intros k [v Hk]. subst balances. destruct (existsb isSol symbols).
    - apply lookup_singleton_Some in Hk. now destruct Hk.
    - now rewrite lookup_empty in Hk. }
  assert (B0 : balances !! "__proto__" = None).
  { destruct (balances !! "__proto__") eqn:E; [|reflexivity].
    assert (X : "__proto__" = "SOL") by (apply B'; eauto). discriminate X. }
  assert (G : exists b,
             (if Nat.eqb (size (fetchTokenAccounts w)) 0
              then ret (handleEmptyTokenAccounts balances (Some symbols))
              else ret (processSpecificTokens isPublicKey tokenList w
                          (fetchTokenAccounts w) symbols balances)) s = (Ok b, s)
             /\ b !! "SOL" = (if existsb isSol symbols then Some (getSolBalance w) else None)
             /\ b !! "__proto__" = None
             /\ (forall symbol,
                    In symbol symbols -> isSol symbol = false ->
                    Spec.reported_as tokenList
                      (negb (Nat.eqb (size (fetchTokenAccounts w)) 0)) symbol <> "__proto__" ->
                    is_Some (b !! Spec.reported_as tokenList
                                    (negb (Nat.eqb (size (fetchTokenAccounts w)) 0)) symbol)
                    /\ (size (fetchTokenAccounts w) = 0%nat -> b !! symbol = Some 0%float))
             /\ (forall k,
                    is_Some (b !! k) ->
                    k = "SOL"
                    \/ exists symbol,
                        In symbol symbols /\ isSol symbol = false
                        /\ k = Spec.reported_as tokenList
                                 (negb (Nat.eqb (size (fetchTokenAccounts w)) 0)) symbol)).
  { unfold ret. destruct (Nat.eqb (size (fetchTokenAccounts w)) 0) eqn:Z.
    - destruct (handleEmptyTokenAccounts_named symbols balances)
        as (Hsol & Hproto & _ & Hall & Hkeys).
      eexists. split; [reflexivity|]. split; [congruence|]. split; [congruence|]. split.
      + intros symbol Hin Hs Hp. unfold Spec.reported_as in Hp. cbn [negb] in Hp.
        specialize (Hall symbol Hin Hs Hp).
        split; [unfold Spec.reported_as; cbn [negb]; rewrite Hall; eauto
               | intros _; exact Hall].
      + intros k Hk. apply Hkeys in Hk as [Hk|Hk]; [left; now apply B'|now right].
    - destruct (processSpecificTokens_named w (fetchTokenAccounts w) symbols balances)
        as (Hsol & Hproto & _ & Hall & Hkeys).
      eexists. split; [reflexivity|]. split; [congruence|]. split; [congruence|]. split.
      + intros symbol Hin Hs Hp. split; [now apply Hall|].
        intros E. apply Nat.eqb_neq in Z. contradiction.
      + intros k Hk. apply Hkeys in Hk as [Hk|Hk]; [left; now apply B'|now right]. }
  unfold getBalances. rewrite K. cbn [negb]. fold balances.
  destruct symbols as [|x [|y l]]; [contradiction| |exact G].
  destruct (isSol x) eqn:X; [|exact G].
  exists balances. split; [reflexivity|]. split; [exact B|]. split; [exact B0|]. split.
  - intros symbol [<-|[]] Hs. congruence.
  - intros k Hk. left. now apply B'.
Qed.
End SolanaNamedBalances.

Lemma solana_named_tokens_all_answered_witness :
  exists b,
    Solana.getBalances (fun _ => true) [Scenario.usdc; Scenario.bonk] Scenario.solanaWallet
      Scenario.wallet (Some ["usdc"; "JUP"; "__proto__"]) false tt = (Ok b, tt)
    /\ b !! "SOL" = None
    /\ b !! "__proto__" = None
    /\ is_Some (b !! "USDC")
    /\ is_Some (b !! "JUP").
Proof.
  destruct (solana_named_tokens_all_answered (fun _ => true) [Scenario.usdc; Scenario.bonk]
              unit Scenario.solanaWallet Scenario.wallet
              ["usdc"; "JUP"; "__proto__"] false tt eq_refl ltac:(discriminate))
    as (b & E & Hsol & Hproto & Hall & _).
  exists b. split; [exact E|]. split; [exact Hsol|]. split; [exact Hproto|].
  split.
  - apply (Hall "usdc"); [now left | reflexivity | vm_compute; discriminate].
  - apply (Hall "JUP"); [right; now left | reflexivity | vm_compute; discriminate].
Defined.

(* ===================================================================== *)
(** ** EVM: token list, token maps and named balances                    *)
(* ===================================================================== *)

Section EthereumTokenFacts.
Import Ethereum.
Variable getAddress : string -> Result string.

Local Abbreviation bySymbol this s :=
  (fun token : TokenInfo.t =>
     String.eqb (toUpperCase (TokenInfo.symbol token)) (toUpperCase s)
     && (TokenInfo.chainId token =? chainId this)).

(** What [getToken] returns is a listed token of this chain. *)
Lemma evm_getToken_listed (this : Tokens) s t :
  getToken getAddress this s = Some t ->
  In t (tokenList this) /\ TokenInfo.chainId t = chainId this.
Proof.
  unfold getToken.
  destruct (List.find (bySymbol this s) (tokenList this)) as [t1|] eqn:F1.
  { intros E. inversion E. subst. apply find_some in F1 as [I P].
    apply andb_true_iff in P as [_ P]. apply Z.eqb_eq in P. auto. }
  destruct (getAddress s) as [a|e]; [|discriminate].
  intros F2. apply find_some in F2 as [I P].
  apply andb_true_iff in P as [_ P]. apply Z.eqb_eq in P. auto.
Qed.

(** A listed token of this chain is found by its symbol. *)
Lemma evm_getToken_by_symbol (this : Tokens) t :
  In t (tokenList this) ->
  TokenInfo.chainId t = chainId this ->
  exists t', getToken getAddress this (TokenInfo.symbol t) = Some t'
             /\ toUpperCase (TokenInfo.symbol t') = toUpperCase (TokenInfo.symbol t).
Proof.
  intros I C. unfold getToken.
  destruct (List.find (bySymbol this (TokenInfo.symbol t)) (tokenList this)) as [t1|] eqn:F1.
  - exists t1. split; [reflexivity|]. apply find_some in F1 as [_ P].
    apply andb_true_iff in P as [P _]. now apply String.eqb_eq in P.
  - exfalso. apply (find_none _ _ F1) in I. simpl in I.
    rewrite String.eqb_refl, C, Z.eqb_refl in I. discriminate.
Qed.

(** A name [getToken] does not know is the symbol of no listed token of
    this chain. *)
Lemma evm_getToken_unknown (this : Tokens) s t :
  getToken getAddress this s = None ->
  In t (tokenList this) ->
  TokenInfo.chainId t = chainId this ->
  TokenInfo.symbol t <> s.
Proof.
  intros N I C <-. destruct (evm_getToken_by_symbol this t I C) as (t' & E & _).
  congruence.
Qed.

(** X10.  [getTokensAsMap]: every entry of the map is keyed by the
    symbol of its own token (never by the input, which may be an address
    or differ in case), the token is a listed token of this chain, and it
    is what [getToken] returns for one of the inputs; conversely every
    input that [getToken] knows has an entry under the symbol of its
    token; inputs that [getToken] does not know are dropped, so the map
    is empty when none is known. *)
Theorem tokens_map_sound_and_complete (this : Tokens) (tokens : list string) :
  let m := getTokensAsMap getAddress this tokens in
  (forall k t,
      m !! k = Some t ->
      TokenInfo.symbol t = k
      /\ In t (tokenList this)
      /\ TokenInfo.chainId t = chainId this
      /\ exists s, In s tokens /\ getToken getAddress this s = Some t)
  /\ (forall s t,
         In s tokens -> getToken getAddress this s = Some t ->
         is_Some (m !! TokenInfo.symbol t))
  /\ ((forall s, In s tokens -> getToken getAddress this s = None) -> m = ∅).
Proof.
  cbv zeta. unfold getTokensAsMap.
  set (step := fun (tokenMap : gmap string TokenInfo.t) symbolOrAddress =>
                 match getToken getAddress this symbolOrAddress with
                 | Some tokenInfo => <[TokenInfo.symbol tokenInfo := tokenInfo]> tokenMap
                 | None => tokenMap
                 end).
  assert (G : forall names (m0 : gmap string TokenInfo.t),
             let m := foldl step m0 names in
             (forall k t, m !! k = Some t ->
                          m0 !! k = Some t
                          \/ (TokenInfo.symbol t = k
                              /\ exists s, In s names /\ getToken getAddress this s = Some t))
             /\ (forall k, is_Some (m0 !! k) -> is_Some (m !! k))
             /\ (forall s t, In s names -> getToken getAddress this s = Some t ->
                             is_Some (m !! TokenInfo.symbol t))
             /\ ((forall s, In s names -> getToken getAddress this s = None) -> m = m0)).
  { induction names as [|x l IH]; intros m0; cbn [foldl].
    { repeat split; auto. intros ? ? []. }
    destruct (IH (step m0 x)) as (Hs & Hm & Hc & He). clear IH.
    split; [|split; [|split]].
    - intros k t H. apply Hs in H as [H|(E & s & I & G)].
      + unfold step in H. destruct (getToken getAddress this x) as [tx|] eqn:X; [|now left].
        apply lookup_insert_Some in H as [[<- <-]|[_ H]]; [|now left].
        right. split; [reflexivity|]. exists x. split; [now left|exact X].
      + right. split; [exact E|]. exists s. split; [now right|exact G].
    - intros k H. apply Hm. unfold step.
      destruct (getToken getAddress this x) as [tx|]; [|exact H].
      rewrite lookup_insert_is_Some. destruct (decide (TokenInfo.symbol tx = k)); auto.
    - intros s t I G. apply in_inv in I as [<-|I]; [|now apply (Hc s)].
      apply Hm. unfold step. rewrite G. rewrite lookup_insert_eq. eauto.
    - intros N. rewrite He by (intros s I; apply N; now right).
      unfold step. now rewrite (N x) by now left. }
  destruct (G tokens ∅) as (Hs & _ & Hc & He).
  split; [|split; [exact Hc|exact He]].
  intros k t H. apply Hs in H as [H|(E & s & I & X)]; [now rewrite lookup_empty in H|].
  destruct (evm_getToken_listed this s t X) as [L C].
  split; [exact E|]. split; [exact L|]. split; [exact C|]. eauto.
Qed.
(** [normalizeTokens] succeeds exactly when every address is accepted;
    it keeps the order and the symbols. *)
Lemma normalizeTokens_spec cid raw :
  if forallb (fun r => is_ok (getAddress (TokenInfo.address r))) raw
  then exists l,
      normalizeTokens getAddress cid raw = Ok l
      /\ Forall2 (fun r t => TokenInfo.symbol t = TokenInfo.symbol r
                             /\ TokenInfo.chainId t = cid
                             /\ getAddress (TokenInfo.address r) = Ok (TokenInfo.address t)
                             /\ TokenInfo.decimals t = TokenInfo.decimals r
                             /\ TokenInfo.name t = TokenInfo.name r) raw l
  else exists e, normalizeTokens getAddress cid raw = Throw e.
Proof.
  induction raw as [|r raw IH]; simpl.
  - exists []. split; [reflexivity|constructor].
  - destruct (getAddress (TokenInfo.address r)) as [a|e] eqn:A; simpl; [|eauto].
    destruct (forallb _ raw).
    + destruct IH as (l & -> & F). eexists. split; [reflexivity|].
      constructor; [|exact F]. simpl. auto.
    + destruct IH as (e & ->). eauto.
Qed.

Lemma tokenMap_fold_spec (l : list TokenInfo.t) :
  forall m0 : gmap string TokenInfo.t,
    let m := foldl (fun tokenMap token => <[TokenInfo.symbol token := token]> tokenMap) m0 l in
    (forall k, is_Some (m0 !! k) -> is_Some (m !! k))
    /\ (forall t, In t l -> is_Some (m !! TokenInfo.symbol t))
    /\ (forall k t, m !! k = Some t -> m0 !! k = Some t \/ (In t l /\ TokenInfo.symbol t = k)).
Proof.
  induction l as [|x l IH]; intros m0; cbn [foldl].
  { repeat split; auto. intros ? []. }
  destruct (IH (<[TokenInfo.symbol x := x]> m0)) as (Hm & Hi & Hs). clear IH.
  split; [|split].
  - intros k H. apply Hm. rewrite lookup_insert_is_Some.
    destruct (decide (TokenInfo.symbol x = k)); auto.
  - intros t I. apply in_inv in I as [<-|I]; [|now apply Hi].
    apply Hm. rewrite lookup_insert_eq. eauto.
  - intros k t H. apply Hs in H as [H|[I E]]; [|right; split; [now right|exact E]].
    apply lookup_insert_Some in H as [[<- <-]|[_ H]]; [|now left].
    right. split; [now left|reflexivity].
Qed.

(** X11.  [loadTokens] is all or nothing.  When the token service
    rejects, or [getAddress] refuses the address of one loaded token, it
    throws and leaves the instance as it was.  Otherwise it returns; the
    new token list has the loaded symbols in the loaded order, every
    token carries the chain id of the instance, every loaded symbol is
    found by [getToken] (a token with the same symbol up to case) and is
    a key of [tokenMap]; the keys [tokenMap] had before are still there:
    a reload never removes a token from the map. *)
Theorem loadTokens_all_or_nothing (this : Tokens) (loaded : Result (list TokenInfo.t)) :
  match loaded with
  | Ok raw =>
      if forallb (fun r => is_ok (getAddress (TokenInfo.address r))) raw
      then exists this',
          loadTokens getAddress loaded this = (Ok tt, this')
          /\ chainId this' = chainId this
          /\ nativeTokenSymbol this' = nativeTokenSymbol this
          /\ map TokenInfo.symbol (tokenList this') = map TokenInfo.symbol raw
          /\ (forall t, In t (tokenList this') -> TokenInfo.chainId t = chainId this)
          /\ (forall r, In r raw ->
                exists t, getToken getAddress this' (TokenInfo.symbol r) = Some t
                          /\ toUpperCase (TokenInfo.symbol t) = toUpperCase (TokenInfo.symbol r))
          /\ (forall r, In r raw -> is_Some (tokenMap this' !! TokenInfo.symbol r))
          /\ (forall k, is_Some (tokenMap this !! k) -> is_Some (tokenMap this' !! k))
      else exists e, loadTokens getAddress loaded this = (Throw e, this)
  | Throw e => loadTokens getAddress loaded this = (Throw e, this)
  end.
Proof.
  unfold loadTokens. unfold_js. destruct loaded as [raw|e]; [|reflexivity].
  pose proof (normalizeTokens_spec (chainId this) raw) as N.
  destruct (forallb _ raw); [|destruct N as (e & ->); eauto].
  destruct N as (l & -> & F).
  destruct (tokenMap_fold_spec l (tokenMap this)) as (Hm & Hi & _). cbv zeta in Hm, Hi.
  assert (SY : map TokenInfo.symbol l = map TokenInfo.symbol raw).
  { clear -F. induction F as [|r t raw l (E & _) F IH]; simpl; congruence. }
  assert (CH : forall t, In t l -> TokenInfo.chainId t = chainId this).
  { clear -F. induction F as [|r t raw l (_ & C & _) F IH]; intros x I; [destruct I|].
    apply in_inv in I as [<-|I]; auto. }
  assert (IN : forall r, In r raw -> exists t, In t l /\ TokenInfo.symbol t = TokenInfo.symbol r).
  { clear -F. induction F as [|r t raw l (E & _) F IH]; intros x I; [destruct I|].
    apply in_inv in I as [<-|I]; [exists t; split; [now left|exact E]|].
    destruct (IH x I) as (t' & I' & E'). exists t'. split; [now right|exact E']. }
  eexists. split; [reflexivity|]. simpl.
  split; [reflexivity|]. split; [reflexivity|]. split; [exact SY|]. split; [exact CH|].
  split; [|split; [|exact Hm]].
  - intros r I. destruct (IN r I) as (t & It & Et).
    match goal with |- context [getToken getAddress ?T _] => set (this' := T) end.
    destruct (evm_getToken_by_symbol this' t It (CH t It)) as (t' & G & U).
    exists t'. rewrite <- Et. split; [exact G|exact U].
  - intros r I. destruct (IN r I) as (t & It & Et). rewrite <- Et. now apply Hi.
Qed.
(** What [getSpecificTokenBalances] adds to [balances]. *)
Lemma getSpecificTokenBalances_spec (this : Tokens) (w : BalanceWorld) names :
  forall balances : gmap string number,
    let b := getSpecificTokenBalances getAddress this w names balances in
    (forall k, is_Some (balances !! k) -> is_Some (b !! k))
    /\ b !! "__proto__" = balances !! "__proto__"
    /\ (forall name, getToken getAddress this name = None ->
                     balances !! name = Some 0%float -> b !! name = Some 0%float)
    /\ (forall name,
           In name names -> name <> nativeTokenSymbol this ->
           match getToken getAddress this name with
           | Some token =>
               TokenInfo.symbol token <> "__proto__" -> is_Some (b !! TokenInfo.symbol token)
           | None => name <> "__proto__" -> b !! name = Some 0%float
           end)
    /\ (forall k v,
           b !! k = Some v ->
           balances !! k = Some v
           \/ v = 0%float
           \/ exists token,
               In token (tokenList this) /\ TokenInfo.symbol token = k
               /\ getERC20Balance w (TokenInfo.address token) 5000 = Ok v).
Proof.
  unfold getSpecificTokenBalances.
  induction names as [|x l IH]; intros balances; cbn [foldl].
  { repeat split; auto. intros ? []. }
  set (step := if String.eqb x (nativeTokenSymbol this) then balances else _).
  destruct (IH step) as (Hm & Hp & Hz & Ha & Hs). clear IH.
  assert (S1 : forall k, is_Some (balances !! k) -> is_Some (step !! k)).
  { intros k H. subst step. destruct (String.eqb x (nativeTokenSymbol this)); [exact H|].
    destruct (getToken getAddress this x) as [t|];
      [destruct (getERC20Balance w (TokenInfo.address t) 5000)|];
      now apply lookup_assign_is_Some. }
  assert (S0 : step !! "__proto__" = balances !! "__proto__").
  { subst step. destruct (String.eqb x (nativeTokenSymbol this)); [reflexivity|].
    destruct (getToken getAddress this x) as [t|];
      [destruct (getERC20Balance w (TokenInfo.address t) 5000)|];
      apply lookup_assign_proto. }
  assert (S2 : forall name, getToken getAddress this name = None ->
                            balances !! name = Some 0%float -> step !! name = Some 0%float).
  { intros name N H. subst step.
    destruct (String.eqb x (nativeTokenSymbol this)); [exact H|].
    destruct (getToken getAddress this x) as [t|] eqn:X.
    - destruct (evm_getToken_listed this x t X) as [I C].
      pose proof (evm_getToken_unknown this name t N I C) as D.
      destruct (getERC20Balance w (TokenInfo.address t) 5000);
        now rewrite lookup_assign_ne.
    - destruct (lookup_assign_is_Some x 0%float balances name (ex_intro _ _ H)) as [v Hv].
      rewrite Hv. apply lookup_assign_Some in Hv as [(_ & _ & ->)|Hv]; congruence. }
  split; [auto|]. split; [congruence|]. split; [auto|]. split.
  - intros name I D. apply in_inv in I as [<-|I]; [|now apply Ha].
    destruct (getToken getAddress this x) as [t|] eqn:X.
    + intros P. apply Hm. subst step.
      destruct (String.eqb_spec x (nativeTokenSymbol this)); [contradiction|].
      destruct (getERC20Balance w (TokenInfo.address t) 5000);
        rewrite lookup_assign_eq by assumption; eauto.
    + intros P. apply (Hz x X). subst step.
      destruct (String.eqb_spec x (nativeTokenSymbol this)); [contradiction|].
      now apply lookup_assign_eq.
  - intros k v H. apply Hs in H as [H|H]; [|now right].
    subst step. destruct (String.eqb x (nativeTokenSymbol this)); [now left|].
    destruct (getToken getAddress this x) as [t|] eqn:X.
    + destruct (evm_getToken_listed this x t X) as [I _].
      destruct (getERC20Balance w (TokenInfo.address t) 5000) as [bal|e] eqn:B;
        apply lookup_assign_Some in H as [(-> & _ & ->)|H]; auto.
      right. right. exists t. auto.
    + apply lookup_assign_Some in H as [(-> & _ & ->)|H]; auto.
Qed.

(** X12.  An EVM [getBalances] request that names tokens returns when
    the wallet can be opened and the native balance read, and it answers
    every name: the native symbol has an entry; a name [getToken] knows
    has an entry under the symbol of its token; a name it does not know
    is reported under the name itself with balance 0.  The one key that
    is never answered is [__proto__]: the result is a plain object, an
    assignment to [__proto__] creates no property, and the result never
    has that key.  Nothing is invented: every entry is the native
    balance under the native symbol, or 0 (also when the balance call
    failed), or the balance fetched for a listed token with that
    symbol. *)
Theorem evm_named_tokens_all_answered (S : Type) (this : Tokens) (w : BalanceWorld)
    names (s : S) nativeBalance :
  names <> [] ->
  is_ok (isHardwareWallet w) = true ->
  (isHardwareWallet w = Ok false -> is_ok (getWallet w) = true) ->
  getNativeBalance w = Ok nativeBalance ->
  exists b,
    getBalances getAddress this w (Some names) s = (Ok b, s)
    /\ (nativeTokenSymbol this <> "__proto__" -> is_Some (b !! nativeTokenSymbol this))
    /\ b !! "__proto__" = None
    /\ (forall name,
           In name names -> name <> nativeTokenSymbol this ->
           match getToken getAddress this name with
           | Some token =>
               TokenInfo.symbol token <> "__proto__" -> is_Some (b !! TokenInfo.symbol token)
           | None => name <> "__proto__" -> b !! name = Some 0%float
           end)
    /\ (forall k v,
           b !! k = Some v ->
           (k = nativeTokenSymbol this /\ v = nativeBalance)
           \/ v = 0%float
           \/ exists token,
               In token (tokenList this) /\ TokenInfo.symbol token = k
               /\ getERC20Balance w (TokenInfo.address token) 5000 = Ok v).
Proof.
  intros N H W B.
  destruct (getSpecificTokenBalances_spec this w names
              (assign (nativeTokenSymbol this) nativeBalance ∅)) as (Hm & Hp & _ & Ha & Hs).
  exists (getSpecificTokenBalances getAddress this w names
            (assign (nativeTokenSymbol this) nativeBalance ∅)).
  split; [|split; [|split; [|split; [exact Ha|]]]].
  - unfold getBalances. unfold_js.
    destruct names as [|x l]; [contradiction|].
    destruct (isHardwareWallet w) as [[|]|e]; [| |discriminate]; simpl.
    + now rewrite B.
    + specialize (W eq_refl). destruct (getWallet w) as [[]|]; [|discriminate].
      now rewrite B.
  - intros P. apply Hm. rewrite lookup_assign_eq by assumption. eauto.
  - rewrite Hp, lookup_assign_proto. apply lookup_empty.
  - intros k v E. apply Hs in E as [E|E]; [|now right].
    left. apply lookup_assign_Some in E as [(-> & _ & ->)|E]; [auto|].
    rewrite lookup_empty in E. discriminate E.
Qed.
End EthereumTokenFacts.

Lemma evm_named_tokens_all_answered_witness :
  exists b,
    Ethereum.getBalances (fun a => Ok a) Scenario.mainnetTokens Scenario.evmWallet
      (Some ["weth"; "PEPE"; "__proto__"]) tt = (Ok b, tt)
    /\ is_Some (b !! "ETH")
    /\ b !! "__proto__" = None
    /\ is_Some (b !! "WETH")
    /\ b !! "PEPE" = Some 0%float.
Proof.
  destruct (evm_named_tokens_all_answered (fun a => Ok a) unit Scenario.mainnetTokens
              Scenario.evmWallet ["weth"; "PEPE"; "__proto__"] tt 0%float
              ltac:(discriminate) eq_refl (fun _ => eq_refl) eq_refl)
    as (b & E & Hn & Hp & Ha & _).
  exists b. split; [exact E|]. split; [apply Hn; discriminate|]. split; [exact Hp|].
  split.
  - apply (Ha "weth"); [now left | discriminate | discriminate].
  - apply (Ha "PEPE"); [right; now left | discriminate | discriminate].
Defined.

Section TokenDuplicates.
Import Ethereum.
Variable getAddress : string -> Result string.

(** The run of [loadTokens] on a list the token service returned. *)
Lemma loadTokens_run (this : Tokens) raw :
  match normalizeTokens getAddress (chainId this) raw with
  | Ok l =>
      loadTokens getAddress (Ok raw) this
      = (Ok tt,
         {| chainId := chainId this;
            nativeTokenSymbol := nativeTokenSymbol this;
            tokenList := l;
            tokenMap :=
              foldl (fun tokenMap token => <[TokenInfo.symbol token := token]> tokenMap)
                    (tokenMap this) l |})
  | Throw e => loadTokens getAddress (Ok raw) this = (Throw e, this)
  end.
Proof.
  unfold loadTokens. unfold_js.
  now destruct (normalizeTokens getAddress (chainId this) raw).
Qed.

Lemma find_app_first {A} (p : A -> bool) (l1 l2 : list A) :
  List.find p (l1 ++ l2)
  = match List.find p l1 with Some x => Some x | None => List.find p l2 end.
Proof.
  induction l1 as [|x l1 IH]; [reflexivity|]. simpl. now destruct (p x).
Qed.

Lemma find_agree {A} (p q : A -> bool) (l : list A) :
  (forall x, In x l -> p x = q x) -> List.find p l = List.find q l.
Proof.
  induction l as [|x l IH]; [reflexivity|]. intros H. simpl.
  rewrite (H x) by now left. destruct (q x); [reflexivity|].
  apply IH. intros y I. apply H. now right.
Qed.

Lemma tokenMap_fold_lookup (l : list TokenInfo.t) :
  forall (m0 : gmap string TokenInfo.t) k,
    foldl (fun tokenMap token => <[TokenInfo.symbol token := token]> tokenMap) m0 l !! k
    = match List.find (fun t => String.eqb (TokenInfo.symbol t) k) (rev l) with
      | Some t => Some t
      | None => m0 !! k
      end.
Proof.
  induction l as [|x l IH]; intros m0 k; [reflexivity|]. cbn [foldl rev].
  rewrite IH, find_app_first.
  destruct (List.find _ (rev l)); [reflexivity|]. simpl.
  destruct (String.eqb_spec (TokenInfo.symbol x) k) as [E|N].
  - subst k. apply lookup_insert_eq.
  - now rewrite lookup_insert_ne.
Qed.

(** X13.  After [loadTokens], [tokenMap] holds for every symbol the
    last token of the new list with exactly that symbol (and what it held
    before for the symbols the list does not have), while the search by
    symbol of [getToken] returns the first token of the list whose symbol
    matches up to case.  For a list with two tokens of one symbol the two
    therefore disagree: [getAllTokenBalances], which walks [tokenMap],
    and [getSpecificTokenBalances], which calls [getToken], read the
    balance of different contracts. *)
Theorem token_map_keeps_last_duplicate (this this' : Tokens) raw :
  loadTokens getAddress (Ok raw) this = (Ok tt, this') ->
  (forall k,
      tokenMap this' !! k
      = match List.find (fun t => String.eqb (TokenInfo.symbol t) k)
                        (rev (tokenList this')) with
        | Some t => Some t
        | None => tokenMap this !! k
        end)
  /\ (forall name,
         is_Some (List.find (fun t => String.eqb (toUpperCase (TokenInfo.symbol t))
                                                 (toUpperCase name)) (tokenList this')) ->
         getToken getAddress this' name
         = List.find (fun t => String.eqb (toUpperCase (TokenInfo.symbol t))
                                          (toUpperCase name)) (tokenList this')).
Proof.
  intros L.
  pose proof (loadTokens_run this raw) as R.
  pose proof (normalizeTokens_spec getAddress (chainId this) raw) as N.
  destruct (normalizeTokens getAddress (chainId this) raw) as [l|e];
    [|rewrite R in L; discriminate].
  rewrite R in L. inversion L. subst this'. clear L R. simpl.
  destruct (forallb _ raw); [|destruct N as (e & N); discriminate].
  destruct N as (l' & E & F). inversion E. subst l'. clear E.
  assert (CH : forall t, In t l -> TokenInfo.chainId t = chainId this).
  { clear -F. induction F as [|r t raw l (_ & C & _) F IH]; intros x I; [destruct I|].
    apply in_inv in I as [<-|I]; auto. }
  split; [intros k; apply tokenMap_fold_lookup|].
  intros name [t Ft]. unfold getToken. simpl.
  rewrite (find_agree
             (fun token => String.eqb (toUpperCase (TokenInfo.symbol token)) (toUpperCase name)
                           && (TokenInfo.chainId token =? chainId this))
             (fun t => String.eqb (toUpperCase (TokenInfo.symbol t)) (toUpperCase name))).
  - now rewrite Ft.
  - intros x I. rewrite (CH x I), Z.eqb_refl. apply andb_true_r.
Qed.
End TokenDuplicates.

Lemma token_map_keeps_last_duplicate_witness :
  let loaded :=
    {| Ethereum.chainId := 1;
       Ethereum.nativeTokenSymbol := "ETH";
       Ethereum.tokenList := [Scenario.usdcFirst; Scenario.usdcSecond];
       Ethereum.tokenMap := <["USDC" := Scenario.usdcSecond]> ∅ |} in
  Ethereum.tokenMap loaded !! "USDC" = Some Scenario.usdcSecond
  /\ Ethereum.getToken (fun a => Ok a) loaded "usdc" = Some Scenario.usdcFirst.
Proof.
  cbv zeta.
  destruct (token_map_keeps_last_duplicate (fun a => Ok a) Scenario.mainnetUnloaded
              {| Ethereum.chainId := 1;
                 Ethereum.nativeTokenSymbol := "ETH";
                 Ethereum.tokenList := [Scenario.usdcFirst; Scenario.usdcSecond];
                 Ethereum.tokenMap := <["USDC" := Scenario.usdcSecond]> ∅ |}
              [Scenario.usdcFirst; Scenario.usdcSecond]) as [M G].
  - vm_compute. reflexivity.
  - split; [rewrite M; reflexivity|].
    rewrite G; [reflexivity|]. simpl. eauto.
Defined.

(* ===================================================================== *)
(** ** EVM: gas options from the cache                                   *)
(* ===================================================================== *)

Section StaleGasOptions.
Import Ethereum.
Variable formatGwei : Z -> number.
Variable toNumber : Z -> Result number.
Variable parseUnitsGwei : number -> Result Z.

(** X14.  On a network with EIP-1559 pricing, when the caller gives no
    gas price (or 0 or NaN) and the static cache holds an EIP-1559 pair,
    [prepareGasOptions] builds type-2 options from that pair whatever its
    age and whichever instance wrote it: the 10 s lifetime of the cache
    is not checked, the floor of this instance is not applied, the
    estimator is not called and the cache is left as it is. *)
Theorem cached_fee_pair_used_at_any_age this gasPrice gasLimit w1 w2 c
    maxFee priority maxFeeWei priorityWei :
  supportsEIP1559 this = true ->
  Spec.omitted gasPrice = true ->
  cachedEIP1559 c = Some (maxFee, priority) ->
  parseUnitsGwei maxFee = Ok maxFeeWei ->
  parseUnitsGwei priority = Ok priorityWei ->
  prepareGasOptions formatGwei toNumber parseUnitsGwei this gasPrice gasLimit w1 w2 c
  = (Ok {| GasOptions.gasLimit := default DEFAULT_GAS_LIMIT gasLimit;
           GasOptions.type := Some 2;
           GasOptions.maxFeePerGas := Some maxFeeWei;
           GasOptions.maxPriorityFeePerGas := Some priorityWei;
           GasOptions.gasPrice := None |}, c).
Proof.
  intros E O C M P. unfold prepareGasOptions, dynamicFeeOptions. rewrite E. unfold_js.
  assert (G : match gasPrice with
              | Some g => if truthy g then Some g else None
              | None => None
              end = None).
  { destruct gasPrice as [g|]; [|reflexivity]. unfold truthy. simpl in O. now rewrite O. }
  rewrite G, C, M, P. destruct gasLimit; reflexivity.
Qed.
End StaleGasOptions.

Lemma cached_fee_pair_used_at_any_age_witness :
  Ethereum.prepareGasOptions (fun _ => 0%float) (fun _ => Throw "unused")
    (fun g => if (g =? 30)%float then Ok 30000000000 else Ok 2000000000)
    (Scenario.evmInstance "base" 50%float) (Some 0%float) None
    (Scenario.evmDown 86400000) (Scenario.evmDown 86400000)
    (Scenario.cachedPair 0 30%float 2%float)
  = (Ok {| Ethereum.GasOptions.gasLimit := 300000%float;
           Ethereum.GasOptions.type := Some 2;
           Ethereum.GasOptions.maxFeePerGas := Some 30000000000;
           Ethereum.GasOptions.maxPriorityFeePerGas := Some 2000000000;
           Ethereum.GasOptions.gasPrice := None |},
     Scenario.cachedPair 0 30%float 2%float).
Proof.
  apply (cached_fee_pair_used_at_any_age (fun _ => 0%float) (fun _ => Throw "unused")
           (fun g => if (g =? 30)%float then Ok 30000000000 else Ok 2000000000)
           (Scenario.evmInstance "base" 50%float) (Some 0%float) None
           (Scenario.evmDown 86400000) (Scenario.evmDown 86400000)
           (Scenario.cachedPair 0 30%float 2%float) 30%float 2%float);
    reflexivity.
Defined.

(* ===================================================================== *)
(** ** Instance registries                                               *)
(* ===================================================================== *)

Section InstanceRegistries.
Variable getAddress : string -> Result string.



(** X16.  [ETCSwap.getInstance] stores the new instance before it runs
    [init] on it: when [init] fails the call throws, but the instance
    stays registered, and every later call for that network returns it
    ([_ready] still false) without running [init] again. *)
Theorem etcswap_failed_init_is_cached setup network registry e registry' :
  ETCSwap.getInstance setup network registry = (Throw e, registry') ->
  forall setup',
    ETCSwap.getInstance setup' network registry'
    = (Ok {| ETCSwap.networkName := network; ETCSwap._ready := false |}, registry').
Proof.
  unfold ETCSwap.getInstance at 1, ETCSwap.init. unfold_js.
  destruct (default ∅ registry !! network) as [i|] eqn:L; [discriminate|].
  destruct setup as [[]|e0]; simpl; [discriminate|].
  intros E. inversion E. subst. intros setup'.
  unfold ETCSwap.getInstance. unfold_js. simpl. rewrite lookup_insert_eq. reflexivity.
Qed.

End InstanceRegistries.

Lemma etcswap_failed_init_is_cached_witness :
  ETCSwap.getInstance (Ok tt) "classic"
    (Some {[ "classic" := {| ETCSwap.networkName := "classic"; ETCSwap._ready := false |} ]})
  = (Ok {| ETCSwap.networkName := "classic"; ETCSwap._ready := false |},
     Some {[ "classic" := {| ETCSwap.networkName := "classic"; ETCSwap._ready := false |} ]}).
Proof.
  apply (etcswap_failed_init_is_cached (Throw "could not detect network") "classic" None
           "could not detect network"). reflexivity.
Defined.

(* ===================================================================== *)
(** ** ETCSwap: utilities and routes                                     *)
(* ===================================================================== *)

Section FractionStrings.
Import EtcSwapUtils.

Lemma split_length c s : length (split c s) = S (Spec.occurrences c s).
Proof.
  induction s as [|c' s IH]; [reflexivity|]. simpl.
  destruct (Ascii.eqb c' c); simpl; [now rewrite IH|].
  destruct (split c s) as [|piece pieces]; [discriminate IH|exact IH].
Qed.

Lemma includes_char c s :
  includes (String c EmptyString) s = negb (Nat.eqb (Spec.occurrences c s) 0).
Proof.
  induction s as [|c' s IH]; [reflexivity|]. simpl.
  destruct (Ascii.eqb_spec c' c) as [->|N]; simpl.
  - destruct (ascii_dec c c) as [_|N]; [|contradiction]. now destruct s.
  - destruct (ascii_dec c c') as [E|_]; [congruence|exact IH].
Qed.

(** X17.  [isFractionString] accepts exactly the strings with one
    slash: nothing is checked about what stands before or after it (the
    string that is only a slash is accepted). *)
Theorem fraction_string_has_one_slash value :
  isFractionString value = Nat.eqb (Spec.occurrences "/" value) 1.
Proof.
  unfold isFractionString. rewrite includes_char, split_length.
  destruct (Spec.occurrences "/" value) as [|[|n]]; reflexivity.
Qed.
End FractionStrings.

Section EtcSwapPools.
Import EtcSwapUtils.

(** X18.  [getETCSwapPoolInfo] never throws and never describes a CLMM
    pool.  Asked for a 'clmm' pool it answers [null]; any pool it does
    describe has type 'amm', its base and quote addresses are what
    [token0()] and [token1()] of the pair contract answered, and both
    instances could be obtained. *)
Theorem pool_info_is_never_clmm (S : Type) w poolAddress network hint (s : S) :
  exists r,
    getETCSwapPoolInfo w poolAddress network hint s = (Ok r, s)
    /\ (hint = Some clmm -> r = None)
    /\ (forall info,
           r = Some info ->
           poolType info = amm
           /\ token0 w = Ok (baseTokenAddress info)
           /\ token1 w = Ok (quoteTokenAddress info)
           /\ is_ok (ethereumInstance w) = true
           /\ is_ok (etcSwapInstance w) = true).
Proof.
  unfold getETCSwapPoolInfo, getV2PoolInfo, getV3PoolInfo. unfold_js.
  destruct hint as [[|]|]; simpl.
  2: { eexists. split; [reflexivity|]. split; [reflexivity|]. discriminate. }
  all: destruct (ethereumInstance w) as [[]|]; simpl;
    [destruct (etcSwapInstance w) as [[]|]; simpl;
     [destruct (token0 w) as [a0|]; simpl;
      [destruct (token1 w) as [a1|]; simpl|]|]|];
    eexists; (split; [reflexivity|]); (split; [discriminate|]);
    intros info E; inversion E; subst; simpl; auto.
Qed.

(** X19.  The handler of GET /pool-info of the ETCSwap CLMM connector
    never sends a pool: for every request and whatever the chain
    answers, it ends in the 500 error 'Failed to fetch pool info'. *)
Theorem clmm_pool_info_route_always_fails parseFloat sanitizeErrorMessage w network
    poolAddress :
  EtcSwapClmmPoolInfo.poolInfoRoute parseFloat sanitizeErrorMessage w network poolAddress
  = Http.Raised (Http.internalServerError "Failed to fetch pool info").
Proof.
  unfold EtcSwapClmmPoolInfo.poolInfoRoute, EtcSwapClmmPoolInfo.body.
  unfold getETCSwapPoolInfo, getV3PoolInfo. unfold_js.
  destruct (EtcSwapClmmPoolInfo.etcSwap w) as [[]|]; [|reflexivity].
  destruct (Http.missing poolAddress); reflexivity.
Qed.
End EtcSwapPools.

Section AmmQuoteRoute.
Import EtcSwapAmmQuoteSwap.
Variable Reply : Type.

(** X20.  The handler of GET /quote-swap of the ETCSwap AMM connector
    never sends a quote for a request without [poolAddress]:
    [findDefaultPool] finds no pool, so a complete request (base token,
    amount, side and quote token given, connector available) ends in the
    404 error 'No AMM pool found for pair <base>-<quote>', and every
    other request without [poolAddress] ends in an error too. *)
Theorem amm_quote_needs_pool_address (w : World Reply) (q : Query) :
  Http.missing (poolAddress q) = true ->
  exists e,
    quoteSwapRoute Reply w q = Http.Raised e
    /\ (incomplete q = false ->
        Http.missing (quoteToken q) = false ->
        (exists instance, etcSwap Reply w = Http.Sent instance) ->
        e = Http.notFound ("No AMM pool found for pair " ++ default "" (baseToken q)
                           ++ "-" ++ default "" (quoteToken q))%string).
Proof.
  intros P. unfold quoteSwapRoute, body. rewrite P. cbn [negb].
  destruct (incomplete q); [eexists; split; [reflexivity|discriminate]|].
  destruct (etcSwap Reply w) as [instance|e]; simpl.
  2: { eexists. split; [reflexivity|]. intros _ _ (i & E). discriminate. }
  destruct (Http.missing (quoteToken q)); simpl.
  { eexists. split; [reflexivity|]. discriminate. }
  eexists. split; [reflexivity|]. intros _ _ _. reflexivity.
Qed.
End AmmQuoteRoute.

Lemma amm_quote_needs_pool_address_witness :
  let w : EtcSwapAmmQuoteSwap.World unit :=
    {| EtcSwapAmmQuoteSwap.etcSwap :=
         Http.Sent {| ETCSwap.networkName := "classic"; ETCSwap._ready := true |};
       EtcSwapAmmQuoteSwap.pair :=
         {| EtcSwapUtils.ethereumInstance := Ok tt;
            EtcSwapUtils.etcSwapInstance := Ok tt;
            EtcSwapUtils.token0 := Ok "0x1953cab0E5bFa6D4a9BaD6E05fD46C1CC6527a5a";
            EtcSwapUtils.token1 := Ok "0xDE093684c796204224BC081f937aa059D903c52a" |};
       EtcSwapAmmQuoteSwap.getTokenBySymbol := fun _ => Http.Sent None;
       EtcSwapAmmQuoteSwap.formatSwapQuote := fun _ _ _ _ _ _ _ => Http.Sent tt |} in
  let q :=
    {| EtcSwapAmmQuoteSwap.network := "classic";
       EtcSwapAmmQuoteSwap.poolAddress := None;
       EtcSwapAmmQuoteSwap.baseToken := Some "WETC";
       EtcSwapAmmQuoteSwap.quoteToken := Some "USC";
       EtcSwapAmmQuoteSwap.amount := Some 0.001%float;
       EtcSwapAmmQuoteSwap.side := Some SELL;
       EtcSwapAmmQuoteSwap.slippagePct := Some 1%float |} in
  EtcSwapAmmQuoteSwap.quoteSwapRoute unit w q
  = Http.Raised (Http.notFound "No AMM pool found for pair WETC-USC").
Proof.
  cbv zeta.
  match goal with
  | |- EtcSwapAmmQuoteSwap.quoteSwapRoute unit ?w ?q = _ =>
      destruct (amm_quote_needs_pool_address unit w q eq_refl) as (e & E & H)
  end.
  rewrite E. f_equal. apply H; [reflexivity | reflexivity | eauto].
Defined.

Section AmmQuoteErrors.
Import EtcSwapAmmQuoteSwap.
Variable Reply : Type.

(** X21.  Every error the handler of GET /quote-swap of the ETCSwap
    AMM connector raises carries an HTTP status code.  An error that was
    thrown with one is passed on unchanged; any other error is replaced
    by one of three fixed errors (400 'Invalid request', 404 'Resource
    not found', 500 'Error getting swap quote'), so its own message is
    never sent. *)
Theorem amm_quote_errors_carry_status (w : World Reply) (q : Query) :
  match quoteSwapRoute Reply w q with
  | Http.Sent _ => True
  | Http.Raised e =>
      hasStatusCode e = true
      /\ (body Reply w q = Http.Raised e
          \/ In e [Http.badRequest "Invalid request";
                   Http.notFound "Resource not found";
                   Http.internalServerError "Error getting swap quote"])
  end.
Proof.
  unfold quoteSwapRoute. destruct (body Reply w q) as [reply|e]; [exact I|].
  unfold rethrow. destruct (hasStatusCode e) eqn:H; [split; [exact H|now left]|].
  destruct (EtcSwapUtils.includes "Insufficient liquidity" (Http.message e));
    [split; [reflexivity|right; simpl; auto]|].
  destruct (EtcSwapUtils.includes "Pool not found" (Http.message e)
            || EtcSwapUtils.includes "No AMM pool found" (Http.message e));
    [split; [reflexivity|right; simpl; auto]|].
  destruct (EtcSwapUtils.includes "token not found" (Http.message e));
    split; try reflexivity; right; simpl; auto.
Qed.
End AmmQuoteErrors.

Section ExecuteQuote.
Import EtcSwapExecuteQuote.
Variable BigNumber_from : string -> Result Z.

(** X22.  [executeQuote] returns only for a receipt with status 1, and
    what it returns is what [handleTransactionConfirmation] returns for
    that receipt, the quote's token addresses, its exact amounts and its
    side.  The quote is deleted from the cache as the last effect of a
    call that returns, and only then: a call that throws (quote missing,
    wallet, allowance, approval, send, missing receipt, status other
    than 1) never deletes it. *)
Theorem executed_quote_is_a_confirmed_receipt w walletAddress network quoteId gasPrice
    maxGas tr :
  exists r evs,
    executeQuote BigNumber_from w walletAddress network quoteId gasPrice maxGas tr
    = (r, tr ++ evs)
    /\ match r with
       | Ok response =>
           exists quote receipt sent,
             cached w = Some quote
             /\ waitForTransactionWithTimeout w = Ok (Some receipt)
             /\ Ethereum.Receipt.status receipt = Some 1
             /\ response
                = Ethereum.handleTransactionConfirmation (Some receipt)
                    (address (inputToken quote)) (address (outputToken quote))
                    (inputAmountExact quote) (outputAmountExact quote) (Some (side quote))
             /\ evs = sent ++ [DeleteQuote quoteId]
             /\ ~ In (DeleteQuote quoteId) sent
       | Throw _ => ~ In (DeleteQuote quoteId) evs
       end.
Proof.
  unfold executeQuote, call. unfold_js.
  destruct (cached w) as [quote|];
    [destruct (getInstance w) as [native|e];
     [destruct (getWallet w) as [[]|e];
      [destruct (negb (String.eqb (address (inputToken quote)) native));
       [destruct (getERC20Allowance w) as [a|e];
        [destruct (a <? inputAmountQuotient quote);
         [destruct (approveERC20 w) as [[]|e]|]|]|]|]|]|].
  all: cbv beta iota.
  all: try (destruct (Http.missing gasPrice);
            [|destruct (BigNumber_from (default "" gasPrice)) as [price|e]];
            cbv beta iota).
  all: try (destruct (sendTransaction w) as [[]|e];
            [destruct (waitForTransactionWithTimeout w) as [[receipt|]|e];
             [destruct (Ethereum.Receipt.status receipt) as [[|[| |]|]|] eqn:ST| |]|];
            cbv beta iota).
  all: rewrite <- ?app_assoc; cbn [app].
  all: first [ (eexists _, []; rewrite app_nil_r; split; [reflexivity|])
             | (eexists _, _; split; [reflexivity|]) ].
  all: try (cbn [In]; intuition discriminate).
  all: eexists quote, receipt, _; (split; [reflexivity|]); (split; [reflexivity|]);
    (split; [exact ST|]); split;
    [ unfold Ethereum.handleTransactionConfirmation, Ethereum.receiptFee; rewrite ST;
      destruct (side quote); reflexivity | ].
  all: first [ (split; [exact (eq_refl : [_; DeleteQuote quoteId] = [_] ++ [DeleteQuote quoteId])|])
             | (split; [exact (eq_refl : [_; _; DeleteQuote quoteId] = [_; _] ++ [DeleteQuote quoteId])|]) ].
  all: cbn [In]; intuition discriminate.
Qed.
End ExecuteQuote.
